(** * sidecar-penguin: the bootable-drive pipeline and the checksum helper

    A shallow embedding of [src/modules/bootable_creator.py] and of
    [ISOHandler.calculate_checksum] from [src/modules/iso_handler.py].

    Python [int] is [Z], [str] is [string], [bytes] is [list byte].
    Everything the code asks of the operating system ([platform.system],
    [os.path.exists], [shutil.which], [subprocess.run], [subprocess.Popen],
    [open]) is answered by an environment record; everything it does to the
    outside world (progress callbacks, stage calls, files written, processes
    started) is recorded, in order, in a trace. Logging is not modelled. *)

From Stdlib Require Import ZArith List Bool Lia.
From Stdlib.Strings Require Import String Ascii Byte.
From Stdlib Require Import DecimalString Sorted.
From Equations Require Import Equations.
From Equations.Prop Require Import Logic.
Import ListNotations.

Local Open Scope string_scope.
Local Open Scope list_scope.
Local Open Scope Z_scope.

(* ===================================================================== *)
(** ** Python string helpers used by the source *)
(* ===================================================================== *)

(** Text is a string of 8-bit characters. The helpers that look at the
    class of a character (digit, blank, letter case) agree with Python
    on ASCII text ([isascii] below); text with other characters is
    outside what they model. *)

Module PyStr.

(** [str(n)] for an [int]. *)
Definition str_of_int (n : Z) : string :=
  NilZero.string_of_int (Z.to_int n).

(** [s.startswith(p)]. *)
Fixpoint startswith (p s : string) : bool :=
  match p, s with
  | EmptyString, _ => true
  | String a p', String b s' => Ascii.eqb a b && startswith p' s'
  | String _ _, EmptyString => false
  end.

(** [p in s]: substring test. *)
Fixpoint contains (p s : string) : bool :=
  startswith p s ||
  match s with
  | EmptyString => false
  | String _ s' => contains p s'
  end.

(** Membership of a character in a set of characters given as a string. *)
Fixpoint mem_char (c : ascii) (set : string) : bool :=
  match set with
  | EmptyString => false
  | String d set' => Ascii.eqb c d || mem_char c set'
  end.

(** [s.rstrip(chars)]: drop the longest suffix made of characters of
    [chars]. *)
Fixpoint rstrip (chars s : string) : string :=
  match s with
  | EmptyString => EmptyString
  | String c s' =>
      match rstrip chars s' with
      | EmptyString => if mem_char c chars then EmptyString
                       else String c EmptyString
      | r => String c r
      end
  end.

(** [s.lstrip(chars)]. *)
Fixpoint lstrip (chars s : string) : string :=
  match s with
  | EmptyString => EmptyString
  | String c s' => if mem_char c chars then lstrip chars s' else s
  end.

(** The ASCII characters for which [str.isspace] holds: tab, line feed,
    vertical tab, form feed, carriage return, the four separators
    0x1c-0x1f and the space. *)
Definition whitespace : string :=
  String (ascii_of_nat 9) (String (ascii_of_nat 10) (String (ascii_of_nat 11)
  (String (ascii_of_nat 12) (String (ascii_of_nat 13) (String (ascii_of_nat 28)
  (String (ascii_of_nat 29) (String (ascii_of_nat 30) (String (ascii_of_nat 31)
  (String (ascii_of_nat 32) EmptyString))))))))).

(** [s.strip()]. *)
Definition strip (s : string) : string := rstrip whitespace (lstrip whitespace s).

Definition newline : ascii := ascii_of_nat 10.

(** [s.split(newline)]: never empty, the empty string splits into a
    single empty line. *)
Fixpoint split_lines (s : string) : list string :=
  match s with
  | EmptyString => [EmptyString]
  | String c s' =>
      if Ascii.eqb c newline then EmptyString :: split_lines s'
      else match split_lines s' with
           | l :: ls => String c l :: ls
           | [] => [String c EmptyString]
           end
  end.

Definition is_digit (c : ascii) : bool :=
  (48 <=? nat_of_ascii c)%nat && (nat_of_ascii c <=? 57)%nat.

(** The longest run of decimal digits at the start of [s] (the greedy
    [\d+] of a regular expression, on ASCII text). *)
Fixpoint take_digits (s : string) : string :=
  match s with
  | EmptyString => EmptyString
  | String c s' => if is_digit c then String c (take_digits s') else EmptyString
  end.

Fixpoint drop (n : nat) (s : string) : string :=
  match n, s with
  | O, _ => s
  | S n', String _ s' => drop n' s'
  | S _, EmptyString => EmptyString
  end.

End PyStr.

(* ===================================================================== *)
(** ** SHA-256, the function behind [hashlib.sha256] (FIPS 180-4) *)
(* ===================================================================== *)

Module Sha256.

Definition word := Z.

Definition wrap (x : Z) : word := x mod 2 ^ 32.
Definition add32 (x y : word) : word := wrap (x + y).
Definition shr (n : Z) (x : word) : word := Z.shiftr x n.
Definition rotr (n : Z) (x : word) : word :=
  Z.lor (Z.shiftr x n) (wrap (Z.shiftl x (32 - n))).
Definition not32 (x : word) : word := Z.lxor x 0xffffffff.

Definition Ch (x y z : word) : word :=
  Z.lxor (Z.land x y) (Z.land (not32 x) z).
Definition Maj (x y z : word) : word :=
  Z.lxor (Z.lxor (Z.land x y) (Z.land x z)) (Z.land y z).
Definition Sigma0 (x : word) : word :=
  Z.lxor (Z.lxor (rotr 2 x) (rotr 13 x)) (rotr 22 x).
Definition Sigma1 (x : word) : word :=
  Z.lxor (Z.lxor (rotr 6 x) (rotr 11 x)) (rotr 25 x).
Definition sigma0 (x : word) : word :=
  Z.lxor (Z.lxor (rotr 7 x) (rotr 18 x)) (shr 3 x).
Definition sigma1 (x : word) : word :=
  Z.lxor (Z.lxor (rotr 17 x) (rotr 19 x)) (shr 10 x).

(** The constants are defined as FIPS 180-4 defines them: [K] holds the
    first 32 bits of the fractional parts of the cube roots of the first
    64 primes, [H0] those of the square roots of the first 8. *)
Definition is_prime (n : Z) : bool :=
  (2 <=? n)
  && forallb (fun d => negb (n mod Z.of_nat d =? 0))
       (seq 2 (Z.to_nat n - 2)).

Definition primes : list Z :=
  filter is_prime (map Z.of_nat (seq 2 310)).

(** Floor of the cube root of [n], one bit at a time from bit [b - 1]
    down. *)
Fixpoint cbrt_bits (b : nat) (n r : Z) : Z :=
  match b with
  | O => r
  | S b' =>
      let r' := r + 2 ^ Z.of_nat b' in
      cbrt_bits b' n (if r' * r' * r' <=? n then r' else r)
  end.

Definition cbrt (n : Z) : Z := cbrt_bits 40 n 0.

Definition K : list word :=
  map (fun p => wrap (cbrt (p * 2 ^ 96))) primes.

Definition H0 : list word :=
  map (fun p => wrap (Z.sqrt (p * 2 ^ 64))) (firstn 8 primes).

Definition byte_val (b : byte) : Z := Z.of_N (Byte.to_N b).

(** Padding: a 1 bit, zero bits up to 56 mod 64 bytes, then the bit
    length as a 64-bit big-endian number. *)
Definition be_bytes (n : nat) (x : Z) : list Z :=
  map (fun i => Z.land (Z.shiftr x (8 * Z.of_nat i)) 0xff) (rev (seq 0 n)).

Definition pad (msg : list byte) : list Z :=
  let len := Z.of_nat (List.length msg) in
  let zeros := Z.to_nat ((55 - len) mod 64) in
  map byte_val msg ++ [0x80] ++ repeat 0 zeros ++ be_bytes 8 (8 * len).

(** Big-endian 32-bit words of a byte string (a trailing group of fewer
    than four bytes cannot occur after [pad]). *)
Fixpoint words_of (bs : list Z) : list word :=
  match bs with
  | a :: b :: c :: d :: rest =>
      (Z.shiftl a 24 + Z.shiftl b 16 + Z.shiftl c 8 + d) :: words_of rest
  | _ => []
  end.

(** The message schedule. [win] holds the sixteen most recent words,
    oldest first; each step appends W[t] and drops W[t-16]. *)
Definition next_w (win : list word) : word :=
  add32 (add32 (sigma1 (nth 14 win 0)) (nth 9 win 0))
        (add32 (sigma0 (nth 1 win 0)) (nth 0 win 0)).

Fixpoint extend (n : nat) (win : list word) : list word :=
  match n with
  | O => []
  | S n' => let w := next_w win in w :: extend n' (tl win ++ [w])
  end.

Definition schedule (block : list word) : list word :=
  block ++ extend 48 block.

Definition round (st : list word) (kw : word * word) : list word :=
  match st with
  | [a; b; c; d; e; f; g; h] =>
      let t1 := add32 (add32 (add32 h (Sigma1 e)) (Ch e f g))
                      (add32 (fst kw) (snd kw)) in
      let t2 := add32 (Sigma0 a) (Maj a b c) in
      [add32 t1 t2; a; b; c; add32 d t1; e; f; g]
  | _ => st
  end.

Definition compress (h : list word) (block : list word) : list word :=
  let st := fold_left round (combine K (schedule block)) h in
  map (fun p => add32 (fst p) (snd p)) (combine h st).

Fixpoint blocks (fuel : nat) (ws : list word) : list (list word) :=
  match fuel with
  | O => []
  | S fuel' =>
      match ws with
      | [] => []
      | _ => firstn 16 ws :: blocks fuel' (skipn 16 ws)
      end
  end.

Definition digest_words (msg : list byte) : list word :=
  let ws := words_of (pad msg) in
  fold_left compress (blocks (List.length ws) ws) H0.

Definition hex_digit (d : Z) : ascii :=
  if d <? 10 then ascii_of_nat (Z.to_nat (48 + d))
  else ascii_of_nat (Z.to_nat (87 + d)).

Definition hex_byte (b : Z) : string :=
  String (hex_digit (Z.shiftr b 4)) (String (hex_digit (Z.land b 0xf)) EmptyString).

Definition hex_word (w : word) : string :=
  String.concat EmptyString (map hex_byte (be_bytes 4 w)).

(** [hashlib.sha256(msg).hexdigest()]: 64 lowercase hexadecimal digits. *)
Definition hexdigest (msg : list byte) : string :=
  String.concat EmptyString (map hex_word (digest_words msg)).

End Sha256.

(* ===================================================================== *)
(** ** Exceptions *)
(* ===================================================================== *)

(** The built-in exception classes the two modules raise or catch, and
    [UserDefined] for any other class deriving from [Exception].
    [EnvironmentError] is an alias of [OSError] in Python 3.
    Asynchronous signals outside [Exception] ([KeyboardInterrupt],
    [SystemExit]) are not modelled. *)
Inductive exc_class : Type :=
| Exception
| OSError
| FileNotFoundError
| PermissionError
| RuntimeError
| NotImplementedError
| SubprocessError
| CalledProcessError
| UserDefined (name : string).

Definition EnvironmentError : exc_class := OSError.

(** An exception object: its class and [str(e)]. *)
Record exc : Type := Exc { exc_type : exc_class; exc_str : string }.

Definition class_name (c : exc_class) : string :=
  match c with
  | Exception => "Exception"
  | OSError => "OSError"
  | FileNotFoundError => "FileNotFoundError"
  | PermissionError => "PermissionError"
  | RuntimeError => "RuntimeError"
  | NotImplementedError => "NotImplementedError"
  | SubprocessError => "SubprocessError"
  | CalledProcessError => "CalledProcessError"
  | UserDefined name => name
  end.

(** Method resolution order below [BaseException]. *)
Definition mro (c : exc_class) : list exc_class :=
  match c with
  | Exception => [Exception]
  | OSError => [OSError; Exception]
  | FileNotFoundError => [FileNotFoundError; OSError; Exception]
  | PermissionError => [PermissionError; OSError; Exception]
  | RuntimeError => [RuntimeError; Exception]
  | NotImplementedError => [NotImplementedError; RuntimeError; Exception]
  | SubprocessError => [SubprocessError; Exception]
  | CalledProcessError => [CalledProcessError; SubprocessError; Exception]
  | UserDefined name => [UserDefined name; Exception]
  end.

(** [isinstance(e, <class called name>)]: what an [except name] clause
    tests. *)
Definition isinstance (e : exc) (name : string) : bool :=
  existsb (fun c => String.eqb (class_name c) name) (mro (exc_type e)).

(* ===================================================================== *)
(** ** The checksum helper of [iso_handler.py] *)
(* ===================================================================== *)

Module ISOHandler.

(** What the file system answers: [os.path.exists] and the outcome of
    [open(path, "rb")], the file's bytes or the error it raises. *)
Record FileSystem : Type := {
  path_exists : string -> bool;
  open_rb : string -> list byte + exc
}.

(** A [hashlib.sha256()] object, by the library's contract: repeated
    [update] calls are equivalent to one call with the concatenation. *)
Record sha256_hash : Type := { fed : list byte }.

Definition sha256 : sha256_hash := {| fed := [] |}.
Definition update (h : sha256_hash) (block : list byte) : sha256_hash :=
  {| fed := fed h ++ block |}.
Definition hexdigest (h : sha256_hash) : string := Sha256.hexdigest (fed h).

(** The loop [for byte_block in iter(lambda: f.read(n), <empty bytes>):
    h.update(byte_block)] on a file whose unread bytes are [rest]; [f.read(n)] returns the next
    [n] bytes, fewer at the end of the file, none after it. *)
Equations? read_blocks (n : nat) (rest : list byte) (h : sha256_hash)
  : sha256_hash by wf (List.length rest) lt :=
  read_blocks n rest h with inspect (firstn n rest) := {
    | exist _ [] _ => h
    | exist _ (b :: block) _ =>
        read_blocks n (skipn n rest) (update h (b :: block)) }.
Proof.
  rewrite length_skipn.
  destruct n as [|n]; [discriminate|].
  destruct rest as [|r rest]; [discriminate|].
  simpl. lia.
Qed.

Definition chunk_size : nat := 4096.

Definition calculate_checksum (fs : FileSystem) (file_path : string)
  : string + exc :=
  if negb (path_exists fs file_path) then
    inr (Exc FileNotFoundError ("File not found: " ++ file_path))
  else
    match open_rb fs file_path with
    | inl contents => inl (hexdigest (read_blocks chunk_size contents sha256))
    | inr e => inr e
    end.

End ISOHandler.

(* ===================================================================== *)
(** ** Traces and computations *)
(* ===================================================================== *)

(** A call of one of the four stage methods by [create_bootable_drive],
    with the arguments it is given. *)
Inductive stage_call : Type :=
| call_prepare_drive (device_path : string) (persistence_size : Z)
| call_write_iso (device_path iso_path : string)
| call_setup_persistence (device_path : string) (persistence_size : Z)
| call_install_bootloader (device_path iso_path : string).

Inductive stage : Type :=
| Prepare | WriteImage | ConfigurePersistence | InstallBootloader.

Definition stage_of (c : stage_call) : stage :=
  match c with
  | call_prepare_drive _ _ => Prepare
  | call_write_iso _ _ => WriteImage
  | call_setup_persistence _ _ => ConfigurePersistence
  | call_install_bootloader _ _ => InstallBootloader
  end.

(** What a run does to the outside world, in order. *)
Inductive action : Type :=
| Progress (percentage : Z) (message : string)  (* progress_callback(p, m) *)
| Invoke (c : stage_call)                       (* self._<stage>(...) entered *)
| WriteFile (path text : string)                (* open(path, "w") and writes *)
| RemoveFile (path : string)                    (* os.remove(path) *)
| Run (argv : list string)                      (* subprocess.run(argv, ...) *)
| Popen (argv : list string).                   (* subprocess.Popen(argv, ...) *)

(** A computation: the actions performed, then a value or the exception
    that ended it. *)
Definition M (A : Type) : Type := list action * (A + exc).

Definition trace {A} (m : M A) : list action := fst m.
Definition outcome {A} (m : M A) : A + exc := snd m.

Definition ret {A} (a : A) : M A := ([], inl a).
Definition raise {A} (e : exc) : M A := ([], inr e).
Definition emit (a : action) : M unit := ([a], inl tt).

Definition bind {A B} (m : M A) (k : A -> M B) : M B :=
  match m with
  | (t, inl a) => let (t', r) := k a in (t ++ t', r)
  | (t, inr e) => (t, inr e)
  end.

Declare Scope py_scope.
Delimit Scope py_scope with py.
Notation "x <- m ;; k" := (bind m (fun x => k))
  (at level 61, m at next level, right associativity) : py_scope.
Notation "m ;; k" := (bind m (fun _ => k))
  (at level 61, right associativity) : py_scope.
Local Open Scope py_scope.

(** [try: body / except Exception as e: handler e]; a handler re-raises
    by ending in [raise e]. *)
Definition try_except {A} (body : M A) (handler : exc -> M A) : M A :=
  match body with
  | (t, inl a) => (t, inl a)
  | (t, inr e) => let (t', r) := handler e in (t ++ t', r)
  end.

(** [try: body / finally: cleanup] for a cleanup that swallows its own
    errors. *)
Definition try_finally {A} (body : M A) (cleanup : M unit) : M A :=
  match body, cleanup with
  | (t, r), (t', inl _) => (t ++ t', r)
  | (t, _), (t', inr e) => (t ++ t', inr e)
  end.

(** The optional [progress_callback] argument: absent, or a sink whose
    calls are recorded and return normally. *)
Inductive callback : Type := NoCallback | Callback.

(** [if progress_callback: progress_callback(percentage, message)]. *)
Definition notify (cb : callback) (percentage : Z) (message : string) : M unit :=
  match cb with
  | Callback => emit (Progress percentage message)
  | NoCallback => ret tt
  end.

(* ===================================================================== *)
(** ** The environment *)
(* ===================================================================== *)

(** [subprocess.CompletedProcess]. *)
Record CompletedProcess : Type := {
  returncode : Z;
  stdout : string;
  stderr : string
}.

(** A started [subprocess.Popen] child: the lines [stderr.readline]
    hands out before the end of the stream, and the exit status. *)
Record Process : Type := {
  stderr_lines : list string;
  exit_status : Z
}.

Record Env : Type := {
  system : string;                              (* platform.system() *)
  path_exists : string -> bool;                 (* os.path.exists *)
  which : string -> bool;                       (* shutil.which(t) is not None *)
  temp_path : string -> string;  (* os.path.join(tempfile.gettempdir(), name) *)
  open_w : string -> option exc;                (* error of open(path, "w") *)
  subprocess_run : list string -> CompletedProcess + exc;
      (* the finished child, or the error raised when it cannot be started *)
  subprocess_Popen : list string -> Process + exc
}.

(** [repr] of a list of strings free of quotes and escapes. *)
Definition repr_argv (argv : list string) : string :=
  "[" ++ String.concat ", " (map (fun a => ("'" ++ a ++ "'")%string) argv) ++ "]".

(** [subprocess.run(argv, capture_output=True, text=True, check=check)]. *)
Definition run (env : Env) (argv : list string) (check : bool)
  : M CompletedProcess :=
  emit (Run argv) ;;
  match subprocess_run env argv with
  | inr e => raise e
  | inl p =>
      if check && negb (returncode p =? 0) then
        raise (Exc CalledProcessError
                 ("Command '" ++ repr_argv argv
                  ++ "' returned non-zero exit status "
                  ++ PyStr.str_of_int (returncode p) ++ "."))
      else ret p
  end.

(** [with open(path, "w") as f: f.write(...)] with [text] the
    concatenation of what is written. *)
Definition write_script (env : Env) (path text : string) : M unit :=
  match open_w env path with
  | Some e => raise e
  | None => emit (WriteFile path text)
  end.

(** [try: os.remove(path) / except: pass]. *)
Definition remove_quietly (path : string) : M unit := emit (RemoveFile path).

(* ===================================================================== *)
(** ** [class BootableCreator] *)
(* ===================================================================== *)

Definition nl : string := String PyStr.newline EmptyString.
Definition dquote : string := String (ascii_of_nat 34) EmptyString.

(** [re.search(r"Disk (\d+)", s)] and [group(1)] of the match: the
    leftmost place where [Disk ] is followed by a digit, and the digits
    there (on ASCII text). *)
Fixpoint search_disk (s : string) : option string :=
  let here :=
    if PyStr.startswith "Disk " s then PyStr.take_digits (PyStr.drop 5 s)
    else EmptyString in
  match here with
  | String _ _ => Some here
  | EmptyString =>
      match s with
      | EmptyString => None
      | String _ s' => search_disk s'
      end
  end.

Section BootableCreator.

Variable env : Env.

Definition unsupported {A} : M A :=
  raise (Exc NotImplementedError
           ("Unsupported operating system: " ++ system env)).

(** *** Partition enumeration and unmounting (Linux) *)

Definition _get_linux_partitions (device_path : string) : M (list string) :=
  try_except
    (result <- run env ["lsblk"; "-no"; "NAME"; device_path] true ;;
     let lines := PyStr.split_lines (PyStr.strip (stdout result)) in
     let partition_names := tl lines in
     ret (map (fun name => ("/dev/" ++ name)%string) partition_names))
    (fun e =>
       if isinstance e "CalledProcessError" then ret [] else raise e).

Definition _unmount_partition (partition_path : string) : M unit :=
  try_except
    (_ <- run env ["umount"; partition_path] false ;; ret tt)
    (fun _ => ret tt).

Fixpoint unmount_each (partitions : list string) : M unit :=
  match partitions with
  | [] => ret tt
  | partition :: rest => _unmount_partition partition ;; unmount_each rest
  end.

Definition _unmount_all_partitions (device_path : string) : M unit :=
  partitions <- _get_linux_partitions device_path ;;
  unmount_each partitions.

(** *** Disk lookup (Windows) *)

Definition _get_windows_disk_number (drive_path : string) : M string :=
  let drive_letter := PyStr.rstrip ":\" drive_path in
  let script_path := temp_path env "diskpart_get_disk.txt" in
  try_finally
    (write_script env script_path
       ("select volume " ++ drive_letter ++ nl
        ++ "detail disk" ++ nl
        ++ "exit" ++ nl) ;;
     result <- run env ["diskpart"; "/s"; script_path] false ;;
     match search_disk (stdout result) with
     | Some disk_number => ret disk_number
     | None =>
         raise (Exc RuntimeError
                  ("Could not determine disk number for " ++ drive_path))
     end)
    (remove_quietly script_path).

(** *** Stage 1 *)

Definition diskpart_script (disk_number : string) (persistence_size : Z)
  : string :=
  "select disk " ++ disk_number ++ nl
  ++ "clean" ++ nl
  ++ "convert mbr" ++ nl
  ++ "create partition primary size=4096" ++ nl
  ++ "format quick fs=fat32 label=" ++ dquote ++ "LINUX_BOOT" ++ dquote ++ nl
  ++ "active" ++ nl
  ++ "create partition primary size="
       ++ PyStr.str_of_int (persistence_size * 1024) ++ nl
  ++ "format quick fs=ntfs label=" ++ dquote ++ "PERSISTENCE" ++ dquote ++ nl
  ++ "create partition primary" ++ nl
  ++ "format quick fs=ntfs label=" ++ dquote ++ "DATA" ++ dquote ++ nl
  ++ "assign" ++ nl
  ++ "exit" ++ nl.

Definition _prepare_drive_windows (device_path : string)
    (persistence_size : Z) (cb : callback) : M unit :=
  disk_number <- _get_windows_disk_number device_path ;;
  let script_path := temp_path env "diskpart_script.txt" in
  try_finally
    (write_script env script_path
       (diskpart_script disk_number persistence_size) ;;
     notify cb 10 "Formatting drive..." ;;
     result <- run env ["diskpart"; "/s"; script_path] false ;;
     if negb (returncode result =? 0) then
       raise (Exc RuntimeError
                ("Failed to prepare drive: " ++ stderr result))
     else ret tt)
    (remove_quietly script_path).

Definition _prepare_drive_macos (device_path : string)
    (persistence_size : Z) (cb : callback) : M unit :=
  notify cb 15 "Formatting drive on macOS...".

Definition _prepare_drive_linux (device_path : string)
    (persistence_size : Z) (cb : callback) : M unit :=
  _unmount_all_partitions device_path ;;
  notify cb 15 "Formatting drive on Linux...".

Definition _prepare_drive (device_path : string) (persistence_size : Z)
    (cb : callback) : M unit :=
  if (system env =? "Windows")%string then
    _prepare_drive_windows device_path persistence_size cb
  else if (system env =? "Darwin")%string then
    _prepare_drive_macos device_path persistence_size cb
  else if (system env =? "Linux")%string then
    _prepare_drive_linux device_path persistence_size cb
  else unsupported.

(** *** Stage 2 *)

Definition _write_iso_windows (device_path iso_path : string)
    (cb : callback) : M unit :=
  notify cb 40 "Writing ISO on Windows...".

Definition _write_iso_macos (device_path iso_path : string)
    (cb : callback) : M unit :=
  notify cb 40 "Writing ISO on macOS...".

(** [for line in iter(process.stderr.readline, ''): ...]. *)
Fixpoint monitor_stderr (cb : callback) (lines : list string) : M unit :=
  match lines with
  | [] => ret tt
  | line :: rest =>
      (if PyStr.contains "copied" line then notify cb 50 "Writing ISO..."
       else ret tt) ;;
      monitor_stderr cb rest
  end.

Definition dd_command (device_path iso_path : string) : list string :=
  ["pkexec"; "dd"; "if=" ++ iso_path; "of=" ++ device_path;
   "bs=4M"; "status=progress"; "oflag=sync"]%string.

Definition _write_iso_linux (device_path iso_path : string)
    (cb : callback) : M unit :=
  if negb (which env "pkexec") then
    raise (Exc EnvironmentError
             "pkexec is not installed. Please install it to continue.")
  else if negb (which env "dd") then
    raise (Exc EnvironmentError
             "dd is not installed. Please install it to continue.")
  else
    let command := dd_command device_path iso_path in
    try_except
      (emit (Popen command) ;;
       process <- match subprocess_Popen env command with
                  | inl p => ret p
                  | inr e => raise e
                  end ;;
       monitor_stderr cb (stderr_lines process) ;;
       if negb (exit_status process =? 0) then
         (* the loop above has read stderr to its end *)
         let stderr_output := EmptyString in
         raise (Exc RuntimeError
                  ("Failed to write ISO to drive: " ++ stderr_output))
       else notify cb 70 "ISO written successfully")
      (fun e =>
         if isinstance e "FileNotFoundError" then
           raise (Exc RuntimeError
                    "dd command not found. Please ensure it is installed and in your PATH.")
         else raise e).

Definition _write_iso (device_path iso_path : string) (cb : callback)
  : M unit :=
  if (system env =? "Windows")%string then _write_iso_windows device_path iso_path cb
  else if (system env =? "Darwin")%string then _write_iso_macos device_path iso_path cb
  else if (system env =? "Linux")%string then _write_iso_linux device_path iso_path cb
  else unsupported.

(** *** Stage 3 *)

Definition _setup_persistence_windows (device_path : string)
    (persistence_size : Z) (cb : callback) : M unit :=
  notify cb 75 "Setting up persistence on Windows...".

Definition _setup_persistence_macos (device_path : string)
    (persistence_size : Z) (cb : callback) : M unit :=
  notify cb 75 "Setting up persistence on macOS...".

Definition _setup_persistence_linux (device_path : string)
    (persistence_size : Z) (cb : callback) : M unit :=
  notify cb 75 "Setting up persistence on Linux...".

Definition _setup_persistence (device_path : string) (persistence_size : Z)
    (cb : callback) : M unit :=
  if (system env =? "Windows")%string then
    _setup_persistence_windows device_path persistence_size cb
  else if (system env =? "Darwin")%string then
    _setup_persistence_macos device_path persistence_size cb
  else if (system env =? "Linux")%string then
    _setup_persistence_linux device_path persistence_size cb
  else unsupported.

(** *** Stage 4 *)

Definition _install_bootloader_windows (device_path iso_path : string)
    (cb : callback) : M unit :=
  notify cb 95 "Installing bootloader on Windows...".

Definition _install_bootloader_macos (device_path iso_path : string)
    (cb : callback) : M unit :=
  notify cb 95 "Installing bootloader on macOS...".

Definition _install_bootloader_linux (device_path iso_path : string)
    (cb : callback) : M unit :=
  notify cb 95 "Installing bootloader on Linux...".

Definition _install_bootloader (device_path iso_path : string)
    (cb : callback) : M unit :=
  if (system env =? "Windows")%string then
    _install_bootloader_windows device_path iso_path cb
  else if (system env =? "Darwin")%string then
    _install_bootloader_macos device_path iso_path cb
  else if (system env =? "Linux")%string then
    _install_bootloader_linux device_path iso_path cb
  else unsupported.

End BootableCreator.

(* ===================================================================== *)
(** ** [create_bootable_drive] *)
(* ===================================================================== *)

(** The four stage methods as [create_bootable_drive] finds them on
    [self]: those of the class, or whatever a subclass or a test double
    puts in their place. *)
Record Self : Type := {
  self_prepare_drive : string -> Z -> callback -> M unit;
  self_write_iso : string -> string -> callback -> M unit;
  self_setup_persistence : string -> Z -> callback -> M unit;
  self_install_bootloader : string -> string -> callback -> M unit
}.

(** An instance of the class itself. *)
Definition BootableCreator (env : Env) : Self := {|
  self_prepare_drive := _prepare_drive env;
  self_write_iso := _write_iso env;
  self_setup_persistence := _setup_persistence env;
  self_install_bootloader := _install_bootloader env
|}.

(** The body of a stage method for a given call. *)
Definition stage_body (self : Self) (c : stage_call) (cb : callback) : M unit :=
  match c with
  | call_prepare_drive d p => self_prepare_drive self d p cb
  | call_write_iso d i => self_write_iso self d i cb
  | call_setup_persistence d p => self_setup_persistence self d p cb
  | call_install_bootloader d i => self_install_bootloader self d i cb
  end.

(** [self._<stage>(...)]: the call is recorded, then the body runs. *)
Definition invoke (self : Self) (c : stage_call) (cb : callback) : M unit :=
  emit (Invoke c) ;; stage_body self c cb.

Definition create_bootable_drive (env : Env) (self : Self)
    (device_path iso_path : string) (persistence_size : Z) (cb : callback)
  : M bool :=
  if negb (path_exists env iso_path) then
    raise (Exc FileNotFoundError ("ISO file not found: " ++ iso_path))
  else
    notify cb 0 "Starting bootable drive creation..." ;;
    try_except
      (notify cb 5 "Preparing drive..." ;;
       invoke self (call_prepare_drive device_path persistence_size) cb ;;
       notify cb 30 "Writing ISO to drive..." ;;
       invoke self (call_write_iso device_path iso_path) cb ;;
       notify cb 70 "Setting up persistence..." ;;
       invoke self (call_setup_persistence device_path persistence_size) cb ;;
       notify cb 90 "Installing bootloader..." ;;
       invoke self (call_install_bootloader device_path iso_path) cb ;;
       notify cb 100 "Bootable drive created successfully!" ;;
       ret true)
      (fun e => notify cb 0 ("Error: " ++ exc_str e) ;; raise e).

(* ===================================================================== *)
(** ** Observations on a trace *)
(* ===================================================================== *)

(** The percentages handed to the progress callback, in order. *)
Fixpoint percentages (t : list action) : list Z :=
  match t with
  | [] => []
  | Progress p _ :: t' => p :: percentages t'
  | _ :: t' => percentages t'
  end.

(** The stage calls made, in order. *)
Fixpoint invocations (t : list action) : list stage_call :=
  match t with
  | [] => []
  | Invoke c :: t' => c :: invocations t'
  | _ :: t' => invocations t'
  end.

Definition stages_invoked (t : list action) : list stage :=
  map stage_of (invocations t).

(** Processes started and files touched: the calls that act on the
    machine. *)
Definition is_system_call (a : action) : bool :=
  match a with
  | Run _ | Popen _ | WriteFile _ _ | RemoveFile _ => true
  | Progress _ _ | Invoke _ => false
  end.

Definition system_calls (t : list action) : list action :=
  filter is_system_call t.

Definition is_progress_100 (a : action) : bool :=
  match a with
  | Progress p _ => p =? 100
  | _ => false
  end.

(** Non-decreasing: every element is at most each later one. *)
Fixpoint le_all (x : Z) (l : list Z) : bool :=
  match l with
  | [] => true
  | y :: l' => (x <=? y) && le_all x l'
  end.

Fixpoint non_decreasing (l : list Z) : bool :=
  match l with
  | [] => true
  | x :: l' => le_all x l' && non_decreasing l'
  end.

(** The exception is an instance of a class with the given name. *)
Definition raised_as (name : string) {A} (m : M A) : Prop :=
  exists e, outcome m = inr e /\ isinstance e name = true.

(* ===================================================================== *)
(** ** Sample environments *)
(* ===================================================================== *)

Definition ok_process : CompletedProcess :=
  {| returncode := 0; stdout := EmptyString; stderr := EmptyString |}.

(** A Linux host where every tool is installed and succeeds, the stick
    [/dev/sdb] has one partition, [dd] reports progress twice, and
    [ubuntu.iso] exists. *)
Definition linux_env : Env := {|
  system := "Linux";
  path_exists := fun p => (p =? "ubuntu.iso")%string;
  which := fun _ => true;
  temp_path := fun name => ("/tmp/" ++ name)%string;
  open_w := fun _ => None;
  subprocess_run := fun argv =>
    match argv with
    | "lsblk" :: _ =>
        inl {| returncode := 0;
               stdout := "sdb" ++ nl ++ "sdb1" ++ nl;
               stderr := EmptyString |}
    | _ => inl ok_process
    end;
  subprocess_Popen := fun _ =>
    inl {| stderr_lines :=
             ["1048576 bytes copied" ++ nl; "2+0 records in" ++ nl;
              "2097152 bytes copied" ++ nl]%string;
           exit_status := 0 |}
|}.

(** The same host without [pkexec]. *)
Definition linux_no_pkexec : Env := {|
  system := "Linux";
  path_exists := path_exists linux_env;
  which := fun tool => negb (tool =? "pkexec")%string;
  temp_path := temp_path linux_env;
  open_w := open_w linux_env;
  subprocess_run := subprocess_run linux_env;
  subprocess_Popen := subprocess_Popen linux_env
|}.

(** The same host without [lsblk]: starting it fails. *)
Definition linux_no_lsblk : Env := {|
  system := "Linux";
  path_exists := path_exists linux_env;
  which := which linux_env;
  temp_path := temp_path linux_env;
  open_w := open_w linux_env;
  subprocess_run := fun argv =>
    match argv with
    | "lsblk" :: _ =>
        inr (Exc FileNotFoundError
               "[Errno 2] No such file or directory: 'lsblk'")
    | _ => inl ok_process
    end;
  subprocess_Popen := subprocess_Popen linux_env
|}.

(** A Windows host where [diskpart] prints nothing that names a disk. *)
Definition windows_no_disk : Env := {|
  system := "Windows";
  path_exists := fun p => (p =? "ubuntu.iso")%string;
  which := fun _ => true;
  temp_path := fun name => ("C:\Temp\" ++ name)%string;
  open_w := fun _ => None;
  subprocess_run := fun _ =>
    inl {| returncode := 1;
           stdout := "There is no volume selected." ++ nl;
           stderr := EmptyString |};
  subprocess_Popen := fun _ => inr (Exc OSError "not used")
|}.

(** A Windows host where the volume sits on disk 2 and [diskpart]
    succeeds. *)
Definition windows_env : Env := {|
  system := "Windows";
  path_exists := fun p => (p =? "ubuntu.iso")%string;
  which := fun _ => true;
  temp_path := fun name => ("C:\Temp\" ++ name)%string;
  open_w := fun _ => None;
  subprocess_run := fun _ =>
    inl {| returncode := 0;
           stdout := "Kingston DataTraveler" ++ nl ++ "Disk 2 is now the selected disk." ++ nl;
           stderr := EmptyString |};
  subprocess_Popen := fun _ => inr (Exc OSError "not used")
|}.

(** A test double whose third stage fails the way the class reports a
    failed tool, with the tool's diagnostic text. *)
Definition failing_persistence (env : Env) : Self := {|
  self_prepare_drive := fun _ _ _ => ret tt;
  self_write_iso := fun _ _ _ => ret tt;
  self_setup_persistence := fun _ _ _ =>
    raise (Exc RuntimeError
             "Failed to set up persistence: mkfs.ext4: exit status 1");
  self_install_bootloader := fun _ _ cb =>
    notify cb 95 "Installing bootloader on Linux..."
|}.

(* ===================================================================== *)
(** ** The stage sequence, spelled out for the proofs *)
(* ===================================================================== *)

(** What [notify] records. *)
Definition note (cb : callback) (percentage : Z) (message : string)
  : list action :=
  match cb with
  | Callback => [Progress percentage message]
  | NoCallback => []
  end.

(** The four calls [create_bootable_drive] makes, in program order. *)
Definition pipeline_calls (device_path iso_path : string)
    (persistence_size : Z) : list stage_call :=
  [ call_prepare_drive device_path persistence_size;
    call_write_iso device_path iso_path;
    call_setup_persistence device_path persistence_size;
    call_install_bootloader device_path iso_path ].

(** The progress update that precedes each call. *)
Definition announcement (c : stage_call) : Z * string :=
  match c with
  | call_prepare_drive _ _ => (5, "Preparing drive...")
  | call_write_iso _ _ => (30, "Writing ISO to drive...")
  | call_setup_persistence _ _ => (70, "Setting up persistence...")
  | call_install_bootloader _ _ => (90, "Installing bootloader...")
  end.

(** Announce and call, one stage after the other. *)
Fixpoint run_calls (self : Self) (cb : callback) (cs : list stage_call)
  : M unit :=
  match cs with
  | [] => ret tt
  | c :: cs' =>
      notify cb (fst (announcement c)) (snd (announcement c)) ;;
      invoke self c cb ;;
      run_calls self cb cs'
  end.

(** What one stage that returns normally leaves in the trace. *)
Definition segment (self : Self) (cb : callback) (c : stage_call)
  : list action :=
  note cb (fst (announcement c)) (snd (announcement c))
  ++ Invoke c :: trace (stage_body self c cb).

Definition succeeds (m : M unit) : Prop := outcome m = inl tt.

(** The percentage band of a stage: from its announcement to the next. *)
Definition band (s : stage) : Z * Z :=
  match s with
  | Prepare => (5, 30)
  | WriteImage => (30, 70)
  | ConfigurePersistence => (70, 90)
  | InstallBootloader => (90, 100)
  end.

Definition within (lo hi : Z) (l : list Z) : bool :=
  forallb (fun x => (lo <=? x) && (x <=? hi)) l.

Definition lower (c : stage_call) : Z := fst (band (stage_of c)).
Definition upper (c : stage_call) : Z := snd (band (stage_of c)).

(** Each call's band starts no earlier than [lo] and ends where the next
    one may start. *)
Fixpoint chained (lo : Z) (cs : list stage_call) : Prop :=
  match cs with
  | [] => True
  | c :: cs' => lo <= lower c /\ chained (upper c) cs'
  end.

(** A stage body keeps to its band: its percentages do not decrease and
    lie between its announcement and the next one. *)
Definition in_band (self : Self) (cb : callback) (c : stage_call) : Prop :=
  non_decreasing (percentages (trace (stage_body self c cb))) = true
  /\ within (lower c) (upper c) (percentages (trace (stage_body self c cb)))
     = true.

Definition is_run (a : action) : bool :=
  match a with
  | Run _ => true
  | _ => false
  end.

Definition is_popen (a : action) : bool :=
  match a with
  | Popen _ => true
  | _ => false
  end.

(** A stage body's trace holds no stage call and only percentages
    between [lo] and [hi]. *)
Definition body_ok (lo hi : Z) (t : list action) : bool :=
  forallb (fun a =>
             match a with
             | Invoke _ => false
             | Progress p _ => (lo <=? p) && (p <=? hi)
             | _ => true
             end) t.

(** A string of lowercase hexadecimal digits. *)
Fixpoint all_hex (s : string) : bool :=
  match s with
  | EmptyString => true
  | String c s' => PyStr.mem_char c "0123456789abcdef" && all_hex s'
  end.

(** A run that is rejected before anything happens: it raises an instance
    of the named class and its trace is empty (no progress event, no
    stage call, no process, no file). *)
Definition rejected_as (name : string) (r : M bool) : Prop :=
  raised_as name r /\ trace r = [].


(** The fixture of [test_iso_handler]: a file holding [Hello, world!]. *)
Definition fixture_fs : ISOHandler.FileSystem := {|
  ISOHandler.path_exists := fun p => (p =? "test_file.txt")%string;
  ISOHandler.open_rb := fun p =>
    if (p =? "test_file.txt")%string
    then inl (list_byte_of_string "Hello, world!")
    else inr (Exc FileNotFoundError
                ("[Errno 2] No such file or directory: '" ++ p ++ "'"))
|}.


(** What [_prepare_drive_windows] does once it has the disk number: the
    [try ... finally] block that writes and runs the script that cleans
    and partitions the disk. *)
Definition clean_and_partition (env : Env) (disk_number : string)
    (persistence_size : Z) (cb : callback) : M unit :=
  let script_path := temp_path env "diskpart_script.txt" in
  try_finally
    (write_script env script_path
       (diskpart_script disk_number persistence_size) ;;
     notify cb 10 "Formatting drive..." ;;
     result <- run env ["diskpart"; "/s"; script_path] false ;;
     if negb (returncode result =? 0) then
       raise (Exc RuntimeError
                ("Failed to prepare drive: " ++ stderr result))
     else ret tt)
    (remove_quietly script_path).

(** The script of the disk lookup, as [_get_windows_disk_number] writes
    it. *)
Definition lookup_script (drive_path : string) : string :=
  "select volume " ++ PyStr.rstrip ":\" drive_path ++ nl
  ++ "detail disk" ++ nl
  ++ "exit" ++ nl.

(** [s.isascii()]: every character of the text is below 128. On such
    text the character classes of [PyStr] and [PyCase] are those of
    Python: [\d], [float] and [int] know no other digits than [0-9],
    [str.strip] and [\s] no other blanks than those of
    [PyStr.whitespace], and [str.upper] and [str.lower] change letters
    [a-z] and [A-Z] only. *)
Fixpoint isascii (s : string) : bool :=
  match s with
  | EmptyString => true
  | String c s' => (nat_of_ascii c <? 128)%nat && isascii s'
  end.

(* ===================================================================== *)
(** ** Proof automation *)
(* ===================================================================== *)

(** Case analysis on what the environment answers, innermost first. *)
Ltac split_oracles :=
  repeat match goal with
         | |- context [match ?x with _ => _ end] =>
             lazymatch x with
             | context [match _ with _ => _ end] => fail
             | _ => destruct x eqn:?; cbn
             end
         end.


(* ===================================================================== *)
(** ** More of the two modules, and [device_detection.py] *)
(* ===================================================================== *)

Module PyCase.

(** [c.lower()] and [c.upper()] on ASCII letters; other characters are
    left alone. *)
Definition lower_char (c : ascii) : ascii :=
  let n := nat_of_ascii c in
  if (65 <=? n)%nat && (n <=? 90)%nat then ascii_of_nat (n + 32) else c.

Definition upper_char (c : ascii) : ascii :=
  let n := nat_of_ascii c in
  if (97 <=? n)%nat && (n <=? 122)%nat then ascii_of_nat (n - 32) else c.

(** [s.lower()] and [s.upper()] (on ASCII text). *)
Fixpoint lower (s : string) : string :=
  match s with
  | EmptyString => EmptyString
  | String c s' => String (lower_char c) (lower s')
  end.

Fixpoint upper (s : string) : string :=
  match s with
  | EmptyString => EmptyString
  | String c s' => String (upper_char c) (upper s')
  end.

End PyCase.

(** [ISOHandler.verify_checksum], for an expected checksum that is ASCII
    text. *)
Definition verify_checksum (fs : ISOHandler.FileSystem)
    (file_path expected_checksum : string) : bool + exc :=
  let expected_checksum := PyStr.strip (PyCase.lower expected_checksum) in
  match ISOHandler.calculate_checksum fs file_path with
  | inl actual_checksum => inl (actual_checksum =? expected_checksum)%string
  | inr e => inr e
  end.

(** Every script written is passed to [os.remove] later in the trace. *)
Definition removes (path : string) (a : action) : bool :=
  match a with
  | RemoveFile q => (path =? q)%string
  | _ => false
  end.

Fixpoint scripts_removed (t : list action) : bool :=
  match t with
  | [] => true
  | WriteFile path _ :: t' => existsb (removes path) t' && scripts_removed t'
  | _ :: t' => scripts_removed t'
  end.

Definition is_invoke (a : action) : bool :=
  match a with
  | Invoke _ => true
  | _ => false
  end.

(** What a run does and reports, without the record of the stage calls. *)
Definition effects (t : list action) : list action :=
  filter (fun a => negb (is_invoke a)) t.

Fixpoint all_digits (s : string) : bool :=
  match s with
  | EmptyString => true
  | String c s' => PyStr.is_digit c && all_digits s'
  end.

(** A Linux host where [dd] exits with status 1 after one progress line. *)
Definition linux_dd_fails : Env := {|
  system := "Linux";
  path_exists := path_exists linux_env;
  which := which linux_env;
  temp_path := temp_path linux_env;
  open_w := open_w linux_env;
  subprocess_run := subprocess_run linux_env;
  subprocess_Popen := fun _ =>
    inl {| stderr_lines :=
             ["1048576 bytes copied" ++ nl;
              "dd: error writing '/dev/sdb': No space left on device" ++ nl]%string;
           exit_status := 1 |}
|}.

(** A host the class has no stage methods for. *)
Definition freebsd_env : Env := {|
  system := "FreeBSD";
  path_exists := path_exists linux_env;
  which := which linux_env;
  temp_path := temp_path linux_env;
  open_w := open_w linux_env;
  subprocess_run := subprocess_run linux_env;
  subprocess_Popen := subprocess_Popen linux_env
|}.

(** A macOS host. *)
Definition macos_env : Env := {|
  system := "Darwin";
  path_exists := path_exists linux_env;
  which := which linux_env;
  temp_path := temp_path linux_env;
  open_w := open_w linux_env;
  subprocess_run := subprocess_run linux_env;
  subprocess_Popen := subprocess_Popen linux_env
|}.

(** A Windows host where the lookup finds disk 2 and the partitioning
    script fails. *)
Definition windows_format_fails : Env := {|
  system := "Windows";
  path_exists := path_exists windows_env;
  which := which windows_env;
  temp_path := temp_path windows_env;
  open_w := open_w windows_env;
  subprocess_run := fun argv =>
    match argv with
    | [_; _; "C:\Temp\diskpart_get_disk.txt"] =>
        inl {| returncode := 0;
               stdout := "Disk 2 is now the selected disk." ++ nl;
               stderr := EmptyString |}
    | _ =>
        inl {| returncode := 5;
               stdout := EmptyString;
               stderr := "Access is denied." |}
    end;
  subprocess_Popen := subprocess_Popen windows_env
|}.

(** A Linux host where starting [pkexec] is refused. *)
Definition linux_popen_denied : Env := {|
  system := "Linux";
  path_exists := path_exists linux_env;
  which := which linux_env;
  temp_path := temp_path linux_env;
  open_w := open_w linux_env;
  subprocess_run := subprocess_run linux_env;
  subprocess_Popen := fun _ =>
    inr (Exc PermissionError "[Errno 13] Permission denied: 'pkexec'")
|}.

(** Only characters that [strip()] removes. *)
Fixpoint all_whitespace (s : string) : bool :=
  match s with
  | EmptyString => true
  | String c s' => PyStr.mem_char c PyStr.whitespace && all_whitespace s'
  end.

(* ===================================================================== *)
(** ** [class DeviceDetector] *)
(* ===================================================================== *)

Module DeviceDetector.

(** An entry of [psutil.disk_partitions]. *)
Record Partition : Type := {
  device : string;
  partition_mountpoint : string;
  fstype : string;
  opts : string
}.

(** What the host answers to the detector. *)
Record Host : Type := {
  system : string;                                (* platform.system() *)
  environ : string -> option string;              (* os.environ.get(name) *)
  path_join : string -> string -> string;         (* os.path.join *)
  open_w : string -> option exc;                  (* error of open(path, "w") *)
  subprocess_run : list string -> CompletedProcess + exc;
  subprocess_run_shell : string -> CompletedProcess + exc;
      (* subprocess.run(command_line, ..., shell=True) *)
  path_exists : string -> bool;                   (* os.path.exists *)
  read_text : string -> string + exc;   (* open(path, "r") and f.read() *)
  realpath : string -> string + exc;              (* os.path.realpath *)
  disk_partitions : list Partition + exc;   (* psutil.disk_partitions(all=True) *)
  disk_usage : string -> Z + exc            (* psutil.disk_usage(path).total *)
}.

(** [os.environ.get(name, default)]. *)
Definition environ_get (h : Host) (name default : string) : string :=
  match environ h name with
  | Some v => v
  | None => default
  end.

(** [subprocess.run(argv, capture_output=True, text=True)]. *)
Definition run (h : Host) (argv : list string) : M CompletedProcess :=
  emit (Run argv) ;;
  match subprocess_run h argv with
  | inl p => ret p
  | inr e => raise e
  end.

Definition write_text (h : Host) (path text : string) : M unit :=
  match open_w h path with
  | Some e => raise e
  | None => emit (WriteFile path text)
  end.

Definition _is_system_drive (h : Host) (drive_path : string) : bool :=
  if (system h =? "Windows")%string then
    let system_drive := (environ_get h "SystemDrive" "C:" ++ "\")%string in
    (PyCase.upper drive_path =? PyCase.upper system_drive)%string
  else if (system h =? "Darwin")%string then (drive_path =? "/")%string
  else if (system h =? "Linux")%string then (drive_path =? "/")%string
  else false.

(** The whole body is inside [try ... except Exception: return True]. *)
Definition _is_linux_internal_drive (h : Host) (drive_name : string) : bool :=
  let removable_path := ("/sys/block/" ++ drive_name ++ "/removable")%string in
  let on_other_bus :=
    match realpath h ("/sys/block/" ++ drive_name) with
    | inl device_path => negb (PyStr.contains "usb" device_path)
    | inr _ => true
    end in
  if path_exists h removable_path then
    match read_text h removable_path with
    | inl text =>
        let removable := (PyStr.strip text =? "1")%string in
        if removable then false else on_other_bus
    | inr _ => true
    end
  else on_other_bus.

Definition indent (n : nat) : string := String.concat EmptyString (repeat " " n).

(** The VBScript written by [_eject_windows_device]. *)
Definition eject_script (device_path : string) : string :=
  nl
  ++ indent 16 ++ "Set objShell = CreateObject(" ++ dquote
     ++ "Shell.Application" ++ dquote ++ ")" ++ nl
  ++ indent 16 ++ "Set objFolder = objShell.Namespace(17) ' 17 = ssfDRIVES" ++ nl
  ++ indent 16 ++ nl
  ++ indent 16 ++ "For Each objItem in objFolder.Items" ++ nl
  ++ indent 20 ++ "If objItem.Path = " ++ dquote ++ device_path ++ dquote
     ++ " Then" ++ nl
  ++ indent 24 ++ "objItem.InvokeVerb(" ++ dquote ++ "Eject" ++ dquote ++ ")" ++ nl
  ++ indent 24 ++ "Exit For" ++ nl
  ++ indent 20 ++ "End If" ++ nl
  ++ indent 16 ++ "Next" ++ nl
  ++ indent 16.

Definition _eject_windows_device (h : Host) (device_path : string) : M bool :=
  try_except
    (let script_path :=
       path_join h (environ_get h "TEMP" "C:\Temp") "eject_drive.vbs" in
     write_text h script_path (eject_script device_path) ;;
     result <- run h ["cscript"; "//nologo"; script_path] ;;
     remove_quietly script_path ;;
     ret (returncode result =? 0))
    (fun _ => ret false).

Definition _eject_macos_device (h : Host) (device_path : string) : M bool :=
  try_except
    (result <- run h ["diskutil"; "eject"; device_path] ;;
     ret (returncode result =? 0))
    (fun _ => ret false).

Definition _eject_linux_device (h : Host) (device_path : string) : M bool :=
  try_except
    (result <- run h ["umount"; device_path] ;;
     if negb (returncode result =? 0) then ret false
     else
       eject_result <- run h ["eject"; device_path] ;;
       ret (returncode eject_result =? 0))
    (fun _ => ret false).

Definition eject_device (h : Host) (device_path : string) : M bool :=
  try_except
    (if (system h =? "Windows")%string then
       _eject_windows_device h device_path
     else if (system h =? "Darwin")%string then
       _eject_macos_device h device_path
     else if (system h =? "Linux")%string then
       _eject_linux_device h device_path
     else
       raise (Exc NotImplementedError
                ("Unsupported operating system: " ++ system h)))
    (fun e => raise e).

End DeviceDetector.

(** A Linux host for the detector: tools answer with the given exit
    statuses, [sdb] is a USB stick, [sda] an internal disk. *)
Definition detector_linux (umount_status eject_status : Z)
  : DeviceDetector.Host := {|
  DeviceDetector.system := "Linux";
  DeviceDetector.environ := fun _ => None;
  DeviceDetector.path_join := fun a b => (a ++ "/" ++ b)%string;
  DeviceDetector.open_w := fun _ => None;
  DeviceDetector.subprocess_run := fun argv =>
    match argv with
    | "umount" :: _ =>
        inl {| returncode := umount_status; stdout := EmptyString;
               stderr := EmptyString |}
    | _ =>
        inl {| returncode := eject_status; stdout := EmptyString;
               stderr := EmptyString |}
    end;
  DeviceDetector.subprocess_run_shell := fun _ =>
    inr (Exc FileNotFoundError "not used");
  DeviceDetector.disk_partitions := inl [];
  DeviceDetector.disk_usage := fun _ => inr (Exc FileNotFoundError "not used");
  DeviceDetector.path_exists := fun _ => true;
  DeviceDetector.read_text := fun p =>
    if (p =? "/sys/block/sdb/removable")%string then inl ("1" ++ nl)%string
    else if (p =? "/sys/block/sda/removable")%string then inl ("0" ++ nl)%string
    else inr (Exc PermissionError ("[Errno 13] Permission denied: '" ++ p ++ "'"));
  DeviceDetector.realpath := fun p =>
    if (p =? "/sys/block/sda")%string
    then inl "/sys/devices/pci0000:00/0000:00:17.0/ata1/host0/target0:0:0/0:0:0:0/block/sda"
    else inl ("/sys/devices/pci0000:00/0000:00:14.0/usb2/2-1/2-1:1.0/host6/target6:0:0/6:0:0:0/block/"
              ++ PyStr.drop 11 p)%string
|}.

(** A Windows host for the detector where [cscript] cannot be started. *)
Definition detector_windows_no_cscript : DeviceDetector.Host := {|
  DeviceDetector.system := "Windows";
  DeviceDetector.environ := fun _ => None;
  DeviceDetector.path_join := fun a b => (a ++ "\" ++ b)%string;
  DeviceDetector.open_w := fun _ => None;
  DeviceDetector.subprocess_run := fun _ =>
    inr (Exc FileNotFoundError
           "[WinError 2] The system cannot find the file specified");
  DeviceDetector.subprocess_run_shell := fun _ =>
    inr (Exc FileNotFoundError
           "[WinError 2] The system cannot find the file specified");
  DeviceDetector.disk_partitions := inl [];
  DeviceDetector.disk_usage := fun _ => inr (Exc FileNotFoundError "not used");
  DeviceDetector.path_exists := fun _ => false;
  DeviceDetector.read_text := fun _ => inr (Exc FileNotFoundError "not used");
  DeviceDetector.realpath := fun p => inl p
|}.

(* ===================================================================== *)
(** ** [_format_size] (the same code in both classes) *)
(* ===================================================================== *)

Module SizeFormat.

(** The double nearest to the integer [n > 0], ties to even: [n] itself
    when it has at most 53 significant bits. *)
Definition rn53 (n : Z) : Z :=
  let bits := Z.log2 n + 1 in
  if bits <=? 53 then n
  else
    let shift := bits - 53 in
    let q := Z.shiftr n shift in
    let r := n mod 2 ^ shift in
    let half := 2 ^ (shift - 1) in
    let q' := if (half <? r) || ((r =? half) && Z.odd q) then q + 1 else q in
    q' * 2 ^ shift.

(** The integer nearest to [a / d], ties to even. *)
Definition round_half_even (a d : Z) : Z :=
  let q := a / d in
  let r := a mod d in
  if (d <? 2 * r) || ((2 * r =? d) && Z.odd q) then q + 1 else q.

(** The [for unit in [...]] loop on the value [m / 1024 ^ k]: divide by
    1024, stop when the value is below 1024. Returns the number of
    divisions and the unit reached. *)
Fixpoint pick (m : Z) (k : nat) (unit : string) (units : list string)
  : nat * string :=
  match units with
  | [] => (k, unit)
  | u :: rest =>
      if m <? 1024 ^ Z.of_nat (S (S k)) then (S k, u)
      else pick m (S k) u rest
  end.

Definition two_digits (d : Z) : string :=
  if d <? 10 then "0" ++ PyStr.str_of_int d else PyStr.str_of_int d.

(** [f"{x:.2f}"] for the double [x = m / 1024 ^ k >= 0]: the decimal with
    two places nearest to [x], ties to even. *)
Definition format_2f (m : Z) (k : nat) : string :=
  let hundredths := round_half_even (100 * m) (1024 ^ Z.of_nat k) in
  PyStr.str_of_int (hundredths / 100) ++ "." ++ two_digits (hundredths mod 100).

(** [_format_size(size_bytes)] for an [int]; [None] stands for the
    [OverflowError] of the first division when the quotient is too large
    for a float. The later divisions are by a power of two and exact. *)
Definition _format_size (size_bytes : Z) : option string :=
  if size_bytes <? 1024 then Some (PyStr.str_of_int size_bytes ++ " B")%string
  else
    let m := rn53 size_bytes in
    if 2 ^ 1034 <=? m then None
    else
      let (k, unit) := pick m 0 EmptyString ["KB"; "MB"; "GB"; "TB"] in
      Some (format_2f m k ++ " " ++ unit)%string.

End SizeFormat.

(* ===================================================================== *)
(** ** Listing devices on Windows *)
(* ===================================================================== *)

Module WindowsDevices.
Import DeviceDetector.

(** The characters up to the end of the line: what a greedy [.+] or [.*]
    of a regular expression can take. *)
Fixpoint take_line (s : string) : string :=
  match s with
  | EmptyString => EmptyString
  | String c s' =>
      if Ascii.eqb c PyStr.newline then EmptyString
      else String c (take_line s')
  end.

(** [re.search(key + r"(.+)", s)] and [group(1)]: the rest of the line
    after the leftmost [key] that has at least one character after it on
    its line. *)
Fixpoint search_after (key s : string) : option string :=
  let here :=
    if PyStr.startswith key s
    then take_line (PyStr.drop (String.length key) s)
    else EmptyString in
  match here with
  | String _ _ => Some here
  | EmptyString =>
      match s with
      | EmptyString => None
      | String _ s' => search_after key s'
      end
  end.

(** The text after the last [ is ] of a line that has text after it. *)
Fixpoint after_last_is (line : string) : option string :=
  match line with
  | EmptyString => None
  | String _ line' =>
      match after_last_is line' with
      | Some b => Some b
      | None =>
          if PyStr.startswith " is " line then
            match PyStr.drop 4 line with
            | EmptyString => None
            | b => Some b
            end
          else None
      end
  end.

(** [re.search(r"Volume in drive .+ is (.+)", s)] and [group(1)]: the
    first [.+] is greedy, so the match splits the line at its last
    [ is ], with at least one character on either side. *)
Fixpoint search_volume_label (s : string) : option string :=
  let here :=
    if PyStr.startswith "Volume in drive " s then
      match take_line (PyStr.drop 16 s) with
      | String _ rest => after_last_is rest
      | EmptyString => None
      end
    else None in
  match here with
  | Some b => Some b
  | None =>
      match s with
      | EmptyString => None
      | String _ s' => search_volume_label s'
      end
  end.

(** The [info] dictionary of [_get_windows_drive_info]: each of its three
    keys is present or not. *)
Record DriveInfo : Type := {
  label : option string;
  removable : option bool;
  external : option bool
}.

Definition no_info : DriveInfo :=
  {| label := None; removable := None; external := None |}.

(** A part of the [try] block: the actions done, the dictionary as it
    is afterwards, and whether the block goes on ([false]: an exception
    ended it; what was put in the dictionary before stays). *)
Definition Step : Type := DriveInfo -> list action * DriveInfo * bool.

Definition and_then (s1 s2 : Step) : Step :=
  fun info =>
    let '(t1, info1, go) := s1 info in
    if go then
      let '(t2, info2, go2) := s2 info1 in (t1 ++ t2, info2, go2)
    else (t1, info1, false).

Definition flags_from (text : string) (info : DriveInfo) : DriveInfo :=
  {| label := label info;
     removable := Some (PyStr.contains "removable" text);
     external := Some (PyStr.contains "external" text
                       || PyStr.contains "usb" text) |}.

Definition wmic_command (drive_letter : string) : string :=
  "wmic logicaldisk where DeviceID=" ++ dquote ++ drive_letter ++ dquote
  ++ " get VolumeName,Size,Description /format:list".

Definition wmic_step (h : Host) (drive_letter : string) : Step :=
  fun info =>
    let wmic_cmd := wmic_command drive_letter in
    match subprocess_run_shell h wmic_cmd with
    | inr _ => ([Run [wmic_cmd]], info, false)
    | inl result =>
        if returncode result =? 0 then
          let output := stdout result in
          let info1 :=
            match search_after "VolumeName=" output with
            | Some group =>
                match PyStr.strip group with
                | EmptyString => info
                | text => {| label := Some text;
                             removable := removable info;
                             external := external info |}
                end
            | None => info
            end in
          let info2 :=
            match search_after "Description=" output with
            | Some group =>
                flags_from (PyCase.lower (PyStr.strip group)) info1
            | None => info1
            end in
          ([Run [wmic_cmd]], info2, true)
        else ([Run [wmic_cmd]], info, true)
    end.

Definition vol_step (h : Host) (drive_letter : string) : Step :=
  fun info =>
    match label info with
    | Some _ => ([], info, true)
    | None =>
        let vol_cmd := ("vol " ++ drive_letter)%string in
        match subprocess_run_shell h vol_cmd with
        | inr _ => ([Run [vol_cmd]], info, false)
        | inl vol_result =>
            if returncode vol_result =? 0 then
              match search_volume_label (stdout vol_result) with
              | Some group =>
                  ([Run [vol_cmd]],
                   {| label := Some (PyStr.strip group);
                      removable := removable info;
                      external := external info |},
                   true)
              | None => ([Run [vol_cmd]], info, true)
              end
            else ([Run [vol_cmd]], info, true)
        end
    end.

Definition diskpart_step (h : Host) (drive_letter : string) : Step :=
  fun info =>
    match removable info with
    | Some _ => ([], info, true)
    | None =>
        let script_path :=
          path_join h (environ_get h "TEMP" "C:\Temp") "diskpart_script.txt" in
        match open_w h script_path with
        | Some _ => ([], info, false)
        | None =>
            match drive_letter with
            | EmptyString =>
                (* the file is open when drive_letter[0] fails *)
                ([WriteFile script_path EmptyString], info, false)
            | String first _ =>
                let text :=
                  ("select volume " ++ String first EmptyString ++ nl
                   ++ "detail volume" ++ nl ++ "exit")%string in
                let diskpart_cmd :=
                  ("diskpart /s " ++ dquote ++ script_path ++ dquote)%string in
                match subprocess_run_shell h diskpart_cmd with
                | inr _ =>
                    ([WriteFile script_path text; Run [diskpart_cmd]],
                     info, false)
                | inl diskpart_result =>
                    ([WriteFile script_path text; Run [diskpart_cmd];
                      RemoveFile script_path],
                     (if returncode diskpart_result =? 0
                      then flags_from (PyCase.lower (stdout diskpart_result))
                             info
                      else info),
                     true)
                end
            end
        end
    end.

(** [_get_windows_drive_info]: never raises; a command line run through
    the shell is recorded as a [Run] of that one string. *)
Definition _get_windows_drive_info (h : Host) (drive_path : string)
  : list action * DriveInfo :=
  let drive_letter := PyStr.rstrip "\" drive_path in
  let '(t, info, _) :=
    and_then (wmic_step h drive_letter)
      (and_then (vol_step h drive_letter) (diskpart_step h drive_letter))
      no_info in
  (t, info).

(** A device dictionary as [_get_windows_devices] builds it. *)
Record Device : Type := {
  name : string;
  path : string;
  mountpoint : string;
  filesystem : string;
  size_bytes : Z;
  size : string;
  is_removable : bool;
  is_external : bool
}.

(** [info.get(key, False)]. *)
Definition get_flag (flag : option bool) : bool :=
  match flag with
  | Some b => b
  | None => false
  end.

(** The body of the inner [try] for one partition that is neither a
    CD-ROM nor without file system; returns the list of devices as it is
    afterwards. *)
Definition consider (h : Host) (partition : Partition)
    (devices : list Device) : M (list Device) :=
  drive_info <- (let (t, info) := _get_windows_drive_info h (device partition)
                 in (t, inl info)) ;;
  if _is_system_drive h (device partition) then ret devices
  else if negb (get_flag (removable drive_info))
          && negb (get_flag (external drive_info)) then ret devices
  else
    match disk_usage h (partition_mountpoint partition) with
    | inr e => raise e
    | inl total =>
        match SizeFormat._format_size total with
        | None =>
            raise (Exc (UserDefined "OverflowError")
                     "integer division result too large for a float")
        | Some text =>
            ret (devices ++
                 [{| name := match label drive_info with
                             | Some l => l
                             | None => "Drive (" ++ device partition ++ ")"
                             end;
                     path := PyStr.rstrip "\" (device partition);
                     mountpoint := partition_mountpoint partition;
                     filesystem := fstype partition;
                     size_bytes := total;
                     size := text;
                     is_removable := get_flag (removable drive_info);
                     is_external := get_flag (external drive_info) |}])
        end
    end.

Fixpoint scan (h : Host) (partitions : list Partition)
    (devices : list Device) : M (list Device) :=
  match partitions with
  | [] => ret devices
  | partition :: rest =>
      if PyStr.contains "cdrom" (opts partition)
         || (fstype partition =? EmptyString)%string
      then scan h rest devices
      else
        devices' <-
          try_except (consider h partition devices)
            (fun e =>
               if isinstance e "PermissionError"
                  || isinstance e "FileNotFoundError"
               then ret devices else raise e) ;;
        scan h rest devices'
  end.

Definition _get_windows_devices (h : Host) : M (list Device) :=
  match disk_partitions h with
  | inr e => raise e
  | inl partitions => scan h partitions []
  end.

(** What makes a listed device acceptable, with the partition it comes
    from. *)
Definition from_partition (h : Host) (p : Partition) (d : Device) : Prop :=
  path d = PyStr.rstrip "\" (device p)
  /\ mountpoint d = partition_mountpoint p
  /\ filesystem d = fstype p
  /\ fstype p <> EmptyString
  /\ PyStr.contains "cdrom" (opts p) = false
  /\ _is_system_drive h (device p) = false
  /\ (is_removable d = true \/ is_external d = true)
  /\ disk_usage h (partition_mountpoint p) = inl (size_bytes d)
  /\ SizeFormat._format_size (size_bytes d) = Some (size d).

End WindowsDevices.

(** A Windows host with the system drive, a CD-ROM drive, a USB stick
    [E:] that [wmic] describes, a drive [F:] that only [diskpart] knows
    as removable and whose size cannot be read, and an internal data
    drive [G:]. *)
Definition wmic_output (volume description : string) : string :=
  nl ++ nl ++ "Description=" ++ description ++ nl ++ "Size=15728640000" ++ nl
  ++ "VolumeName=" ++ volume ++ nl ++ nl.

Definition detector_windows : DeviceDetector.Host := {|
  DeviceDetector.system := "Windows";
  DeviceDetector.environ := fun _ => None;
  DeviceDetector.path_join := fun a b => (a ++ "\" ++ b)%string;
  DeviceDetector.open_w := fun _ => None;
  DeviceDetector.subprocess_run := fun _ => inl ok_process;
  DeviceDetector.subprocess_run_shell := fun cmd =>
    if (cmd =? WindowsDevices.wmic_command "C:")%string then
      inl {| returncode := 0; stdout := wmic_output "Windows" "Local Fixed Disk";
             stderr := EmptyString |}
    else if (cmd =? WindowsDevices.wmic_command "E:")%string then
      inl {| returncode := 0; stdout := wmic_output "UBUNTU" "Removable Disk";
             stderr := EmptyString |}
    else if (cmd =? WindowsDevices.wmic_command "G:")%string then
      inl {| returncode := 0; stdout := wmic_output "DATA" "Local Fixed Disk";
             stderr := EmptyString |}
    else if (cmd =? "vol F:")%string then
      inl {| returncode := 0;
             stdout := " Volume in drive F is BACKUP is here" ++ nl
                       ++ " Volume Serial Number is 1234-ABCD" ++ nl;
             stderr := EmptyString |}
    else if PyStr.startswith "diskpart" cmd then
      inl {| returncode := 0;
             stdout := "Volume 3 is the selected volume." ++ nl
                       ++ "Type   : Removable" ++ nl;
             stderr := EmptyString |}
    else inl {| returncode := 1; stdout := EmptyString;
                stderr := "Invalid query" |};
  DeviceDetector.path_exists := fun _ => false;
  DeviceDetector.read_text := fun _ => inr (Exc FileNotFoundError "not used");
  DeviceDetector.realpath := fun p => inl p;
  DeviceDetector.disk_partitions :=
    inl [ {| DeviceDetector.device := "C:\";
             DeviceDetector.partition_mountpoint := "C:\";
             DeviceDetector.fstype := "NTFS";
             DeviceDetector.opts := "rw,fixed" |};
          {| DeviceDetector.device := "D:\";
             DeviceDetector.partition_mountpoint := "D:\";
             DeviceDetector.fstype := EmptyString;
             DeviceDetector.opts := "cdrom" |};
          {| DeviceDetector.device := "E:\";
             DeviceDetector.partition_mountpoint := "E:\";
             DeviceDetector.fstype := "FAT32";
             DeviceDetector.opts := "rw,removable" |};
          {| DeviceDetector.device := "F:\";
             DeviceDetector.partition_mountpoint := "F:\";
             DeviceDetector.fstype := "NTFS";
             DeviceDetector.opts := "rw,removable" |};
          {| DeviceDetector.device := "G:\";
             DeviceDetector.partition_mountpoint := "G:\";
             DeviceDetector.fstype := "NTFS";
             DeviceDetector.opts := "rw,fixed" |} ];
  DeviceDetector.disk_usage := fun p =>
    if (p =? "F:\")%string
    then inr (Exc PermissionError "[WinError 5] Access is denied: 'F:\\'")
    else inl 15728640000
|}.

From Stdlib Require DecimalPos.

(* ===================================================================== *)
(** ** [_parse_size] *)
(* ===================================================================== *)

Module SizeParse.

(** A float that is not negative and not a NaN: [m * 2 ^ ex], or
    infinity. *)
Inductive double : Type :=
| Finite (m ex : Z)
| Infinity.

(** [floor (log2 (p / q))] for [p, q > 0]. *)
Definition binade (p q : Z) : Z :=
  if q <=? p then Z.log2 (p / q) else - Z.log2_up ((q + p - 1) / p).

(** The double nearest to [p / q] ([p >= 0], [q > 0]), ties to even: 53
    significant bits, fewer below [2 ^ -1022], infinity from [2 ^ 1024]
    on. *)
Definition nearest_double (p q : Z) : double :=
  if p =? 0 then Finite 0 0
  else
    let ex := Z.max (binade p q - 52) (-1074) in
    let m :=
      if 0 <=? ex then SizeFormat.round_half_even p (q * 2 ^ ex)
      else SizeFormat.round_half_even (p * 2 ^ (- ex)) q in
    if m =? 0 then Finite 0 0
    else if 1024 <=? Z.log2 m + ex then Infinity
    else Finite m ex.

(** [x * n] for a float [x] and an [int] [n >= 1] below [2 ^ 53] (which
    is converted to a float as it is). *)
Definition times (x : double) (n : Z) : double :=
  match x with
  | Finite m ex =>
      if 0 <=? ex then nearest_double (m * n * 2 ^ ex) 1
      else nearest_double (m * n) (2 ^ (- ex))
  | Infinity => Infinity
  end.

(** [int(x)]. *)
Definition int_of (x : double) : Z + exc :=
  match x with
  | Finite m ex => inl (if 0 <=? ex then m * 2 ^ ex else m / 2 ^ (- ex))
  | Infinity =>
      inr (Exc (UserDefined "OverflowError")
             "cannot convert float infinity to integer")
  end.

Definition is_number_char (c : ascii) : bool :=
  PyStr.is_digit c || Ascii.eqb c ".".

(** What [[\d.]+] takes at the start of [s]. *)
Fixpoint number_prefix (s : string) : string :=
  match s with
  | EmptyString => EmptyString
  | String c s' =>
      if is_number_char c then String c (number_prefix s') else EmptyString
  end.

(** The number that a string of digits writes, after [acc]. *)
Fixpoint digits_value (acc : Z) (s : string) : Z :=
  match s with
  | EmptyString => acc
  | String c s' =>
      digits_value (10 * acc + (Z.of_nat (nat_of_ascii c) - 48)) s'
  end.

(** The digits before the first dot of a text of digits and dots, and
    what follows that dot. *)
Definition whole_part (text : string) : string := PyStr.take_digits text.

Definition fraction_part (text : string) : string :=
  match PyStr.drop (String.length (whole_part text)) text with
  | String _ after_dot => after_dot
  | EmptyString => EmptyString
  end.

(** [float(text)] for a text of digits and dots: digits with at most one
    dot among them, and at least one digit; [None] is the [ValueError]. *)
Definition float_of_text (text : string) : option double :=
  let whole := whole_part text in
  let fraction := fraction_part text in
  if all_digits fraction && negb (whole ++ fraction =? EmptyString)%string
  then Some (nearest_double (digits_value 0 (whole ++ fraction))
               (10 ^ Z.of_nat (String.length fraction)))
  else None.

(** The dictionary [multipliers], with [get(unit, 1)]. *)
Definition multipliers_get (unit : string) : Z :=
  if (unit =? EmptyString)%string then 1
  else if (unit =? "K")%string then 1024
  else if (unit =? "M")%string then 1024 ^ 2
  else if (unit =? "G")%string then 1024 ^ 3
  else if (unit =? "T")%string then 1024 ^ 4
  else 1.

(** [_parse_size(size_str)] for ASCII text. *)
Definition _parse_size (size_str : string) : Z + exc :=
  let size_str := PyCase.upper (PyStr.strip size_str) in
  match number_prefix size_str with
  | EmptyString => inl 0
  | group1 =>
      match float_of_text group1 with
      | None =>
          inr (Exc (UserDefined "ValueError")
                 ("could not convert string to float: '" ++ group1 ++ "'"))
      | Some value =>
          let unit :=
            match PyStr.drop (String.length group1) size_str with
            | String c _ =>
                if PyStr.mem_char c "KMGT" then String c EmptyString
                else EmptyString
            | EmptyString => EmptyString
            end in
          int_of (times value (multipliers_get unit))
      end
  end.


(** The number of dots in a text, and whether it has a digit. *)
Fixpoint dots (s : string) : nat :=
  match s with
  | EmptyString => 0
  | String c s' => if Ascii.eqb c "." then S (dots s') else dots s'
  end.

Fixpoint has_digit (s : string) : bool :=
  match s with
  | EmptyString => false
  | String c s' => PyStr.is_digit c || has_digit s'
  end.

(** [x] is the double with the integer value [v]. *)
Definition exactly (x : double) (v : Z) : Prop :=
  match x with
  | Finite m ex =>
      (0 <= ex /\ v = m * 2 ^ ex) \/ (ex < 0 /\ m = v * 2 ^ (- ex))
  | Infinity => False
  end.

(** The mantissa of a double of this model is not negative. *)
Definition not_negative (x : double) : Prop :=
  match x with
  | Finite m _ => 0 <= m
  | Infinity => True
  end.

End SizeParse.

(** Arithmetic on the value of a digit character. *)
Ltac digit_arith :=
  match goal with
  | |- context [Z.of_nat (nat_of_ascii ?c) - 48] =>
      let v := eval vm_compute in (Z.of_nat (nat_of_ascii c) - 48) in
      change (Z.of_nat (nat_of_ascii c) - 48) with v; lia
  end.

(* ===================================================================== *)
(** ** Listing devices on macOS *)
(* ===================================================================== *)

Module MacDevices.
Import DeviceDetector.

(** [re.findall(r"/dev/disk(\d+)", s)]: the digits after every
    [/dev/disk] that has a digit after it, from left to right. (Two
    matches cannot overlap: no match has a [/] after its first
    character but the one of [/disk], which does not begin a match.) *)
Fixpoint findall_disk_ids (s : string) : list string :=
  match s with
  | EmptyString => []
  | String _ s' =>
      let here :=
        if PyStr.startswith "/dev/disk" s
        then PyStr.take_digits (PyStr.drop 9 s)
        else EmptyString in
      match here with
      | String _ _ => here :: findall_disk_ids s'
      | EmptyString => findall_disk_ids s'
      end
  end.

(** The shortest non-empty beginning of [line] that [close] follows:
    what a lazy [(.+?)] takes before [close]. *)
Fixpoint until_close (close line : string) : option string :=
  match line with
  | EmptyString => None
  | String c rest =>
      if PyStr.startswith close rest then Some (String c EmptyString)
      else
        match until_close close rest with
        | Some group => Some (String c group)
        | None => None
        end
  end.

(** [<key>name</key>\s*<string>(.+?)</string>] matched at the start of
    [s]: the group. *)
Definition string_tag_here (name s : string) : option string :=
  let key := ("<key>" ++ name ++ "</key>")%string in
  if PyStr.startswith key s then
    let after := PyStr.lstrip PyStr.whitespace (PyStr.drop (String.length key) s) in
    if PyStr.startswith "<string>" after
    then until_close "</string>" (WindowsDevices.take_line (PyStr.drop 8 after))
    else None
  else None.

(** [re.search] with that pattern and [group(1)]: the leftmost match. *)
Fixpoint search_string_tag (name s : string) : option string :=
  match string_tag_here name s with
  | Some group => Some group
  | None =>
      match s with
      | EmptyString => None
      | String _ s' => search_string_tag name s'
      end
  end.

(** [<key>name</key>\s*<integer>(\d+)</integer>] matched at the start
    of [s]: the group. *)
Definition integer_tag_here (name s : string) : option string :=
  let key := ("<key>" ++ name ++ "</key>")%string in
  if PyStr.startswith key s then
    let after := PyStr.lstrip PyStr.whitespace (PyStr.drop (String.length key) s) in
    if PyStr.startswith "<integer>" after then
      let digits := PyStr.take_digits (PyStr.drop 9 after) in
      match digits with
      | EmptyString => None
      | String _ _ =>
          if PyStr.startswith "</integer>"
               (PyStr.drop (9 + String.length digits) after)
          then Some digits else None
      end
    else None
  else None.

Fixpoint search_integer_tag (name s : string) : option string :=
  match integer_tag_here name s with
  | Some group => Some group
  | None =>
      match s with
      | EmptyString => None
      | String _ s' => search_integer_tag name s'
      end
  end.

(** [int(digits)] for a non-empty string of digits; CPython refuses more
    than 4300 digits. *)
Definition int_of_digits (digits : string) : M Z :=
  let n := String.length digits in
  if (4300 <? n)%nat then
    raise (Exc (UserDefined "ValueError")
             ("Exceeds the limit (4300 digits) for integer string conversion: value has "
              ++ PyStr.str_of_int (Z.of_nat n)
              ++ " digits; use sys.set_int_max_str_digits() to increase the limit"))
  else ret (SizeParse.digits_value 0 digits).

Definition info_command (disk_id : string) : list string :=
  ["diskutil"; "info"; "-plist"; ("/dev/disk" ++ disk_id)%string].

(** The body of the [for disk_id in disk_ids] loop, over the ids that
    are left; returns the list of devices as it is at the end. *)
Fixpoint visit (h : Host) (disk_ids : list string)
    (devices : list WindowsDevices.Device) : M (list WindowsDevices.Device) :=
  match disk_ids with
  | [] => ret devices
  | disk_id :: rest =>
      let disk_path := ("/dev/disk" ++ disk_id)%string in
      info_result <- run h ["diskutil"; "info"; "-plist"; disk_path] ;;
      if negb (returncode info_result =? 0) then visit h rest devices
      else
        let output := stdout info_result in
        let name :=
          match search_string_tag "VolumeName" output with
          | Some group => group
          | None => ("Disk " ++ disk_id)%string
          end in
        size_bytes <-
          match search_integer_tag "TotalSize" output with
          | Some group => int_of_digits group
          | None => ret 0
          end ;;
        let filesystem :=
          match search_string_tag "FilesystemName" output with
          | Some group => group
          | None => "Unknown"
          end in
        let mountpoint :=
          match search_string_tag "MountPoint" output with
          | Some group => group
          | None => EmptyString
          end in
        if (mountpoint =? EmptyString)%string then visit h rest devices
        else
          match SizeFormat._format_size size_bytes with
          | None =>
              raise (Exc (UserDefined "OverflowError")
                       "integer division result too large for a float")
          | Some text =>
              visit h rest
                (devices ++
                 [{| WindowsDevices.name := name;
                     WindowsDevices.path := disk_path;
                     WindowsDevices.mountpoint := mountpoint;
                     WindowsDevices.filesystem := filesystem;
                     WindowsDevices.size_bytes := size_bytes;
                     WindowsDevices.size := text;
                     WindowsDevices.is_removable := true;
                     WindowsDevices.is_external := true |}])
          end
  end.

Definition _get_macos_devices (h : Host) : M (list WindowsDevices.Device) :=
  result <- run h ["diskutil"; "list"; "-plist"; "external"] ;;
  if negb (returncode result =? 0) then ret []
  else visit h (findall_disk_ids (stdout result)) [].

(** What makes a listed device acceptable, with the disk number it
    comes from. *)
Definition from_disk (h : Host) (disk_id : string)
    (d : WindowsDevices.Device) : Prop :=
  disk_id <> EmptyString /\ all_digits disk_id = true
  /\ WindowsDevices.path d = ("/dev/disk" ++ disk_id)%string
  /\ (exists info,
        subprocess_run h (info_command disk_id) = inl info
        /\ returncode info = 0
        /\ search_string_tag "MountPoint" (stdout info)
           = Some (WindowsDevices.mountpoint d)
        /\ WindowsDevices.name d
           = match search_string_tag "VolumeName" (stdout info) with
             | Some group => group
             | None => ("Disk " ++ disk_id)%string
             end
        /\ WindowsDevices.filesystem d
           = match search_string_tag "FilesystemName" (stdout info) with
             | Some group => group
             | None => "Unknown"
             end)
  /\ WindowsDevices.mountpoint d <> EmptyString
  /\ WindowsDevices.is_removable d = true
  /\ WindowsDevices.is_external d = true
  /\ SizeFormat._format_size (WindowsDevices.size_bytes d)
     = Some (WindowsDevices.size d).

End MacDevices.

Definition tab : string := String (ascii_of_nat 9) EmptyString.

(** A macOS host with an external disk 2, mounted, that the listing
    names twice (the disk and its partition), and a disk 3 that is not
    mounted. *)
Definition plist_entry (key tag value : string) : string :=
  tab ++ "<key>" ++ key ++ "</key>" ++ nl
  ++ tab ++ "<" ++ tag ++ ">" ++ value ++ "</" ++ tag ++ ">" ++ nl.

Definition detector_macos : DeviceDetector.Host := {|
  DeviceDetector.system := "Darwin";
  DeviceDetector.environ := fun _ => None;
  DeviceDetector.path_join := fun a b => (a ++ "/" ++ b)%string;
  DeviceDetector.open_w := fun _ => None;
  DeviceDetector.subprocess_run := fun argv =>
    match argv with
    | ["diskutil"; "list"; _; _] =>
        inl {| returncode := 0;
               stdout := "<string>/dev/disk2</string>" ++ nl
                         ++ "<string>/dev/disk2s1</string>" ++ nl
                         ++ "<string>/dev/disk3</string>" ++ nl;
               stderr := EmptyString |}
    | ["diskutil"; "info"; _; "/dev/disk2"] =>
        inl {| returncode := 0;
               stdout := plist_entry "FilesystemName" "string" "MS-DOS FAT32"
                         ++ plist_entry "MountPoint" "string" "/Volumes/UBUNTU"
                         ++ plist_entry "TotalSize" "integer" "15728640000"
                         ++ plist_entry "VolumeName" "string" "UBUNTU";
               stderr := EmptyString |}
    | ["diskutil"; "info"; _; _] =>
        inl {| returncode := 0;
               stdout := plist_entry "TotalSize" "integer" "1000204886016";
               stderr := EmptyString |}
    | _ => inr (Exc FileNotFoundError "[Errno 2] No such file or directory")
    end;
  DeviceDetector.subprocess_run_shell := fun _ =>
    inr (Exc FileNotFoundError "not used");
  DeviceDetector.path_exists := fun _ => false;
  DeviceDetector.read_text := fun _ => inr (Exc FileNotFoundError "not used");
  DeviceDetector.realpath := fun p => inl p;
  DeviceDetector.disk_partitions := inl [];
  DeviceDetector.disk_usage := fun _ => inr (Exc FileNotFoundError "not used")
|}.

Definition ubuntu_stick : WindowsDevices.Device :=
  {| WindowsDevices.name := "UBUNTU";
     WindowsDevices.path := "/dev/disk2";
     WindowsDevices.mountpoint := "/Volumes/UBUNTU";
     WindowsDevices.filesystem := "MS-DOS FAT32";
     WindowsDevices.size_bytes := 15728640000;
     WindowsDevices.size := "14.65 GB";
     WindowsDevices.is_removable := true;
     WindowsDevices.is_external := true |}.


(* ===================================================================== *)
(** ** [ISOHandler.download_iso] *)
(* ===================================================================== *)

Module Download.

(** The answer of the server as the function uses it. *)
Record Response : Type := {
  status_error : option exc;        (* what raise_for_status() raises *)
  content_length : option string;   (* headers.get('content-length') *)
  body : list (list byte);          (* the chunks that iter_content yields *)
  body_error : option exc           (* what the iterator raises after them *)
}.

(** What the libraries and the host answer. *)
Record Net : Type := {
  urlparse : string -> (string * string) + exc;  (* scheme and netloc *)
  save_directory : string -> string;
      (* os.path.dirname(os.path.abspath(save_path)) *)
  makedirs : string -> option exc;  (* error of os.makedirs(..., exist_ok=True) *)
  requests_get : string -> Response + exc;  (* requests.get(url, stream=True) *)
  int_of_text : string -> Z + exc;  (* int(text) *)
  open_wb : string -> option exc;   (* error of open(path, 'wb') *)
  existed : string -> bool;         (* os.path.exists(path) before the call *)
  is_request_exception : exc -> bool
      (* isinstance(e, requests.exceptions.RequestException) *)
}.

(** What a call does, in order. Writing to the open file and the
    callback are taken to return normally. *)
Inductive event : Type :=
| MakeDirs (directory : string)
| Get (url : string)
| Create (path : string)
| Write (chunk : list byte)
| Report (percentage : Z) (message : string)
| Remove (path : string).

(** A computation that records events and returns or raises. *)
Definition D (A : Type) : Type := list event * (A + exc).

Definition pure {A} (a : A) : D A := ([], inl a).
Definition fail {A} (e : exc) : D A := ([], inr e).
Definition tell (ev : event) : D unit := ([ev], inl tt).
Definition lift {A} (r : A + exc) : D A := ([], r).

Definition and_then {A B} (m : D A) (k : A -> D B) : D B :=
  match m with
  | (t, inl a) => let (t', r) := k a in (t ++ t', r)
  | (t, inr e) => (t, inr e)
  end.

Declare Scope dl_scope.
Delimit Scope dl_scope with dl.
Notation "x <~ m ;; k" := (and_then m (fun x => k))
  (at level 61, m at next level, right associativity) : dl_scope.
Notation "m ;;; k" := (and_then m (fun _ => k))
  (at level 61, right associativity) : dl_scope.
Local Open Scope dl_scope.

Definition overflow : exc :=
  Exc (UserDefined "OverflowError")
    "integer division result too large for a float".

(** [int(downloaded * 100 / total_size)] for [downloaded >= 0] and
    [total_size > 0]: the quotient is a float. *)
Definition percentage (downloaded total_size : Z) : Z + exc :=
  match SizeParse.nearest_double (downloaded * 100) total_size with
  | SizeParse.Infinity => inr overflow
  | x => SizeParse.int_of x
  end.

Definition format_size (size_bytes : Z) : string + exc :=
  match SizeFormat._format_size size_bytes with
  | Some text => inl text
  | None => inr overflow
  end.

(** The progress update after a chunk. *)
Definition report_progress (downloaded total_size : Z) : D unit :=
  p <~ lift (percentage downloaded total_size) ;;
  done <~ lift (format_size downloaded) ;;
  total <~ lift (format_size total_size) ;;
  tell (Report p ("Downloading ISO: " ++ done ++ " of " ++ total)).

Definition has_callback (cb : callback) : bool :=
  match cb with
  | Callback => true
  | NoCallback => false
  end.

(** [for chunk in response.iter_content(...)], from [downloaded] bytes
    on; returns the number of bytes downloaded. *)
Fixpoint receive (chunks : list (list byte)) (total_size : Z)
    (cb : callback) (downloaded : Z) : D Z :=
  match chunks with
  | [] => pure downloaded
  | chunk :: rest =>
      match chunk with
      | [] => receive rest total_size cb downloaded
      | _ :: _ =>
          tell (Write chunk) ;;;
          let downloaded := downloaded + Z.of_nat (List.length chunk) in
          (if (0 <? total_size) && has_callback cb
           then report_progress downloaded total_size
           else pure tt) ;;;
          receive rest total_size cb downloaded
      end
  end.

(** The body of the second [try]. *)
Definition transfer (net : Net) (url save_path : string) (cb : callback)
  : D string :=
  tell (Get url) ;;;
  response <~ lift (requests_get net url) ;;
  match status_error response with
  | Some e => fail e
  | None =>
      total_size <~ match content_length response with
                    | Some text => lift (int_of_text net text)
                    | None => pure 0
                    end ;;
      match open_wb net save_path with
      | Some e => fail e
      | None =>
          tell (Create save_path) ;;;
          downloaded <~ receive (body response) total_size cb 0 ;;
          match body_error response with
          | Some e => fail e
          | None =>
              (if has_callback cb then
                 text <~ lift (format_size downloaded) ;;
                 tell (Report 100 ("Download complete: " ++ text))
               else pure tt) ;;;
              pure save_path
          end
      end
  end.

Definition is_create (ev : event) : bool :=
  match ev with
  | Create _ => true
  | _ => false
  end.

(** [download_iso(url, save_path, progress_callback)]. *)
Definition download_iso (net : Net) (url save_path : string) (cb : callback)
  : D string :=
  let invalid : D string :=
    fail (Exc (UserDefined "ValueError") ("Invalid URL: " ++ url)) in
  match urlparse net url with
  | inr _ => invalid
  | inl (scheme, netloc) =>
      if (scheme =? EmptyString)%string || (netloc =? EmptyString)%string
      then invalid
      else
        let directory := save_directory net save_path in
        tell (MakeDirs directory) ;;;
        match makedirs net directory with
        | Some e => fail e
        | None =>
            let (t, r) := transfer net url save_path cb in
            match r with
            | inl path => (t, inl path)
            | inr e =>
                if is_request_exception net e then
                  (* the file exists if it did or has been created *)
                  if existed net save_path || existsb is_create t
                  then (t ++ [Remove save_path], inr e)
                  else (t, inr e)
                else (t, inr e)
            end
        end
  end.

(** The bytes written to the file, in order. *)
Fixpoint written (t : list event) : list byte :=
  match t with
  | [] => []
  | Write chunk :: t' => chunk ++ written t'
  | _ :: t' => written t'
  end.

Definition is_remove (ev : event) : bool :=
  match ev with
  | Remove _ => true
  | _ => false
  end.

Definition is_report (ev : event) : bool :=
  match ev with
  | Report _ _ => true
  | _ => false
  end.

End Download.

(** A server that sends five bytes in two chunks, with an empty chunk
    between them, and announces their number. *)
Definition net_ok : Download.Net := {|
  Download.urlparse := fun url =>
    if PyStr.startswith "https://" url
    then inl ("https", PyStr.drop 8 url) else inl (EmptyString, EmptyString);
  Download.save_directory := fun _ => "/tmp";
  Download.makedirs := fun _ => None;
  Download.requests_get := fun _ =>
    inl {| Download.status_error := None;
           Download.content_length := Some "5";
           Download.body := [[x49; x53; x4f]; []; [x0d; x0a]];
           Download.body_error := None |};
  Download.int_of_text := fun text =>
    if (text =? "5")%string then inl 5
    else inr (Exc (UserDefined "ValueError")
                ("invalid literal for int() with base 10: '" ++ text ++ "'"));
  Download.open_wb := fun _ => None;
  Download.existed := fun _ => false;
  Download.is_request_exception := fun e =>
    (class_name (exc_type e) =? "HTTPError")%string
|}.

(** A server that answers 404, and a file already at the target. *)
Definition not_found : exc :=
  Exc (UserDefined "HTTPError")
    "404 Client Error: Not Found for url: https://example.org/u.iso".

Definition net_404 : Download.Net := {|
  Download.urlparse := Download.urlparse net_ok;
  Download.save_directory := Download.save_directory net_ok;
  Download.makedirs := Download.makedirs net_ok;
  Download.requests_get := fun _ =>
    inl {| Download.status_error := Some not_found;
           Download.content_length := None;
           Download.body := [];
           Download.body_error := None |};
  Download.int_of_text := Download.int_of_text net_ok;
  Download.open_wb := Download.open_wb net_ok;
  Download.existed := fun _ => true;
  Download.is_request_exception := Download.is_request_exception net_ok
|}.
Example sha256_constants :
  List.length Sha256.K = 64%nat
  /\ nth 0 Sha256.K 0 = 0x428a2f98 /\ nth 63 Sha256.K 0 = 0xc67178f2
  /\ nth 0 Sha256.H0 0 = 0x6a09e667 /\ nth 7 Sha256.H0 0 = 0x5be0cd19.
Proof. vm_compute. repeat split. Qed.

Example sha256_empty :
  Sha256.hexdigest [] =
  "e3b0c44298fc1c149afbf4c8996fb92427ae41e4649b934ca495991b7852b855".
Proof. vm_compute. reflexivity. Qed.

Example sha256_abc :
  Sha256.hexdigest (list_byte_of_string "abc") =
  "ba7816bf8f01cfea414140de5dae2223b00361a396177a9cb410ff61f20015ad".
Proof. vm_compute. reflexivity. Qed.

Example sha256_two_blocks :
  Sha256.hexdigest (repeat "a"%byte 56) =
  "b35439a4ac6f0948b6d6f9e3c6af0f5f590ce20f1bde7090ef7970686ec6738a".
Proof. vm_compute. reflexivity. Qed.


Example run_linux :
  percentages (trace (create_bootable_drive linux_env (BootableCreator linux_env)
                        "/dev/sdb" "ubuntu.iso" 8 Callback))
  = [0; 5; 15; 30; 50; 50; 70; 70; 75; 90; 95; 100].
Proof. vm_compute. reflexivity. Qed.

(* ===================================================================== *)
(** ** Laws of the computation monad *)
(* ===================================================================== *)

Lemma bind_assoc {A B C} (m : M A) (f : A -> M B) (g : B -> M C) :
  bind (bind m f) g = bind m (fun a => bind (f a) g).
Proof.
  destruct m as [t [a|e]]; simpl; [|reflexivity].
  destruct (f a) as [t1 [b|e]]; simpl; [|reflexivity].
  destruct (g b) as [t2 r]. now rewrite app_assoc.
Qed.

Lemma bind_ext {A B} (m : M A) (f g : A -> M B) :
  (forall a, f a = g a) -> bind m f = bind m g.
Proof.
  intros H. destruct m as [t [a|e]]; simpl; [rewrite H|]; reflexivity.
Qed.

Lemma bind_ret_l {A B} (a : A) (k : A -> M B) : bind (ret a) k = k a.
Proof. unfold ret. simpl. now destruct (k a). Qed.

Lemma bind_ok {A B} (t : list action) (a : A) (k : A -> M B) :
  bind (t, inl a) k = (t ++ trace (k a), outcome (k a)).
Proof. simpl. now destruct (k a). Qed.

Lemma bind_raise {A B} (t : list action) (e : exc) (k : A -> M B) :
  bind (t, inr e) k = (t, inr e).
Proof. reflexivity. Qed.

Lemma notify_eq cb p msg : notify cb p msg = (note cb p msg, inl tt).
Proof. now destruct cb. Qed.

Lemma surjective_M {A} (m : M A) : m = (trace m, outcome m).
Proof. now destruct m. Qed.

Lemma unit_outcome (m : M unit) :
  succeeds m \/ exists e, outcome m = inr e.
Proof.
  destruct m as [t [[]|e]]; [left; reflexivity | right; now exists e].
Qed.

(* ===================================================================== *)
(** ** Observations distribute over concatenation *)
(* ===================================================================== *)

Lemma percentages_app t1 t2 :
  percentages (t1 ++ t2) = percentages t1 ++ percentages t2.
Proof.
  induction t1 as [|a t1 IH]; [reflexivity|].
  destruct a; simpl; now rewrite IH.
Qed.

Lemma invocations_app t1 t2 :
  invocations (t1 ++ t2) = invocations t1 ++ invocations t2.
Proof.
  induction t1 as [|a t1 IH]; [reflexivity|].
  destruct a; simpl; now rewrite IH.
Qed.

Lemma invocations_note cb p msg : invocations (note cb p msg) = [].
Proof. now destruct cb. Qed.

(* ===================================================================== *)
(** ** The stage sequence *)
(* ===================================================================== *)

Section Pipeline.

Variables (env : Env) (self : Self) (cb : callback).

Lemma invoke_eq c :
  invoke self c cb
  = (Invoke c :: trace (stage_body self c cb),
     outcome (stage_body self c cb)).
Proof. unfold invoke, emit. now rewrite bind_ok. Qed.

(** When every stage of [cs] returns, [run_calls] returns after their
    segments. *)
Lemma run_calls_ok cs :
  (forall c, In c cs -> succeeds (stage_body self c cb)) ->
  run_calls self cb cs = (flat_map (segment self cb) cs, inl tt).
Proof.
  induction cs as [|c cs IH]; intros Hok; [reflexivity|].
  simpl run_calls. rewrite notify_eq, bind_ok, invoke_eq.
  cbn [trace outcome fst snd].
  rewrite (Hok c (or_introl eq_refl)), bind_ok, IH
    by (intros; apply Hok; now right).
  cbn [trace outcome fst snd flat_map]. unfold segment.
  now rewrite <- !app_assoc.
Qed.

(** When the stages of [before] return and [c] raises [e], [run_calls]
    stops there: nothing of [after] runs. *)
Lemma run_calls_fail before c after e :
  (forall c', In c' before -> succeeds (stage_body self c' cb)) ->
  outcome (stage_body self c cb) = inr e ->
  run_calls self cb (before ++ c :: after)
  = (flat_map (segment self cb) before ++ segment self cb c, inr e).
Proof.
  induction before as [|b before IH]; intros Hok Hc.
  - cbn [app run_calls flat_map]. rewrite notify_eq, bind_ok, invoke_eq.
    cbn [trace outcome fst snd]. rewrite Hc. reflexivity.
  - cbn [app run_calls flat_map]. rewrite notify_eq, bind_ok, invoke_eq.
    cbn [trace outcome fst snd].
    rewrite (Hok b (or_introl eq_refl)), bind_ok, IH
      by (try assumption; intros; apply Hok; now right).
    cbn [trace outcome fst snd]. unfold segment.
    now rewrite <- !app_assoc.
Qed.

(** Either every stage returns or there is a first one that raises. *)
Lemma first_failure cs :
  (forall c, In c cs -> succeeds (stage_body self c cb))
  \/ exists before c after e,
       cs = before ++ c :: after
       /\ (forall c', In c' before -> succeeds (stage_body self c' cb))
       /\ outcome (stage_body self c cb) = inr e.
Proof.
  induction cs as [|c cs IH].
  - left. intros c [].
  - destruct (unit_outcome (stage_body self c cb)) as [Hc|[e He]].
    + destruct IH as [Hall|(before & c' & after & e & -> & Hb & He)].
      * left. intros x [<-|Hx]; auto.
      * right. exists (c :: before), c', after, e.
        repeat split; auto. intros x [<-|Hx]; auto.
    + right. exists [], c, cs, e. repeat split; auto. intros x [].
Qed.

Variables (device_path iso_path : string) (persistence_size : Z).

Let calls := pipeline_calls device_path iso_path persistence_size.
Let the_run :=
  create_bootable_drive env self device_path iso_path persistence_size cb.

(** [create_bootable_drive] in terms of [run_calls]. *)
Lemma create_unfold :
  the_run =
  if negb (path_exists env iso_path) then
    raise (Exc FileNotFoundError ("ISO file not found: " ++ iso_path))
  else
    notify cb 0 "Starting bootable drive creation..." ;;
    try_except
      (run_calls self cb calls ;;
       notify cb 100 "Bootable drive created successfully!" ;;
       ret true)
      (fun e => notify cb 0 ("Error: " ++ exc_str e) ;; raise e).
Proof.
  unfold the_run, create_bootable_drive, calls, pipeline_calls.
  destruct (negb (path_exists env iso_path)); [reflexivity|].
  apply bind_ext; intros _. f_equal.
  cbn [run_calls announcement fst snd].
  repeat (rewrite bind_assoc; apply bind_ext; intros _).
  now rewrite bind_ret_l.
Qed.

Lemma create_missing :
  path_exists env iso_path = false ->
  the_run
  = ([], inr (Exc FileNotFoundError ("ISO file not found: " ++ iso_path))).
Proof. intros H. rewrite create_unfold, H. reflexivity. Qed.

Lemma create_success :
  path_exists env iso_path = true ->
  (forall c, In c calls -> succeeds (stage_body self c cb)) ->
  the_run
  = (note cb 0 "Starting bootable drive creation..."
     ++ flat_map (segment self cb) calls
     ++ note cb 100 "Bootable drive created successfully!",
     inl true).
Proof.
  intros H Hok. rewrite create_unfold, H. cbn [negb].
  rewrite notify_eq, bind_ok, (run_calls_ok _ Hok), bind_ok.
  rewrite notify_eq, bind_ok. cbn [trace outcome fst snd ret try_except].
  now rewrite app_nil_r.
Qed.

Lemma create_failure before c after e :
  path_exists env iso_path = true ->
  calls = before ++ c :: after ->
  (forall c', In c' before -> succeeds (stage_body self c' cb)) ->
  outcome (stage_body self c cb) = inr e ->
  the_run
  = (note cb 0 "Starting bootable drive creation..."
     ++ (flat_map (segment self cb) before ++ segment self cb c)
     ++ note cb 0 ("Error: " ++ exc_str e),
     inr e).
Proof.
  intros H Hcs Hok He. rewrite create_unfold, H, Hcs. cbn [negb].
  rewrite notify_eq, bind_ok, (run_calls_fail _ _ after _ Hok He).
  rewrite bind_raise. cbn [try_except].
  rewrite notify_eq, bind_ok. cbn [trace outcome fst snd raise].
  now rewrite app_nil_r.
Qed.

(** A stage method that does not call stage methods leaves exactly its
    own call in a segment. *)
Lemma invocations_segment c :
  invocations (trace (stage_body self c cb)) = [] ->
  invocations (segment self cb c) = [c].
Proof.
  intros Hleaf. unfold segment. rewrite invocations_app, invocations_note.
  cbn [invocations app]. now rewrite Hleaf.
Qed.

Lemma invocations_segments cs :
  (forall c, In c cs -> invocations (trace (stage_body self c cb)) = []) ->
  invocations (flat_map (segment self cb) cs) = cs.
Proof.
  induction cs as [|c cs IH]; intros Hleaf; [reflexivity|].
  cbn [flat_map].
  rewrite invocations_app, invocations_segment, IH; auto.
  - intros x Hx. apply Hleaf. now right.
  - apply Hleaf. now left.
Qed.

End Pipeline.

Lemma pipeline_calls_stages d i p :
  map stage_of (pipeline_calls d i p)
  = [Prepare; WriteImage; ConfigurePersistence; InstallBootloader].
Proof. reflexivity. Qed.

Lemma later_calls_distinct d i p before c after :
  pipeline_calls d i p = before ++ c :: after ->
  forall c', In c' after -> ~ In c' (before ++ [c]).
Proof.
  intros Hsplit c' Hafter Hin.
  assert (Hnd : NoDup (map stage_of (before ++ c :: after))).
  { rewrite <- Hsplit, pipeline_calls_stages.
    repeat constructor; simpl; intuition discriminate. }
  replace (before ++ c :: after) with ((before ++ [c]) ++ after) in Hnd
    by now rewrite <- app_assoc.
  rewrite map_app in Hnd.
  apply (in_map stage_of) in Hafter, Hin.
  revert Hnd Hin Hafter. generalize (map stage_of (before ++ [c])) as l.
  generalize (map stage_of after) as l'. generalize (stage_of c') as s.
  intros s l' l. induction l as [|x l IH]; simpl; [tauto|].
  intros Hnd [->|Hin] Hafter.
  - inversion Hnd as [|? ? Hx _]; subst. apply Hx, in_or_app. now right.
  - inversion Hnd; subst. now apply IH.
Qed.

(* ===================================================================== *)
(** ** Input validation *)
(* ===================================================================== *)

(** C3, as stated, fails: with the image [missing.iso] absent the run is
    rejected, but the exception is the built-in [FileNotFoundError], not
    an instance of a class called [ValidationError]. *)
Lemma missing_iso_not_ValidationError :
  path_exists linux_env "missing.iso" = false
  /\ ~ rejected_as "ValidationError"
         (create_bootable_drive linux_env (BootableCreator linux_env)
            "/dev/sdb" "missing.iso" 8 Callback).
Proof.
  split; [reflexivity|].
  intros [(e & He & Hinst) _]. vm_compute in He.
  injection He as <-. vm_compute in Hinst. discriminate.
Qed.

(** C3, amended: for every request whose image path does not exist,
    [create_bootable_drive] raises [FileNotFoundError] with the message
    [ISO file not found: <path>] before stage 1 begins: no stage method
    is invoked, no progress event is emitted, no process is started and
    no file is touched (the trace is empty). This holds for every
    environment, every stage implementation, every
    device, persistence size and callback. *)
Theorem missing_iso_rejected env self device_path iso_path persistence_size cb :
  path_exists env iso_path = false ->
  let r := create_bootable_drive env self device_path iso_path
             persistence_size cb in
  rejected_as "FileNotFoundError" r
  /\ outcome r
     = inr (Exc FileNotFoundError ("ISO file not found: " ++ iso_path))
  /\ invocations (trace r) = []
  /\ percentages (trace r) = []
  /\ system_calls (trace r) = [].
Proof.
  intros H r. subst r. rewrite (create_missing _ _ _ _ _ _ H).
  repeat split; try reflexivity.
  eexists; split; reflexivity.
Qed.

Lemma missing_iso_rejected_witness :
  rejected_as "FileNotFoundError"
    (create_bootable_drive linux_env (BootableCreator linux_env)
       "/dev/sdb" "missing.iso" 8 Callback).
Proof.
  apply (missing_iso_rejected linux_env (BootableCreator linux_env)
           "/dev/sdb" "missing.iso" 8 Callback).
  reflexivity.
Defined.

(** C1, as stated, fails: a request with persistence size 0 and an
    existing image is not rejected. On a Linux host where the tools work
    the run goes through all four stages, starts the privileged [dd] copy
    and returns [True]. *)
Lemma size_zero_not_rejected :
  let r := create_bootable_drive linux_env (BootableCreator linux_env)
             "/dev/sdb" "ubuntu.iso" 0 Callback in
  ~ (1 <= 0 <= 128)
  /\ outcome r = inl true
  /\ In (Popen (dd_command "/dev/sdb" "ubuntu.iso")) (trace r)
  /\ ~ rejected_as "ValidationError" r.
Proof.
  cbv zeta. split; [lia|]. split; [vm_compute; reflexivity|].
  split.
  - vm_compute. do 8 right. left. reflexivity.
  - intros [(e & He & _) _]. vm_compute in He. discriminate.
Qed.

(** C1, amended: [create_bootable_drive] does not look at the persistence
    size. For every request whose image exists, whatever the size (0, -1
    and 129 included), the run is not rejected: it announces the start,
    announces stage 1 and calls [_prepare_drive] with the size as given.
    (The run is rejected with an empty trace exactly when the image is
    missing.) *)
Theorem persistence_size_not_checked
    env self device_path iso_path persistence_size cb :
  path_exists env iso_path = true ->
  let r := create_bootable_drive env self device_path iso_path
             persistence_size cb in
  (exists rest,
     trace r
     = note cb 0 "Starting bootable drive creation..."
       ++ note cb 5 "Preparing drive..."
       ++ Invoke (call_prepare_drive device_path persistence_size) :: rest)
  /\ In (Invoke (call_prepare_drive device_path persistence_size)) (trace r)
  /\ forall name, ~ rejected_as name r.
Proof.
  intros H r.
  assert (Hrest : exists rest,
     trace r
     = note cb 0 "Starting bootable drive creation..."
       ++ note cb 5 "Preparing drive..."
       ++ Invoke (call_prepare_drive device_path persistence_size) :: rest).
  { subst r.
    destruct (first_failure self cb
                (pipeline_calls device_path iso_path persistence_size))
      as [Hok|(before & c & after & e & Hsplit & Hok & He)].
    - rewrite (create_success _ _ _ _ _ _ H Hok).
      cbn [trace fst pipeline_calls flat_map]. unfold segment at 1.
      cbn [announcement fst snd].
      rewrite <- !app_assoc. cbn [app]. eexists. reflexivity.
    - rewrite (create_failure _ _ _ _ _ _ _ _ _ _ H Hsplit Hok He).
      cbn [trace fst].
      assert (Hfirst : exists rest',
                (flat_map (segment self cb) before ++ segment self cb c)
                = segment self cb
                    (call_prepare_drive device_path persistence_size)
                  ++ rest').
      { destruct before as [|b before]; injection Hsplit as <- _.
        - exists []. now rewrite app_nil_r.
        - cbn [flat_map]. rewrite <- app_assoc. eexists. reflexivity. }
      destruct Hfirst as [rest' ->]. unfold segment at 1.
      cbn [announcement fst snd].
      rewrite <- !app_assoc. cbn [app]. eexists. reflexivity. }
  destruct Hrest as [rest Hrest]. split; [now exists rest|]. split.
  - rewrite Hrest. apply in_or_app. right. apply in_or_app. right.
    now left.
  - intros name [_ Hnil]. rewrite Hrest in Hnil.
    destruct cb; discriminate.
Qed.

Lemma persistence_size_not_checked_witness :
  In (Invoke (call_prepare_drive "/dev/sdb" 129))
     (trace (create_bootable_drive linux_env (BootableCreator linux_env)
               "/dev/sdb" "ubuntu.iso" 129 Callback)).
Proof.
  apply (persistence_size_not_checked linux_env (BootableCreator linux_env)
           "/dev/sdb" "ubuntu.iso" 129 Callback).
  reflexivity.
Defined.

(* ===================================================================== *)
(** ** Stage order, failure and the terminal outcome *)
(* ===================================================================== *)

Lemma progress_100_note cb p msg :
  p <> 100 -> filter is_progress_100 (note cb p msg) = [].
Proof.
  intros Hp. destruct cb; [reflexivity|]. cbn [note filter is_progress_100].
  destruct (Z.eqb_spec p 100); [contradiction|reflexivity].
Qed.

Lemma progress_100_segments self cb cs :
  (forall c, In c cs ->
             filter is_progress_100 (trace (stage_body self c cb)) = []) ->
  filter is_progress_100 (flat_map (segment self cb) cs) = [].
Proof.
  induction cs as [|c cs IH]; intros Hquiet; [reflexivity|].
  cbn [flat_map]. unfold segment at 1.
  rewrite !filter_app, IH by (intros x Hx; apply Hquiet; now right).
  cbn [filter is_progress_100].
  rewrite (Hquiet c (or_introl eq_refl)), progress_100_note; [reflexivity|].
  destruct c; cbn; discriminate.
Qed.

(** C6, as stated, fails: without a progress callback (the default of
    the parameter) the run of the class on Linux calls the four stage
    methods once each, in order, and returns [True], but no event is
    emitted: there is no event at 100, where the claim has exactly one. *)
Lemma success_without_callback_has_no_event :
  let r := create_bootable_drive linux_env (BootableCreator linux_env)
             "/dev/sdb" "ubuntu.iso" 8 NoCallback in
  outcome r = inl true
  /\ stages_invoked (trace r)
     = [Prepare; WriteImage; ConfigurePersistence; InstallBootloader]
  /\ filter is_progress_100 (trace r) = []
  /\ percentages (trace r) = [].
Proof. vm_compute. repeat split. Qed.

(** C6, amended: in every run in which the four stage methods return
    normally (the class's own or stand-ins that make no stage calls and
    report no 100 themselves), they are called exactly once each, in the
    order Prepare, Write Image, Configure Persistence, Install
    Bootloader, and the result is [True]. When a progress callback is
    passed, the success event at 100 is the last action of the run and
    its only event at 100; when none is passed there is no event at
    100. *)
Theorem stages_run_once_in_order
    env self device_path iso_path persistence_size cb :
  path_exists env iso_path = true ->
  (forall c, In c (pipeline_calls device_path iso_path persistence_size) ->
             succeeds (stage_body self c cb)
             /\ invocations (trace (stage_body self c cb)) = []
             /\ filter is_progress_100 (trace (stage_body self c cb)) = []) ->
  let r := create_bootable_drive env self device_path iso_path
             persistence_size cb in
  outcome r = inl true
  /\ invocations (trace r)
     = pipeline_calls device_path iso_path persistence_size
  /\ stages_invoked (trace r)
     = [Prepare; WriteImage; ConfigurePersistence; InstallBootloader]
  /\ match cb with
     | Callback =>
         (exists before,
            trace r
            = before ++ [Progress 100 "Bootable drive created successfully!"])
         /\ filter is_progress_100 (trace r)
            = [Progress 100 "Bootable drive created successfully!"]
     | NoCallback => filter is_progress_100 (trace r) = []
     end.
Proof.
  intros H Hstages r. subst r.
  assert (Hok : forall c,
            In c (pipeline_calls device_path iso_path persistence_size) ->
            succeeds (stage_body self c cb)) by (intros; now apply Hstages).
  assert (Hleaf : forall c,
            In c (pipeline_calls device_path iso_path persistence_size) ->
            invocations (trace (stage_body self c cb)) = [])
    by (intros; now apply Hstages).
  assert (Hquiet : forall c,
            In c (pipeline_calls device_path iso_path persistence_size) ->
            filter is_progress_100 (trace (stage_body self c cb)) = [])
    by (intros; now apply Hstages).
  rewrite (create_success _ _ _ _ _ _ H Hok). cbn [trace outcome fst snd].
  assert (Hinv : invocations
            (note cb 0 "Starting bootable drive creation..."
             ++ flat_map (segment self cb)
                  (pipeline_calls device_path iso_path persistence_size)
             ++ note cb 100 "Bootable drive created successfully!")
          = pipeline_calls device_path iso_path persistence_size).
  { rewrite !invocations_app, !invocations_note,
      (invocations_segments _ _ _ Hleaf).
    cbn [app]. now rewrite app_nil_r. }
  split; [reflexivity|]. split; [exact Hinv|]. split.
  { unfold stages_invoked. now rewrite Hinv. }
  assert (Hhundred :
    filter is_progress_100
      (note cb 0 "Starting bootable drive creation..."
       ++ flat_map (segment self cb)
            (pipeline_calls device_path iso_path persistence_size)
       ++ note cb 100 "Bootable drive created successfully!")
    = note cb 100 "Bootable drive created successfully!").
  { rewrite !filter_app, (progress_100_segments _ _ _ Hquiet).
    rewrite progress_100_note by discriminate.
    destruct cb; reflexivity. }
  destruct cb.
  - exact Hhundred.
  - split; [| exact Hhundred].
    eexists. rewrite app_assoc. reflexivity.
Qed.

(** C10, as stated, fails: without a progress callback (the default of
    the parameter) a run that fails after the validation re-raises the
    error of the stage and emits no event, so no error event either. *)
Lemma failure_without_callback_has_no_error_event :
  let r := create_bootable_drive linux_no_pkexec
             (BootableCreator linux_no_pkexec)
             "/dev/sdb" "ubuntu.iso" 8 NoCallback in
  path_exists linux_no_pkexec "ubuntu.iso" = true
  /\ outcome r
     = inr (Exc OSError
              "pkexec is not installed. Please install it to continue.")
  /\ percentages (trace r) = [].
Proof. vm_compute. repeat split. Qed.

(** C10, amended: for a call without a progress callback or with one
    whose calls return normally (the callbacks of this model),
    [create_bootable_drive] never returns [False]: if it returns, the
    result is [True]. When the image exists and the run raises, the
    exception is the very one raised by one of the four stage methods,
    re-raised unchanged, and nothing is done after that stage but, when
    a callback is passed, to report [(0, Error: <str(e)>)] to it: with a
    callback the error event is the last action of the run, without one
    the run ends with what the failing stage did. *)
Theorem never_returns_False
    env self device_path iso_path persistence_size cb :
  let r := create_bootable_drive env self device_path iso_path
             persistence_size cb in
  outcome r <> inl false
  /\ (forall b, outcome r = inl b -> b = true)
  /\ (forall e,
        path_exists env iso_path = true ->
        outcome r = inr e ->
        exists c before,
          In c (pipeline_calls device_path iso_path persistence_size)
          /\ outcome (stage_body self c cb) = inr e
          /\ trace r
             = before ++ Invoke c :: trace (stage_body self c cb)
               ++ match cb with
                  | Callback => [Progress 0 ("Error: " ++ exc_str e)]
                  | NoCallback => []
                  end).
Proof.
  intros r.
  assert (Hnote : forall e,
    note cb 0 ("Error: " ++ exc_str e)
    = match cb with
      | Callback => [Progress 0 ("Error: " ++ exc_str e)]
      | NoCallback => []
      end) by (intros e; destruct cb; reflexivity).
  assert (Hcases :
    path_exists env iso_path = false \/
    (path_exists env iso_path = true /\ outcome r = inl true) \/
    (path_exists env iso_path = true /\
     exists c before e,
       In c (pipeline_calls device_path iso_path persistence_size)
       /\ outcome (stage_body self c cb) = inr e
       /\ outcome r = inr e
       /\ trace r
          = before ++ Invoke c :: trace (stage_body self c cb)
            ++ note cb 0 ("Error: " ++ exc_str e))).
  { destruct (path_exists env iso_path) eqn:H; [right|now left].
    destruct (first_failure self cb
                (pipeline_calls device_path iso_path persistence_size))
      as [Hok|(before & c & after & e & Hsplit & Hok & He)].
    - left. split; [reflexivity|]. subst r.
      now rewrite (create_success _ _ _ _ _ _ H Hok).
    - right. split; [reflexivity|]. exists c.
      exists (note cb 0 "Starting bootable drive creation..."
              ++ flat_map (segment self cb) before
              ++ note cb (fst (announcement c)) (snd (announcement c))).
      exists e.
      subst r. rewrite (create_failure _ _ _ _ _ _ _ _ _ _ H Hsplit Hok He).
      cbn [trace outcome fst snd]. repeat split; auto.
      + rewrite Hsplit. apply in_or_app. right. now left.
      + unfold segment at 2. rewrite <- !app_assoc. reflexivity. }
  destruct Hcases as [H|[[H Hr]|[H (c & before & e & Hc & He & Hr & Ht)]]].
  - subst r. rewrite (create_missing _ _ _ _ _ _ H). cbn [outcome snd].
    repeat split; try discriminate. intros e H'. congruence.
  - rewrite Hr. repeat split; try discriminate; congruence.
  - rewrite Hr. repeat split; try discriminate.
    intros e' _ [= <-]. exists c, before. rewrite <- Hnote. auto.
Qed.

Lemma never_returns_False_witness :
  exists c before,
    In c (pipeline_calls "/dev/sdb" "ubuntu.iso" 8)
    /\ outcome (stage_body (BootableCreator linux_no_pkexec) c Callback)
       = inr (Exc OSError
                "pkexec is not installed. Please install it to continue.")
    /\ trace (create_bootable_drive linux_no_pkexec
                (BootableCreator linux_no_pkexec)
                "/dev/sdb" "ubuntu.iso" 8 Callback)
       = before
         ++ Invoke c
            :: trace (stage_body (BootableCreator linux_no_pkexec) c Callback)
         ++ [Progress 0
               "Error: pkexec is not installed. Please install it to continue."].
Proof.
  apply (never_returns_False linux_no_pkexec (BootableCreator linux_no_pkexec)
           "/dev/sdb" "ubuntu.iso" 8 Callback);
    vm_compute; reflexivity.
Defined.

(** C4, as stated, fails: when the third stage raises the exception the
    class uses for a failed tool, a [RuntimeError] with the tool's
    diagnostic text, the run ends with that [RuntimeError]; it is not an
    instance of a class called [PersistenceSetupError]. *)
Lemma stage_3_failure_not_PersistenceSetupError :
  let self := failing_persistence linux_env in
  let r := create_bootable_drive linux_env self
             "/dev/sdb" "ubuntu.iso" 8 Callback in
  outcome (stage_body self (call_setup_persistence "/dev/sdb" 8) Callback)
  = inr (Exc RuntimeError
           "Failed to set up persistence: mkfs.ext4: exit status 1")
  /\ outcome r
     = inr (Exc RuntimeError
              "Failed to set up persistence: mkfs.ext4: exit status 1")
  /\ ~ raised_as "PersistenceSetupError" r.
Proof.
  cbv zeta. split; [reflexivity|]. split; [vm_compute; reflexivity|].
  intros (e & He & Hinst). vm_compute in He. injection He as <-.
  vm_compute in Hinst. discriminate.
Qed.

(** C4, amended: if a stage method raises [e] after the earlier stages
    returned (stage methods making no stage calls themselves), then no
    later stage is invoked, the run stops there (the stage calls made are
    exactly the earlier ones and the failing one, and the only thing that
    follows the failing stage is the error event for the callback), and
    [e] itself, class and text unchanged, is raised to the caller. In
    particular a failure of [_setup_persistence] keeps
    [_install_bootloader] from running. *)
Theorem stage_failure_stops_run
    env self device_path iso_path persistence_size cb before c after e :
  path_exists env iso_path = true ->
  pipeline_calls device_path iso_path persistence_size
  = before ++ c :: after ->
  (forall c', In c' before -> succeeds (stage_body self c' cb)) ->
  outcome (stage_body self c cb) = inr e ->
  (forall c', In c' (before ++ [c]) ->
              invocations (trace (stage_body self c' cb)) = []) ->
  let r := create_bootable_drive env self device_path iso_path
             persistence_size cb in
  outcome r = inr e
  /\ invocations (trace r) = before ++ [c]
  /\ (forall c', In c' after -> ~ In (Invoke c') (trace r))
  /\ trace r
     = note cb 0 "Starting bootable drive creation..."
       ++ flat_map (segment self cb) before
       ++ segment self cb c
       ++ note cb 0 ("Error: " ++ exc_str e).
Proof.
  intros H Hsplit Hok He Hleaf r. subst r.
  rewrite (create_failure _ _ _ _ _ _ _ _ _ _ H Hsplit Hok He).
  cbn [trace outcome fst snd].
  assert (Hinv : invocations
            (note cb 0 "Starting bootable drive creation..."
             ++ (flat_map (segment self cb) before ++ segment self cb c)
             ++ note cb 0 ("Error: " ++ exc_str e))
          = before ++ [c]).
  { rewrite !invocations_app, !invocations_note,
      (invocations_segments self cb before),
      (invocations_segment self cb c).
    - cbn [app]. now rewrite app_nil_r.
    - apply Hleaf, in_or_app. right. now left.
    - intros x Hx. apply Hleaf, in_or_app. now left. }
  split; [reflexivity|]. split; [exact Hinv|]. split.
  - intros c' Hafter Hin.
    apply (later_calls_distinct _ _ _ _ _ _ Hsplit c' Hafter).
    rewrite <- Hinv. clear - Hin.
    induction (note cb 0 "Starting bootable drive creation..." ++
               (flat_map (segment self cb) before ++ segment self cb c) ++
               note cb 0 ("Error: " ++ exc_str e)) as [|a t IH];
      [contradiction|].
    destruct Hin as [->|Hin]; [now left|].
    destruct a; cbn [invocations]; try right; auto.
  - now rewrite <- !app_assoc.
Qed.

Lemma stage_failure_stops_run_witness :
  invocations
    (trace (create_bootable_drive linux_env (failing_persistence linux_env)
              "/dev/sdb" "ubuntu.iso" 8 Callback))
  = [call_prepare_drive "/dev/sdb" 8; call_write_iso "/dev/sdb" "ubuntu.iso"]
    ++ [call_setup_persistence "/dev/sdb" 8].
Proof.
  apply (stage_failure_stops_run linux_env (failing_persistence linux_env)
           "/dev/sdb" "ubuntu.iso" 8 Callback
           [call_prepare_drive "/dev/sdb" 8;
            call_write_iso "/dev/sdb" "ubuntu.iso"]
           (call_setup_persistence "/dev/sdb" 8)
           [call_install_bootloader "/dev/sdb" "ubuntu.iso"]
           (Exc RuntimeError
              "Failed to set up persistence: mkfs.ext4: exit status 1")).
  - reflexivity.
  - reflexivity.
  - intros c' [<-|[<-|[]]]; reflexivity.
  - reflexivity.
  - intros c' [<-|[<-|[<-|[]]]]; reflexivity.
Defined.

(* ===================================================================== *)
(** ** Non-decreasing lists *)
(* ===================================================================== *)

Lemma within_app lo hi l1 l2 :
  within lo hi (l1 ++ l2) = within lo hi l1 && within lo hi l2.
Proof. apply forallb_app. Qed.

Lemma within_weaken lo hi lo' hi' l :
  lo' <= lo -> hi <= hi' -> within lo hi l = true -> within lo' hi' l = true.
Proof.
  intros Hlo Hhi. unfold within. rewrite !forallb_forall.
  intros H x Hx. specialize (H x Hx). lia.
Qed.

Lemma le_all_within x lo hi l :
  x <= lo -> within lo hi l = true -> le_all x l = true.
Proof.
  intros Hx. induction l as [|y l IH]; [reflexivity|].
  cbn [within forallb le_all]. intros H.
  apply andb_true_iff in H as [Hy Hl]. rewrite (IH Hl). lia.
Qed.

Lemma le_all_app x l1 l2 :
  le_all x (l1 ++ l2) = le_all x l1 && le_all x l2.
Proof.
  induction l1 as [|y l1 IH]; [reflexivity|].
  cbn [app le_all]. now rewrite IH, andb_assoc.
Qed.

(** Two non-decreasing lists, the first below a mark and the second above
    it, concatenate to a non-decreasing list. *)
Lemma non_decreasing_app a b c l1 l2 :
  non_decreasing l1 = true -> non_decreasing l2 = true ->
  within a b l1 = true -> within b c l2 = true ->
  non_decreasing (l1 ++ l2) = true.
Proof.
  intros H1 H2 W1 W2. induction l1 as [|x l1 IH]; [exact H2|].
  cbn [app non_decreasing] in *. cbn [within forallb] in W1.
  apply andb_true_iff in H1 as [Hx H1], W1 as [Wx W1].
  rewrite le_all_app, Hx, (IH H1 W1). cbn [andb].
  rewrite (le_all_within x b c l2); [reflexivity|lia|exact W2].
Qed.

Lemma percentages_note cb p msg :
  non_decreasing (percentages (note cb p msg)) = true
  /\ within p p (percentages (note cb p msg)) = true.
Proof.
  destruct cb; cbn; [split; reflexivity|].
  rewrite !Z.leb_refl. split; reflexivity.
Qed.

Lemma band_ordered c : 5 <= lower c <= upper c /\ upper c <= 100.
Proof. destruct c; cbn; lia. Qed.

Lemma announcement_lower c : fst (announcement c) = lower c.
Proof. destruct c; reflexivity. Qed.

Lemma chained_app_l lo l1 l2 : chained lo (l1 ++ l2) -> chained lo l1.
Proof.
  revert lo. induction l1 as [|c l1 IH]; intros lo; cbn; [trivial|].
  intros [H1 H2]. split; [exact H1|]. now apply IH.
Qed.

Lemma pipeline_chained d i p : chained 0 (pipeline_calls d i p).
Proof. cbn. lia. Qed.

(** Stage after stage, each in its band: the percentages never drop. *)
Lemma segments_non_decreasing self cb cs : forall lo,
  chained lo cs ->
  (forall c, In c cs -> in_band self cb c) ->
  non_decreasing (percentages (flat_map (segment self cb) cs)) = true
  /\ within lo 100 (percentages (flat_map (segment self cb) cs)) = true.
Proof.
  induction cs as [|c cs IH]; intros lo Hch Hband; [split; reflexivity|].
  destruct Hch as [Hlo Hch].
  destruct (IH _ Hch (fun x Hx => Hband x (or_intror Hx))) as [IHnd IHw].
  destruct (Hband c (or_introl eq_refl)) as [Hnd Hw].
  destruct (band_ordered c) as [Hc Hc'].
  destruct (percentages_note cb (lower c) (snd (announcement c)))
    as [Nnd Nw].
  cbn [flat_map]. unfold segment at 1 3. rewrite announcement_lower.
  rewrite !percentages_app. cbn [percentages].
  rewrite <- app_assoc.
  assert (Hbody : non_decreasing
            (percentages (trace (stage_body self c cb))
             ++ percentages (flat_map (segment self cb) cs)) = true).
  { eapply non_decreasing_app; eauto. }
  assert (Hbodyw : within (lower c) 100
            (percentages (trace (stage_body self c cb))
             ++ percentages (flat_map (segment self cb) cs)) = true).
  { rewrite within_app. apply andb_true_iff. split.
    - apply (within_weaken (lower c) (upper c)); auto; lia.
    - apply (within_weaken (upper c) 100); auto; lia. }
  split.
  - eapply non_decreasing_app; eauto.
  - rewrite within_app. apply andb_true_iff. split.
    + apply (within_weaken (lower c) (lower c)); auto; lia.
    + apply (within_weaken (lower c) 100); auto; lia.
Qed.

(* ===================================================================== *)
(** ** The stage methods of the class *)
(* ===================================================================== *)

Lemma trace_bind {A B} (m : M A) (k : A -> M B) :
  trace (bind m k)
  = trace m ++ match outcome m with
               | inl a => trace (k a)
               | inr _ => []
               end.
Proof.
  destruct m as [t [a|e]]; cbn.
  - now destruct (k a).
  - now rewrite app_nil_r.
Qed.

Lemma body_ok_app lo hi t1 t2 :
  body_ok lo hi (t1 ++ t2) = body_ok lo hi t1 && body_ok lo hi t2.
Proof. apply forallb_app. Qed.

Lemma body_ok_note lo hi cb p msg :
  lo <= p <= hi -> body_ok lo hi (note cb p msg) = true.
Proof. intros Hp. destruct cb; cbn; [reflexivity|]. lia. Qed.

Lemma body_ok_runs lo hi t : forallb is_run t = true -> body_ok lo hi t = true.
Proof.
  unfold body_ok. rewrite !forallb_forall. intros H a Ha.
  specialize (H a Ha). now destruct a.
Qed.

Lemma body_ok_invocations lo hi t :
  body_ok lo hi t = true -> invocations t = [].
Proof.
  induction t as [|a t IH]; [reflexivity|]. cbn [body_ok forallb].
  intros H. apply andb_true_iff in H as [Ha Ht].
  destruct a; cbn [invocations]; auto; discriminate.
Qed.

Lemma body_ok_within lo hi t :
  body_ok lo hi t = true -> within lo hi (percentages t) = true.
Proof.
  induction t as [|a t IH]; [reflexivity|]. cbn [body_ok forallb].
  intros H. apply andb_true_iff in H as [Ha Ht].
  destruct a; cbn [percentages within forallb]; auto.
  rewrite Ha. now apply IH.
Qed.

Lemma body_ok_no_100 lo hi t :
  hi < 100 -> body_ok lo hi t = true -> filter is_progress_100 t = [].
Proof.
  intros Hhi. induction t as [|a t IH]; [reflexivity|].
  cbn [body_ok forallb]. intros H. apply andb_true_iff in H as [Ha Ht].
  destruct a; cbn [filter is_progress_100]; auto.
  destruct (Z.eqb_spec percentage 100); [lia|auto].
Qed.

Lemma non_decreasing_const x l :
  within x x l = true -> non_decreasing l = true.
Proof.
  induction l as [|y l IH]; [reflexivity|]. cbn [within forallb].
  intros H. apply andb_true_iff in H as [Hy Hl].
  cbn [non_decreasing]. rewrite (IH Hl), andb_true_r.
  apply (le_all_within y x x); [lia|exact Hl].
Qed.

Section Methods.

Variable env : Env.

Lemma unmount_partition_eq p :
  _unmount_partition env p = ([Run ["umount"; p]], inl tt).
Proof.
  unfold _unmount_partition, run. cbn. split_oracles; reflexivity.
Qed.

Lemma unmount_each_eq l :
  unmount_each env l = (map (fun p => Run ["umount"; p]) l, inl tt).
Proof.
  induction l as [|p l IH]; [reflexivity|].
  cbn [unmount_each map]. now rewrite unmount_partition_eq, bind_ok, IH.
Qed.

Lemma get_linux_partitions_trace d :
  trace (_get_linux_partitions env d) = [Run ["lsblk"; "-no"; "NAME"; d]].
Proof.
  unfold _get_linux_partitions, run. cbn. split_oracles; reflexivity.
Qed.

Lemma unmount_all_runs d :
  forallb is_run (trace (_unmount_all_partitions env d)) = true.
Proof.
  unfold _unmount_all_partitions.
  rewrite trace_bind, get_linux_partitions_trace.
  destruct (outcome (_get_linux_partitions env d)) as [l|e];
    [|reflexivity].
  rewrite unmount_each_eq. cbn. now induction l.
Qed.

Lemma monitor_stderr_eq cb lines :
  monitor_stderr cb lines
  = (flat_map (fun line =>
                 if PyStr.contains "copied" line
                 then note cb 50 "Writing ISO..." else []) lines,
     inl tt).
Proof.
  induction lines as [|line lines IH]; [reflexivity|].
  cbn [monitor_stderr flat_map]. rewrite IH.
  destruct (PyStr.contains "copied" line).
  - now rewrite notify_eq, bind_ok.
  - reflexivity.
Qed.

Lemma monitor_stderr_ok cb lines :
  body_ok 50 50 (trace (monitor_stderr cb lines)) = true.
Proof.
  rewrite monitor_stderr_eq. cbn [trace fst].
  induction lines as [|line lines IH]; [reflexivity|].
  cbn [flat_map]. rewrite body_ok_app, IH, andb_true_r.
  destruct (PyStr.contains "copied" line); [|reflexivity].
  apply body_ok_note. lia.
Qed.

(** Stage 1 *)

Lemma prepare_drive_windows_ok d p cb :
  body_ok 10 10 (trace (_prepare_drive_windows env d p cb)) = true.
Proof.
  unfold _prepare_drive_windows, _get_windows_disk_number, write_script,
    run, remove_quietly.
  destruct cb; cbn; split_oracles; reflexivity.
Qed.

Lemma prepare_drive_linux_ok d p cb :
  body_ok 15 15 (trace (_prepare_drive_linux env d p cb)) = true.
Proof.
  unfold _prepare_drive_linux. rewrite trace_bind, body_ok_app.
  rewrite (body_ok_runs _ _ _ (unmount_all_runs d)).
  destruct (outcome (_unmount_all_partitions env d)); [|reflexivity].
  rewrite notify_eq. apply body_ok_note. lia.
Qed.

Lemma prepare_drive_ok d p cb :
  exists x, 5 <= x <= 30
    /\ body_ok x x (trace (_prepare_drive env d p cb)) = true.
Proof.
  unfold _prepare_drive.
  destruct (system env =? "Windows")%string.
  { exists 10. split; [lia|apply prepare_drive_windows_ok]. }
  destruct (system env =? "Darwin")%string.
  { exists 15. split; [lia|]. unfold _prepare_drive_macos.
    rewrite notify_eq. apply body_ok_note. lia. }
  destruct (system env =? "Linux")%string.
  { exists 15. split; [lia|apply prepare_drive_linux_ok]. }
  exists 5. split; [lia|reflexivity].
Qed.

(** Stage 2 *)

Lemma write_iso_linux_shape d i cb :
  exists A B,
    trace (_write_iso_linux env d i cb) = A ++ B
    /\ body_ok 50 50 A = true /\ body_ok 70 70 B = true.
Proof.
  unfold _write_iso_linux.
  destruct (which env "pkexec"); cbn [negb];
    [|exists [], []; repeat split].
  destruct (which env "dd"); cbn [negb];
    [|exists [], []; repeat split].
  unfold emit. rewrite bind_ok.
  destruct (subprocess_Popen env (dd_command d i)) as [p|e].
  - rewrite bind_ret_l, monitor_stderr_eq, bind_ok.
    pose proof (monitor_stderr_ok cb (stderr_lines p)) as Hmon.
    rewrite monitor_stderr_eq in Hmon. cbn [trace fst] in Hmon.
    destruct (exit_status p =? 0); cbn [negb].
    + rewrite notify_eq. cbn [trace outcome fst snd try_except].
      eexists (_ ++ _), _. split; [apply app_assoc|].
      split; [exact Hmon|]. apply body_ok_note. lia.
    + cbn [trace outcome fst snd try_except raise isinstance exc_type
             mro existsb class_name String.eqb Ascii.eqb Bool.eqb orb].
      rewrite !app_nil_r.
      eexists (_ ++ _), []. split; [symmetry; apply app_nil_r|].
      split; [exact Hmon|reflexivity].
  - cbn. destruct (isinstance e "FileNotFoundError"); cbn;
      exists [Popen (dd_command d i)], []; repeat split.
Qed.

Lemma write_iso_ok d i cb :
  non_decreasing (percentages (trace (_write_iso env d i cb))) = true
  /\ body_ok 30 70 (trace (_write_iso env d i cb)) = true.
Proof.
  unfold _write_iso.
  destruct (system env =? "Windows")%string.
  { unfold _write_iso_windows. rewrite notify_eq. now destruct cb. }
  destruct (system env =? "Darwin")%string.
  { unfold _write_iso_macos. rewrite notify_eq. now destruct cb. }
  destruct (system env =? "Linux")%string; [|split; reflexivity].
  destruct (write_iso_linux_shape d i cb) as (A & B & -> & HA & HB).
  split.
  - rewrite percentages_app.
    apply (non_decreasing_app 50 50 70).
    + apply (non_decreasing_const 50), body_ok_within, HA.
    + apply (non_decreasing_const 70), body_ok_within, HB.
    + apply body_ok_within, HA.
    + apply (within_weaken 70 70); [lia|lia|]. apply body_ok_within, HB.
  - rewrite body_ok_app. apply andb_true_iff. split.
    + revert HA. unfold body_ok. rewrite !forallb_forall.
      intros H a Ha. specialize (H a Ha). destruct a; auto. lia.
    + revert HB. unfold body_ok. rewrite !forallb_forall.
      intros H a Ha. specialize (H a Ha). destruct a; auto. lia.
Qed.

(** Stages 3 and 4 *)

Lemma setup_persistence_ok d p cb :
  body_ok 75 75 (trace (_setup_persistence env d p cb)) = true.
Proof.
  unfold _setup_persistence, _setup_persistence_windows,
    _setup_persistence_macos, _setup_persistence_linux.
  rewrite !notify_eq.
  destruct cb; split_oracles; reflexivity.
Qed.

Lemma install_bootloader_ok d i cb :
  body_ok 95 95 (trace (_install_bootloader env d i cb)) = true.
Proof.
  unfold _install_bootloader, _install_bootloader_windows,
    _install_bootloader_macos, _install_bootloader_linux.
  rewrite !notify_eq.
  destruct cb; split_oracles; reflexivity.
Qed.

(** The class's stage methods call no stage method. *)
Lemma class_leaf c cb :
  invocations (trace (stage_body (BootableCreator env) c cb)) = [].
Proof.
  destruct c as [d p|d i|d p|d i];
    cbn [stage_body BootableCreator self_prepare_drive
                     self_write_iso self_setup_persistence
                     self_install_bootloader].
  - destruct (prepare_drive_ok d p cb) as (x & _ & H).
    eapply body_ok_invocations, H.
  - eapply body_ok_invocations, write_iso_ok.
  - eapply body_ok_invocations, setup_persistence_ok.
  - eapply body_ok_invocations, install_bootloader_ok.
Qed.

(** They report no 100 themselves. *)
Lemma class_no_100 c cb :
  filter is_progress_100 (trace (stage_body (BootableCreator env) c cb))
  = [].
Proof.
  destruct c as [d p|d i|d p|d i];
    cbn [stage_body BootableCreator self_prepare_drive
                     self_write_iso self_setup_persistence
                     self_install_bootloader].
  - destruct (prepare_drive_ok d p cb) as (x & Hx & H).
    apply (body_ok_no_100 x x); [lia|exact H].
  - apply (body_ok_no_100 30 70); [lia|apply write_iso_ok].
  - apply (body_ok_no_100 75 75); [lia|apply setup_persistence_ok].
  - apply (body_ok_no_100 95 95); [lia|apply install_bootloader_ok].
Qed.

(** And they keep to their bands. *)
Lemma class_in_band c cb : in_band (BootableCreator env) cb c.
Proof.
  unfold in_band.
  destruct c as [d p|d i|d p|d i];
    cbn [stage_body BootableCreator self_prepare_drive
                     self_write_iso self_setup_persistence
                     self_install_bootloader lower upper band stage_of
                     fst snd].
  - destruct (prepare_drive_ok d p cb) as (x & Hx & H).
    apply body_ok_within in H. split.
    + now apply (non_decreasing_const x).
    + apply (within_weaken x x); auto; lia.
  - split; [apply write_iso_ok|apply body_ok_within, write_iso_ok].
  - pose proof (body_ok_within _ _ _ (setup_persistence_ok d p cb)) as H.
    split.
    + now apply (non_decreasing_const 75).
    + apply (within_weaken 75 75); auto; lia.
  - pose proof (body_ok_within _ _ _ (install_bootloader_ok d i cb)) as H.
    split.
    + now apply (non_decreasing_const 95).
    + apply (within_weaken 95 95); auto; lia.
Qed.

End Methods.

(* ===================================================================== *)
(** ** The checksum *)
(* ===================================================================== *)

Module ChecksumFacts.
Import ISOHandler.

(** Reading a file block by block feeds the hash every byte of it, in
    order, and stops. *)
Lemma read_blocks_fed n rest h :
  (0 < n)%nat -> fed (read_blocks n rest h) = fed h ++ rest.
Proof.
  intros Hn. funelim (read_blocks n rest h).
  - clear Heqcall. destruct n as [|n]; [lia|].
    destruct rest as [|r rest]; [|discriminate].
    now rewrite app_nil_r.
  - rewrite H by assumption. cbn [update fed].
    rewrite <- app_assoc. f_equal.
    rewrite <- e. apply firstn_skipn.
Qed.

Lemma length_append a b :
  String.length (a ++ b) = (String.length a + String.length b)%nat.
Proof.
  induction a as [|c a IH]; [reflexivity|].
  cbn [append String.length]. now rewrite IH.
Qed.

Lemma all_hex_app a b : all_hex (a ++ b) = all_hex a && all_hex b.
Proof.
  induction a as [|c a IH]; [reflexivity|].
  cbn [append all_hex]. now rewrite IH, andb_assoc.
Qed.

Lemma hex_digit_ok d :
  0 <= d < 16 ->
  PyStr.mem_char (Sha256.hex_digit d) "0123456789abcdef" = true.
Proof.
  intros Hd.
  assert (Hcases : d = 0 \/ d = 1 \/ d = 2 \/ d = 3 \/ d = 4 \/ d = 5
                   \/ d = 6 \/ d = 7 \/ d = 8 \/ d = 9 \/ d = 10
                   \/ d = 11 \/ d = 12 \/ d = 13 \/ d = 14 \/ d = 15)
    by lia.
  repeat (destruct Hcases as [->|Hcases]; [reflexivity|]).
  subst d. reflexivity.
Qed.

Lemma hex_byte_ok x :
  let b := Z.land x 0xff in
  String.length (Sha256.hex_byte b) = 2%nat
  /\ all_hex (Sha256.hex_byte b) = true.
Proof.
  intros b. split; [reflexivity|].
  assert (Hb : 0 <= b < 256).
  { subst b. change 0xff with (Z.ones 8). rewrite Z.land_ones by lia.
    apply Z.mod_pos_bound. lia. }
  unfold Sha256.hex_byte. cbn [all_hex].
  rewrite !hex_digit_ok; [reflexivity| |].
  - change 0xf with (Z.ones 4). rewrite Z.land_ones by lia.
    apply Z.mod_pos_bound. lia.
  - rewrite Z.shiftr_div_pow2 by lia. change (2 ^ 4) with 16.
    split; [apply Z.div_pos; lia|apply Z.div_lt_upper_bound; lia].
Qed.

Lemma hex_word_ok w :
  String.length (Sha256.hex_word w) = 8%nat
  /\ all_hex (Sha256.hex_word w) = true.
Proof.
  unfold Sha256.hex_word, Sha256.be_bytes.
  cbn [seq rev app map String.concat].
  rewrite !length_append, !all_hex_app.
  repeat match goal with
         | |- context [Sha256.hex_byte (Z.land ?x 255)] =>
             let H := fresh in
             destruct (hex_byte_ok x) as [H ?]; cbv zeta in H;
             rewrite H; clear H
         end.
  split; [reflexivity|].
  repeat match goal with
         | |- context [Sha256.hex_byte (Z.land ?x 255)] =>
             let H := fresh in
             destruct (hex_byte_ok x) as [_ H]; cbv zeta in H;
             rewrite H; clear H
         end.
  reflexivity.
Qed.

Lemma round_length st kw :
  List.length st = 8%nat -> List.length (Sha256.round st kw) = 8%nat.
Proof.
  intros H. do 9 (destruct st as [|? st]; try discriminate).
  reflexivity.
Qed.

Lemma rounds_length kws : forall st,
  List.length st = 8%nat ->
  List.length (fold_left Sha256.round kws st) = 8%nat.
Proof.
  induction kws as [|kw kws IH]; intros st H; [exact H|].
  cbn [fold_left]. apply IH, round_length, H.
Qed.

Lemma compress_length h block :
  List.length h = 8%nat -> List.length (Sha256.compress h block) = 8%nat.
Proof.
  intros H. unfold Sha256.compress.
  rewrite length_map, length_combine, rounds_length, H by exact H.
  reflexivity.
Qed.

Lemma digest_words_length msg :
  List.length (Sha256.digest_words msg) = 8%nat.
Proof.
  unfold Sha256.digest_words.
  generalize (Sha256.blocks
                (List.length (Sha256.words_of (Sha256.pad msg)))
                (Sha256.words_of (Sha256.pad msg))) as bs.
  assert (H0 : List.length Sha256.H0 = 8%nat) by reflexivity.
  revert H0. generalize Sha256.H0 as h.
  intros h Hh bs. revert h Hh.
  induction bs as [|b bs IH]; intros h Hh; [exact Hh|].
  cbn [fold_left]. apply IH, compress_length, Hh.
Qed.

Lemma concat_hex_words ws :
  String.length (String.concat EmptyString (map Sha256.hex_word ws))
  = (8 * List.length ws)%nat
  /\ all_hex (String.concat EmptyString (map Sha256.hex_word ws)) = true.
Proof.
  induction ws as [|w ws [IHlen IHhex]]; [split; reflexivity|].
  destruct (hex_word_ok w) as [Hlen Hhex].
  destruct ws as [|w' ws];
    [cbn [map String.concat]; rewrite Hlen, Hhex; split; reflexivity|].
  change (String.concat EmptyString (map Sha256.hex_word (w :: w' :: ws)))
    with (Sha256.hex_word w
          ++ String.concat EmptyString (map Sha256.hex_word (w' :: ws)))%string.
  rewrite length_append, all_hex_app, Hlen, Hhex, IHlen, IHhex.
  split; [cbn [List.length]; lia|reflexivity].
Qed.

(** Every digest is 64 lowercase hexadecimal digits. *)
Lemma hexdigest_format msg :
  String.length (Sha256.hexdigest msg) = 64%nat
  /\ all_hex (Sha256.hexdigest msg) = true.
Proof.
  unfold Sha256.hexdigest.
  destruct (concat_hex_words (Sha256.digest_words msg)) as [Hlen Hhex].
  now rewrite Hlen, Hhex, digest_words_length.
Qed.

End ChecksumFacts.

(** C9: for every file that exists and can be opened for reading,
    [calculate_checksum] returns the SHA-256 digest of exactly the bytes
    of the file, as 64 lowercase hexadecimal digits; for a file that
    holds [Hello, world!] the result is
    [315f5bdb76d078c43b8ac0064e4a0164612b1fce77c869345bfc94c75894edd3]. *)
Theorem calculate_checksum_sha256 fs file_path contents :
  ISOHandler.path_exists fs file_path = true ->
  ISOHandler.open_rb fs file_path = inl contents ->
  ISOHandler.calculate_checksum fs file_path
  = inl (Sha256.hexdigest contents)
  /\ String.length (Sha256.hexdigest contents) = 64%nat
  /\ all_hex (Sha256.hexdigest contents) = true
  /\ (contents = list_byte_of_string "Hello, world!" ->
      ISOHandler.calculate_checksum fs file_path
      = inl "315f5bdb76d078c43b8ac0064e4a0164612b1fce77c869345bfc94c75894edd3").
Proof.
  intros Hex Hopen.
  assert (Hsum : ISOHandler.calculate_checksum fs file_path
                 = inl (Sha256.hexdigest contents)).
  { unfold ISOHandler.calculate_checksum. rewrite Hex, Hopen. cbn [negb].
    unfold ISOHandler.hexdigest.
    rewrite ChecksumFacts.read_blocks_fed
      by (unfold ISOHandler.chunk_size; lia).
    reflexivity. }
  destruct (ChecksumFacts.hexdigest_format contents) as [Hlen Hhex].
  repeat split; auto.
  intros ->. rewrite Hsum. vm_compute. reflexivity.
Qed.

Lemma calculate_checksum_sha256_witness :
  ISOHandler.calculate_checksum fixture_fs "test_file.txt"
  = inl "315f5bdb76d078c43b8ac0064e4a0164612b1fce77c869345bfc94c75894edd3".
Proof.
  apply (calculate_checksum_sha256 fixture_fs "test_file.txt"
           (list_byte_of_string "Hello, world!"));
    reflexivity.
Defined.

(* ===================================================================== *)
(** ** Runs of the class *)
(* ===================================================================== *)

Lemma stages_run_once_in_order_witness :
  stages_invoked
    (trace (create_bootable_drive linux_env (BootableCreator linux_env)
              "/dev/sdb" "ubuntu.iso" 8 Callback))
  = [Prepare; WriteImage; ConfigurePersistence; InstallBootloader].
Proof.
  apply (stages_run_once_in_order linux_env (BootableCreator linux_env)
           "/dev/sdb" "ubuntu.iso" 8 Callback).
  - reflexivity.
  - intros c [<-|[<-|[<-|[<-|[]]]]]; vm_compute; repeat split.
Defined.

(** The first segment of a run is that of [_prepare_drive]. *)
Lemma first_segment self cb d i p before c after :
  pipeline_calls d i p = before ++ c :: after ->
  exists rest,
    flat_map (segment self cb) before ++ segment self cb c
    = segment self cb (call_prepare_drive d p) ++ rest.
Proof.
  intros Hsplit. destruct before as [|b before]; injection Hsplit as <- _.
  - exists []. now rewrite app_nil_r.
  - cbn [flat_map]. rewrite <- app_assoc. eexists. reflexivity.
Qed.

Lemma drop_at_end x l :
  0 < x -> non_decreasing ((0 :: x :: l) ++ [0]) = false.
Proof.
  intros Hx. cbn [app non_decreasing]. rewrite (le_all_app x).
  cbn [le_all]. replace (x <=? 0) with false by (symmetry; lia).
  cbn [andb]. now rewrite !andb_false_r.
Qed.

(** C2, as stated, fails: on a Linux host without [pkexec] the run fails
    in stage 2 and the callback receives 0, 5, 15, 30 and then 0 with the
    error message. *)
Lemma failing_run_drops_to_zero :
  let r := create_bootable_drive linux_no_pkexec
             (BootableCreator linux_no_pkexec)
             "/dev/sdb" "ubuntu.iso" 8 Callback in
  percentages (trace r) = [0; 5; 15; 30; 0]
  /\ non_decreasing (percentages (trace r)) = false.
Proof. split; vm_compute; reflexivity. Qed.

(** C2, amended: in every run of the class that returns, the percentages
    passed to the progress callback never decrease. In every run that
    raises they never decrease up to the last event; the last event, the
    one that carries the error message, has percentage 0, and since 5 was
    reported before it, the sequence of such a run does decrease there.
    (A run rejected for a missing image reports nothing.) *)
Theorem progress_non_decreasing_until_error
    env device_path iso_path persistence_size cb :
  let r := create_bootable_drive env (BootableCreator env)
             device_path iso_path persistence_size cb in
  (forall b, outcome r = inl b ->
             non_decreasing (percentages (trace r)) = true)
  /\ (forall e, outcome r = inr e ->
        exists before,
          non_decreasing before = true
          /\ (percentages (trace r) = before
              \/ percentages (trace r) = before ++ [0]))
  /\ (forall e, outcome r = inr e ->
        path_exists env iso_path = true -> cb = Callback ->
        exists before,
          non_decreasing (0 :: 5 :: before) = true
          /\ percentages (trace r) = (0 :: 5 :: before) ++ [0]
          /\ non_decreasing (percentages (trace r)) = false).
Proof.
  intros r.
  set (calls := pipeline_calls device_path iso_path persistence_size).
  pose proof (percentages_note cb 0 "Starting bootable drive creation...")
    as [N0nd N0w].
  destruct (path_exists env iso_path) eqn:Hex.
  2:{ subst r. rewrite (create_missing _ _ _ _ _ _ Hex).
      cbn [trace outcome fst snd percentages].
      repeat split; try discriminate.
      intros e _. exists []. split; [reflexivity|now left]. }
  destruct (first_failure (BootableCreator env) cb calls)
    as [Hok|(before & c & after & e & Hsplit & Hok & He)].
  - (* every stage returns *)
    subst r. rewrite (create_success _ _ _ _ _ _ Hex Hok).
    cbn [trace outcome fst snd].
    repeat split; try discriminate. intros _ _.
    destruct (segments_non_decreasing (BootableCreator env) cb calls 0
                (pipeline_chained _ _ _)
                (fun c _ => class_in_band env c cb)) as [Snd Sw].
    destruct (percentages_note cb 100 "Bootable drive created successfully!")
      as [N1nd N1w].
    rewrite !percentages_app.
    apply (non_decreasing_app 0 0 100); auto.
    + apply (non_decreasing_app 0 100 100); auto.
    + rewrite within_app. apply andb_true_iff. split; [exact Sw|].
      apply (within_weaken 100 100); auto; lia.
  - (* stage [c] raises *)
    assert (Hpre : flat_map (segment (BootableCreator env) cb) before ++ segment (BootableCreator env) cb c
                   = flat_map (segment (BootableCreator env) cb) (before ++ [c])).
    { rewrite flat_map_app. cbn [flat_map]. now rewrite app_nil_r. }
    assert (Hch : chained 0 (before ++ [c])).
    { apply (chained_app_l 0 (before ++ [c]) after).
      rewrite <- app_assoc. cbn [app]. fold calls. rewrite <- Hsplit.
      apply pipeline_chained. }
    destruct (segments_non_decreasing (BootableCreator env) cb (before ++ [c]) 0 Hch
                (fun c _ => class_in_band env c cb)) as [Snd Sw].
    assert (Hnd : non_decreasing
              (percentages
                 (note cb 0 "Starting bootable drive creation..."
                  ++ flat_map (segment (BootableCreator env) cb) (before ++ [c]))) = true).
    { rewrite percentages_app. apply (non_decreasing_app 0 0 100); auto. }
    subst r. rewrite (create_failure _ _ _ _ _ _ _ _ _ _ Hex Hsplit Hok He).
    cbn [trace outcome fst snd]. rewrite Hpre.
    split; [discriminate|]. split.
    + intros e' _. eexists. split; [exact Hnd|].
      rewrite app_assoc, percentages_app.
      destruct cb; cbn [note percentages]; [left|right]; auto.
      now rewrite app_nil_r.
    + intros e' _ _ ->.
      destruct (first_segment (BootableCreator env) Callback _ _ _ _ _ _ Hsplit)
        as [rest Hrest].
      rewrite Hpre in Hrest. rewrite Hrest in Hnd |- *.
      unfold segment at 1 in Hnd. unfold segment at 1.
      cbn [note announcement fst snd app percentages] in Hnd |- *.
      rewrite !percentages_app. cbn [percentages app].
      rewrite percentages_app in Hnd.
      eexists. split; [exact Hnd|]. split; [now rewrite <- app_assoc|].
      apply (drop_at_end 5). lia.
Qed.

Lemma progress_non_decreasing_until_error_witness :
  non_decreasing
    (percentages
       (trace (create_bootable_drive linux_env (BootableCreator linux_env)
                 "/dev/sdb" "ubuntu.iso" 8 Callback))) = true.
Proof.
  apply (progress_non_decreasing_until_error linux_env
           "/dev/sdb" "ubuntu.iso" 8 Callback) with (b := true).
  vm_compute. reflexivity.
Defined.

(* ===================================================================== *)
(** ** Missing tools on Linux *)
(* ===================================================================== *)

Lemma prepare_drive_no_popen env d p cb :
  filter is_popen (trace (_prepare_drive env d p cb)) = [].
Proof.
  unfold _prepare_drive.
  destruct (system env =? "Windows")%string.
  { unfold _prepare_drive_windows, _get_windows_disk_number, write_script,
      run, remove_quietly.
    destruct cb; cbn; split_oracles; reflexivity. }
  destruct (system env =? "Darwin")%string.
  { unfold _prepare_drive_macos. now destruct cb. }
  destruct (system env =? "Linux")%string; [|reflexivity].
  unfold _prepare_drive_linux. rewrite trace_bind, filter_app.
  pose proof (unmount_all_runs env d) as Hruns.
  assert (Hfil : filter is_popen (trace (_unmount_all_partitions env d)) = []).
  { induction (trace (_unmount_all_partitions env d)) as [|a t IH];
      [reflexivity|].
    cbn [forallb] in Hruns. apply andb_true_iff in Hruns as [Ha Ht].
    destruct a; try discriminate. cbn. auto. }
  rewrite Hfil.
  destruct (outcome (_unmount_all_partitions env d)); [|reflexivity].
  now destruct cb.
Qed.

(** C5, as stated, fails: without [pkexec] the Write Image stage raises
    [EnvironmentError], that is [OSError]; the exception is not an
    instance of a class called [ToolUnavailableError]. *)
Lemma missing_pkexec_not_ToolUnavailableError :
  which linux_no_pkexec "pkexec" = false
  /\ outcome (_write_iso linux_no_pkexec "/dev/sdb" "ubuntu.iso" Callback)
     = inr (Exc OSError
              "pkexec is not installed. Please install it to continue.")
  /\ ~ raised_as "ToolUnavailableError"
         (_write_iso linux_no_pkexec "/dev/sdb" "ubuntu.iso" Callback).
Proof.
  split; [reflexivity|]. split; [reflexivity|].
  intros (e & He & Hinst). vm_compute in He. injection He as <-.
  vm_compute in Hinst. discriminate.
Qed.

(** C5, amended: on Linux, if [pkexec] or [dd] is not on the path, the
    Write Image stage raises [EnvironmentError] (an [OSError]) whose
    message starts with the name of the missing tool, [pkexec] when both
    are missing, and it does so before anything else: the stage starts no
    process, and the whole run of [create_bootable_drive] never starts
    the copy. *)
Theorem missing_tool_fails_before_copy
    env device_path iso_path persistence_size cb :
  system env = "Linux" ->
  which env "pkexec" = false \/ which env "dd" = false ->
  let tool := if which env "pkexec" then "dd" else "pkexec" in
  let e := Exc EnvironmentError
             (tool ++ " is not installed. Please install it to continue.") in
  _write_iso env device_path iso_path cb = ([], inr e)
  /\ raised_as "OSError" (_write_iso env device_path iso_path cb)
  /\ PyStr.startswith tool (exc_str e) = true
  /\ filter is_popen
       (trace (create_bootable_drive env (BootableCreator env)
                 device_path iso_path persistence_size cb)) = [].
Proof.
  intros Hsys Htool tool e.
  assert (Hstage : _write_iso env device_path iso_path cb = ([], inr e)).
  { unfold _write_iso, _write_iso_linux. rewrite Hsys. cbn [String.eqb].
    change ("Linux" =? "Windows")%string with false.
    change ("Linux" =? "Darwin")%string with false.
    change ("Linux" =? "Linux")%string with true. cbv iota.
    subst e tool.
    destruct (which env "pkexec"); cbn [negb]; [|reflexivity].
    destruct Htool as [Hp|Hd]; [discriminate|]. rewrite Hd. reflexivity. }
  split; [exact Hstage|]. split.
  { rewrite Hstage. exists e. split; reflexivity. }
  split.
  { subst e tool. destruct (which env "pkexec"); reflexivity. }
  destruct (path_exists env iso_path) eqn:Hex.
  2:{ now rewrite (create_missing _ _ _ _ _ _ Hex). }
  set (c1 := call_prepare_drive device_path persistence_size).
  set (c2 := call_write_iso device_path iso_path).
  assert (Hseg1 : filter is_popen (segment (BootableCreator env) cb c1) = []).
  { unfold segment. rewrite filter_app. cbn [filter is_popen].
    replace (filter is_popen
               (note cb (fst (announcement c1)) (snd (announcement c1))))
      with (@nil action) by now destruct cb.
    apply prepare_drive_no_popen. }
  assert (Hseg2 : filter is_popen (segment (BootableCreator env) cb c2) = []).
  { unfold segment. cbn [stage_body c2 BootableCreator self_write_iso].
    rewrite Hstage. now destruct cb. }
  destruct (unit_outcome (stage_body (BootableCreator env) c1 cb))
    as [H1|[e1 H1]].
  - rewrite (create_failure env (BootableCreator env) cb device_path iso_path
               persistence_size [c1] c2
               [call_setup_persistence device_path persistence_size;
                call_install_bootloader device_path iso_path] e Hex).
    + cbn [trace fst flat_map]. rewrite !filter_app, Hseg1, Hseg2.
      now destruct cb.
    + reflexivity.
    + intros c' [<-|[]]. exact H1.
    + cbn [stage_body c2 BootableCreator self_write_iso].
      now rewrite Hstage.
  - rewrite (create_failure env (BootableCreator env) cb device_path iso_path
               persistence_size [] c1
               [c2; call_setup_persistence device_path persistence_size;
                call_install_bootloader device_path iso_path] e1 Hex).
    + cbn [trace fst flat_map]. rewrite !filter_app, Hseg1.
      now destruct cb.
    + reflexivity.
    + intros c' [].
    + exact H1.
Qed.

Lemma missing_tool_fails_before_copy_witness :
  _write_iso linux_no_pkexec "/dev/sdb" "ubuntu.iso" Callback
  = ([], inr (Exc EnvironmentError
                "pkexec is not installed. Please install it to continue.")).
Proof.
  apply (missing_tool_fails_before_copy linux_no_pkexec
           "/dev/sdb" "ubuntu.iso" 8 Callback).
  - reflexivity.
  - left. reflexivity.
Defined.

(* ===================================================================== *)
(** ** The disk lookup on Windows *)
(* ===================================================================== *)

(** C7, as stated, fails: when the output of the lookup names no disk the
    run ends with a [RuntimeError]; the exception is not an instance of a
    class called [DeviceResolutionError]. *)
Lemma unresolved_disk_not_DeviceResolutionError :
  let r := create_bootable_drive windows_no_disk
             (BootableCreator windows_no_disk)
             "D:\" "ubuntu.iso" 8 Callback in
  search_disk ("There is no volume selected." ++ nl) = None
  /\ outcome r
     = inr (Exc RuntimeError "Could not determine disk number for D:\")
  /\ ~ raised_as "DeviceResolutionError" r.
Proof.
  cbv zeta. split; [reflexivity|]. split; [vm_compute; reflexivity|].
  intros (e & He & Hinst). vm_compute in He. injection He as <-.
  vm_compute in Hinst. discriminate.
Qed.

(** The lookup returns a disk number only if its script was written,
    [diskpart] ran on it and the output named that number. *)
Lemma lookup_returns_what_the_output_names env device_path disk_number :
  let q := temp_path env "diskpart_get_disk.txt" in
  outcome (_get_windows_disk_number env device_path) = inl disk_number ->
  exists result,
    open_w env q = None
    /\ subprocess_run env ["diskpart"; "/s"; q] = inl result
    /\ search_disk (stdout result) = Some disk_number
    /\ trace (_get_windows_disk_number env device_path)
       = [WriteFile q (lookup_script device_path);
          Run ["diskpart"; "/s"; q];
          RemoveFile q].
Proof.
  intros q. unfold _get_windows_disk_number, write_script, run. fold q.
  destruct (open_w env q) as [e0|]; [cbn; discriminate|].
  cbn. destruct (subprocess_run env ["diskpart"; "/s"; q]) as [result|e1];
    [|cbn; discriminate].
  cbn. destruct (search_disk (stdout result)) as [n|] eqn:Hsearch;
    cbn; [|discriminate].
  intros [= <-]. exists result. repeat split; auto.
Qed.

(** C7, amended: on Windows, when the output of [diskpart] is ASCII
    text, stage 1 begins with the lookup: it writes the script
    [select volume <letter> / detail disk / exit] and runs [diskpart] on
    it. In every run the actions of stage 1 are those of the lookup
    followed, only if the lookup returned a disk number, by those of
    cleaning and partitioning that disk; and the lookup returns a number
    only if its output holds [Disk <digits>] with that number. So the
    script that cleans the disk is written and run only after the lookup
    has named a disk. If the output holds no [Disk <digits>], stage 1
    raises [RuntimeError] with the message
    [Could not determine disk number for <drive>], having done nothing
    but write, run and remove the lookup script, and
    [create_bootable_drive] ends with that error. *)
Theorem unresolved_disk_is_fatal
    env device_path iso_path persistence_size cb :
  let q := temp_path env "diskpart_get_disk.txt" in
  let e := Exc RuntimeError
             ("Could not determine disk number for " ++ device_path) in
  let lookup := [WriteFile q (lookup_script device_path);
                 Run ["diskpart"; "/s"; q];
                 RemoveFile q] in
  system env = "Windows" ->
  (forall result,
     subprocess_run env ["diskpart"; "/s"; q] = inl result ->
     isascii (stdout result) = true) ->
  (trace (_prepare_drive env device_path persistence_size cb)
   = trace (_get_windows_disk_number env device_path)
     ++ match outcome (_get_windows_disk_number env device_path) with
        | inl disk_number =>
            trace (clean_and_partition env disk_number persistence_size cb)
        | inr _ => []
        end)
  /\ (forall disk_number,
        outcome (_get_windows_disk_number env device_path) = inl disk_number ->
        exists result,
          subprocess_run env ["diskpart"; "/s"; q] = inl result
          /\ search_disk (stdout result) = Some disk_number
          /\ trace (_get_windows_disk_number env device_path) = lookup)
  /\ (forall result,
        open_w env q = None ->
        subprocess_run env ["diskpart"; "/s"; q] = inl result ->
        search_disk (stdout result) = None ->
        _prepare_drive env device_path persistence_size cb = (lookup, inr e)
        /\ raised_as "RuntimeError"
             (_prepare_drive env device_path persistence_size cb)
        /\ (path_exists env iso_path = true ->
            create_bootable_drive env (BootableCreator env)
              device_path iso_path persistence_size cb
            = (note cb 0 "Starting bootable drive creation..."
               ++ note cb 5 "Preparing drive..."
               ++ Invoke (call_prepare_drive device_path persistence_size)
                  :: lookup
               ++ note cb 0 ("Error: " ++ exc_str e),
               inr e))).
Proof.
  intros q e lookup Hsys Hascii.
  assert (Hwin : _prepare_drive env device_path persistence_size cb
                 = _prepare_drive_windows env device_path persistence_size cb).
  { unfold _prepare_drive. now rewrite Hsys. }
  split.
  { rewrite Hwin.
    change (_prepare_drive_windows env device_path persistence_size cb)
      with (bind (_get_windows_disk_number env device_path)
              (fun n => clean_and_partition env n persistence_size cb)).
    apply trace_bind. }
  split.
  { intros disk_number Hnumber.
    destruct (lookup_returns_what_the_output_names env device_path
                disk_number Hnumber)
      as (result & _ & Hrun & Hsearch & Htrace).
    exists result. auto. }
  intros result Hopen Hrun Hsearch.
  assert (Hlookup : _get_windows_disk_number env device_path
                    = (lookup, inr e)).
  { unfold _get_windows_disk_number, write_script, run. fold q.
    rewrite Hopen. cbn. rewrite Hrun. cbn. rewrite Hsearch. reflexivity. }
  assert (Hstage : _prepare_drive env device_path persistence_size cb
                   = (lookup, inr e)).
  { rewrite Hwin. unfold _prepare_drive_windows. now rewrite Hlookup. }
  split; [exact Hstage|]. split.
  { rewrite Hstage. exists e. split; reflexivity. }
  intros Hex.
  rewrite (create_failure env (BootableCreator env) cb device_path iso_path
             persistence_size []
             (call_prepare_drive device_path persistence_size)
             [call_write_iso device_path iso_path;
              call_setup_persistence device_path persistence_size;
              call_install_bootloader device_path iso_path] e Hex).
  + cbn [flat_map app segment]. unfold segment.
    cbn [stage_body BootableCreator self_prepare_drive announcement
           fst snd].
    rewrite Hstage. cbn [trace fst]. f_equal.
    rewrite <- !app_assoc. reflexivity.
  + reflexivity.
  + intros c' [].
  + cbn [stage_body BootableCreator self_prepare_drive].
    now rewrite Hstage.
Qed.

Lemma unresolved_disk_is_fatal_witness :
  _prepare_drive windows_no_disk "D:\" 8 Callback
  = ([WriteFile "C:\Temp\diskpart_get_disk.txt" (lookup_script "D:\");
      Run ["diskpart"; "/s"; "C:\Temp\diskpart_get_disk.txt"];
      RemoveFile "C:\Temp\diskpart_get_disk.txt"],
     inr (Exc RuntimeError "Could not determine disk number for D:\")).
Proof.
  assert (Hascii : forall result,
            subprocess_run windows_no_disk
              ["diskpart"; "/s"; temp_path windows_no_disk "diskpart_get_disk.txt"]
            = inl result ->
            isascii (stdout result) = true)
    by (intros result [= <-]; reflexivity).
  exact (proj1
           (proj2 (proj2
              (unresolved_disk_is_fatal windows_no_disk "D:\" "ubuntu.iso" 8
                 Callback eq_refl Hascii))
              {| returncode := 1;
                 stdout := "There is no volume selected." ++ nl;
                 stderr := EmptyString |}
              eq_refl eq_refl eq_refl)).
Defined.

(* ===================================================================== *)
(** ** Unmounting on Linux *)
(* ===================================================================== *)

(** C8, as stated, fails: where [lsblk] is not installed,
    [subprocess.run] raises [FileNotFoundError]; the handler in
    [_get_linux_partitions] catches [CalledProcessError] only, so the
    exception leaves [_unmount_all_partitions] and fails the run. *)
Lemma unmount_raises_without_lsblk :
  let e := Exc FileNotFoundError
             "[Errno 2] No such file or directory: 'lsblk'" in
  _unmount_all_partitions linux_no_lsblk "/dev/sdb"
  = ([Run ["lsblk"; "-no"; "NAME"; "/dev/sdb"]], inr e)
  /\ outcome (create_bootable_drive linux_no_lsblk
                (BootableCreator linux_no_lsblk)
                "/dev/sdb" "ubuntu.iso" 8 Callback)
     = inr e.
Proof. split; vm_compute; reflexivity. Qed.

(** C8, amended: failure to unmount is soft. Whatever the [umount] calls
    do (exit status, or failure to start), it is absorbed, and so is a
    non-zero exit of [lsblk]: then no partition is listed and nothing is
    unmounted. [_unmount_all_partitions] starts [lsblk] and then one
    [umount] per listed partition, nothing else, and it raises exactly
    when [lsblk] itself cannot be started with an error other than
    [CalledProcessError]; that error is the one raised. *)
Theorem unmount_soft_unless_lsblk_cannot_start env device_path :
  let lsblk := ["lsblk"; "-no"; "NAME"; device_path] in
  let r := _unmount_all_partitions env device_path in
  (forall e,
     outcome r = inr e
     <-> subprocess_run env lsblk = inr e
         /\ isinstance e "CalledProcessError" = false)
  /\ (forall result,
        subprocess_run env lsblk = inl result ->
        r = (Run lsblk
             :: map (fun p => Run ["umount"; p])
                  (if returncode result =? 0
                   then map (fun name => ("/dev/" ++ name)%string)
                          (tl (PyStr.split_lines
                                 (PyStr.strip (stdout result))))
                   else []),
             inl tt))
  /\ forallb is_run (trace r) = true.
Proof.
  intros lsblk r. split; [|split].
  - intros e. subst r lsblk.
    unfold _unmount_all_partitions, _get_linux_partitions, run. cbn.
    destruct (subprocess_run env ["lsblk"; "-no"; "NAME"; device_path])
      as [res|e0].
    + destruct (negb (returncode res =? 0)); cbn.
      * split; [discriminate|intros [? _]; discriminate].
      * rewrite unmount_each_eq. cbn.
        split; [discriminate|intros [? _]; discriminate].
    + cbn. destruct (isinstance e0 "CalledProcessError") eqn:Hinst; cbn.
      * split; [discriminate|]. intros [[= ->] H]. congruence.
      * split; [intros [= ->]; auto|intros [[= ->] _]; reflexivity].
  - intros result Hrun. subst r lsblk.
    unfold _unmount_all_partitions, _get_linux_partitions, run. cbn.
    rewrite Hrun. destruct (returncode result =? 0); cbn.
    + now rewrite unmount_each_eq.
    + reflexivity.
  - apply unmount_all_runs.
Qed.

Lemma unmount_soft_unless_lsblk_cannot_start_witness :
  _unmount_all_partitions linux_env "/dev/sdb"
  = ([Run ["lsblk"; "-no"; "NAME"; "/dev/sdb"]; Run ["umount"; "/dev/sdb1"]],
     inl tt).
Proof.
  apply (unmount_soft_unless_lsblk_cannot_start linux_env "/dev/sdb")
    with (result := {| returncode := 0;
                       stdout := "sdb" ++ nl ++ "sdb1" ++ nl;
                       stderr := EmptyString |}).
  reflexivity.
Defined.

(* ===================================================================== *)
(** ** Platform dispatch *)
(* ===================================================================== *)

Lemma system_calls_app t1 t2 :
  system_calls (t1 ++ t2) = system_calls t1 ++ system_calls t2.
Proof. apply filter_app. Qed.

Lemma system_calls_eq_note cb p msg : system_calls (note cb p msg) = [].
Proof. now destruct cb. Qed.

Lemma not_system s name :
  s <> name -> (s =? name)%string = false.
Proof. apply String.eqb_neq. Qed.

(** X1: On a host that is neither Windows, macOS nor Linux, a request with an
    existing image fails in stage 1 with [NotImplementedError] naming the
    host; apart from the progress events nothing is done: no process is
    started and no file is touched, and stages 2 to 4 are not entered. *)
Theorem unsupported_system_fails_in_stage_1
    env device_path iso_path persistence_size cb :
  system env <> "Windows" -> system env <> "Darwin" ->
  system env <> "Linux" ->
  path_exists env iso_path = true ->
  let e := Exc NotImplementedError
             ("Unsupported operating system: " ++ system env) in
  let r := create_bootable_drive env (BootableCreator env)
             device_path iso_path persistence_size cb in
  r = (note cb 0 "Starting bootable drive creation..."
       ++ note cb 5 "Preparing drive..."
       ++ Invoke (call_prepare_drive device_path persistence_size)
          :: note cb 0 ("Error: " ++ exc_str e),
       inr e)
  /\ system_calls (trace r) = []
  /\ stages_invoked (trace r) = [Prepare].
Proof.
  intros Hw Hd Hl Hex e r.
  assert (Hr : r = (note cb 0 "Starting bootable drive creation..."
                    ++ note cb 5 "Preparing drive..."
                    ++ Invoke (call_prepare_drive device_path persistence_size)
                       :: note cb 0 ("Error: " ++ exc_str e),
                    inr e)).
  { subst r e. unfold create_bootable_drive, invoke. rewrite Hex.
    cbn [negb stage_body BootableCreator self_prepare_drive].
    unfold _prepare_drive.
    rewrite (not_system _ _ Hw), (not_system _ _ Hd), (not_system _ _ Hl).
    destruct cb; reflexivity. }
  split; [exact Hr|]. rewrite Hr. destruct cb; split; reflexivity.
Qed.

Lemma unsupported_system_fails_in_stage_1_witness :
  create_bootable_drive freebsd_env (BootableCreator freebsd_env)
    "/dev/da0" "ubuntu.iso" 8 Callback
  = ([Progress 0 "Starting bootable drive creation...";
      Progress 5 "Preparing drive...";
      Invoke (call_prepare_drive "/dev/da0" 8);
      Progress 0 "Error: Unsupported operating system: FreeBSD"],
     inr (Exc NotImplementedError "Unsupported operating system: FreeBSD")).
Proof.
  apply (unsupported_system_fails_in_stage_1 freebsd_env
           "/dev/da0" "ubuntu.iso" 8 Callback);
    [discriminate|discriminate|discriminate|reflexivity].
Defined.

(** X2: On macOS every request with an existing image returns [True] although
    nothing is done to the device: the four stage methods only report
    progress, no process is started and no file is touched. *)
Theorem macos_run_touches_nothing
    env device_path iso_path persistence_size cb :
  system env = "Darwin" ->
  path_exists env iso_path = true ->
  let r := create_bootable_drive env (BootableCreator env)
             device_path iso_path persistence_size cb in
  outcome r = inl true
  /\ system_calls (trace r) = []
  /\ percentages (trace r)
     = match cb with
       | Callback => [0; 5; 15; 30; 40; 70; 75; 90; 95; 100]
       | NoCallback => []
       end.
Proof.
  intros Hsys Hex r. subst r.
  unfold create_bootable_drive, invoke. rewrite Hex.
  cbn [negb stage_body BootableCreator self_prepare_drive self_write_iso
         self_setup_persistence self_install_bootloader].
  unfold _prepare_drive, _write_iso, _setup_persistence, _install_bootloader.
  rewrite Hsys. destruct cb; repeat split; reflexivity.
Qed.

Lemma macos_run_touches_nothing_witness :
  system_calls
    (trace (create_bootable_drive macos_env (BootableCreator macos_env)
              "/dev/disk2" "ubuntu.iso" 8 Callback)) = [].
Proof.
  apply (macos_run_touches_nothing macos_env "/dev/disk2" "ubuntu.iso" 8
           Callback); reflexivity.
Defined.

(** X3: On every host, [_setup_persistence] and [_install_bootloader] start
    no process and touch no file: they report one progress event (75 and
    95) or, on an unsupported host, raise [NotImplementedError]. On
    Windows and macOS the same holds for [_write_iso] (40). *)
Theorem later_stages_are_placeholders env device_path iso_path
    persistence_size cb :
  let unsupported_error :=
    Exc NotImplementedError ("Unsupported operating system: " ++ system env) in
  let supported :=
    ((system env =? "Windows") || (system env =? "Darwin")
     || (system env =? "Linux"))%string in
  (exists msg,
     _setup_persistence env device_path persistence_size cb
     = if supported then (note cb 75 msg, inl tt)
       else ([], inr unsupported_error))
  /\ (exists msg,
        _install_bootloader env device_path iso_path cb
        = if supported then (note cb 95 msg, inl tt)
          else ([], inr unsupported_error))
  /\ ((system env =? "Windows") || (system env =? "Darwin") = true ->
      exists msg,
        _write_iso env device_path iso_path cb = (note cb 40 msg, inl tt))%string.
Proof.
  cbv zeta.
  unfold _setup_persistence, _install_bootloader, _write_iso,
    _setup_persistence_windows, _setup_persistence_macos,
    _setup_persistence_linux, _install_bootloader_windows,
    _install_bootloader_macos, _install_bootloader_linux,
    _write_iso_windows, _write_iso_macos, unsupported.
  rewrite !notify_eq.
  destruct (system env =? "Windows")%string;
    destruct (system env =? "Darwin")%string;
    destruct (system env =? "Linux")%string; cbn [orb];
    (split; [|split]); intros; try discriminate;
    first [exists EmptyString; reflexivity | eexists; reflexivity].
Qed.

(* ===================================================================== *)
(** ** Windows *)
(* ===================================================================== *)

(** X4: On Windows only stage 1 acts on the machine: the run returns [True]
    exactly when [_prepare_drive_windows] returns, the processes and files
    of the run are those of that stage, and no copy process is ever
    started (the image is not written). *)
Theorem windows_run_is_stage_1
    env device_path iso_path persistence_size cb :
  system env = "Windows" ->
  path_exists env iso_path = true ->
  let stage_1 :=
    _prepare_drive_windows env device_path persistence_size cb in
  let r := create_bootable_drive env (BootableCreator env)
             device_path iso_path persistence_size cb in
  (outcome r = inl true <-> succeeds stage_1)
  /\ (forall e, outcome r = inr e <-> outcome stage_1 = inr e)
  /\ system_calls (trace r) = system_calls (trace stage_1)
  /\ filter is_popen (trace r) = [].
Proof.
  intros Hsys Hex stage_1 r.
  assert (Hr : r = (note cb 0 "Starting bootable drive creation..."
                    ++ note cb 5 "Preparing drive..."
                    ++ Invoke (call_prepare_drive device_path persistence_size)
                       :: trace stage_1
                    ++ match outcome stage_1 with
                       | inl _ =>
                           note cb 30 "Writing ISO to drive..."
                           ++ Invoke (call_write_iso device_path iso_path)
                           :: note cb 40 "Writing ISO on Windows..."
                           ++ note cb 70 "Setting up persistence..."
                           ++ Invoke (call_setup_persistence device_path
                                        persistence_size)
                           :: note cb 75 "Setting up persistence on Windows..."
                           ++ note cb 90 "Installing bootloader..."
                           ++ Invoke (call_install_bootloader device_path
                                        iso_path)
                           :: note cb 95 "Installing bootloader on Windows..."
                           ++ note cb 100 "Bootable drive created successfully!"
                       | inr e => note cb 0 ("Error: " ++ exc_str e)
                       end,
                    match outcome stage_1 with
                    | inl _ => inl true
                    | inr e => inr e
                    end)).
  { subst r. unfold create_bootable_drive, invoke. rewrite Hex.
    cbn [negb stage_body BootableCreator self_prepare_drive self_write_iso
           self_setup_persistence self_install_bootloader].
    unfold _prepare_drive, _write_iso, _setup_persistence,
      _install_bootloader.
    rewrite Hsys. cbn [String.eqb Ascii.eqb Bool.eqb].
    fold stage_1. destruct stage_1 as [t [[]|e]]; destruct cb; reflexivity. }
  assert (Hpop : filter is_popen (trace stage_1) = []).
  { pose proof (prepare_drive_no_popen env device_path persistence_size cb)
      as H. unfold _prepare_drive in H. now rewrite Hsys in H. }
  rewrite Hr. cbn [trace outcome fst snd]. unfold succeeds.
  destruct (outcome stage_1) as [[]|e] eqn:Hout.
  - split; [tauto|]. split; [split; discriminate|].
    rewrite !system_calls_app, !filter_app, !system_calls_eq_note.
    cbn [system_calls filter is_system_call is_popen app].
    rewrite !system_calls_app, !filter_app, !system_calls_eq_note, Hpop.
    cbn [system_calls filter is_system_call is_popen app].
    rewrite !system_calls_app, !filter_app, !system_calls_eq_note.
    cbn [system_calls filter is_system_call is_popen app].
    fold (system_calls (trace stage_1)).
    rewrite !system_calls_app, !filter_app, !system_calls_eq_note.
    destruct cb; cbn; now rewrite ?app_nil_r.
  - split; [split; discriminate|]. split; [intros e'; split; congruence|].
    rewrite !system_calls_app, !filter_app, !system_calls_eq_note.
    cbn [system_calls filter is_system_call is_popen app].
    rewrite !system_calls_app, !filter_app, !system_calls_eq_note, Hpop.
    destruct cb; cbn; now rewrite ?app_nil_r.
Qed.

Lemma windows_run_is_stage_1_witness :
  system_calls
    (trace (create_bootable_drive windows_env (BootableCreator windows_env)
              "D:\" "ubuntu.iso" 8 Callback))
  = system_calls (trace (_prepare_drive_windows windows_env "D:\" 8 Callback)).
Proof.
  apply (windows_run_is_stage_1 windows_env "D:\" "ubuntu.iso" 8 Callback);
    reflexivity.
Defined.

Lemma scripts_removed_spec t :
  scripts_removed t = true ->
  forall t1 path text t2,
    t = t1 ++ WriteFile path text :: t2 -> In (RemoveFile path) t2.
Proof.
  induction t as [|a t IH]; intros H t1 path text t2 Heq.
  - destruct t1; discriminate.
  - destruct t1 as [|b t1]; cbn [app] in Heq; injection Heq as -> ->.
    + cbn [scripts_removed] in H. apply andb_true_iff in H as [H _].
      apply existsb_exists in H as (x & Hx & Hrm).
      destruct x; try discriminate. cbn [removes] in Hrm.
      apply String.eqb_eq in Hrm. now subst.
    + apply (IH ltac:(destruct b; cbn [scripts_removed] in H;
                      try exact H; now apply andb_true_iff in H)
               t1 path text t2 eq_refl).
Qed.

(** X5: Stage 1 on Windows asks for the removal of every script it
    writes: whatever [diskpart] does and wherever the stage fails,
    every script file it has written (the lookup script and the
    partitioning script) is passed to [os.remove] later in the same
    call. (Whether the file is gone afterwards is not said: the code
    ignores a removal that fails.) *)
Theorem windows_scripts_are_removed env device_path persistence_size cb :
  forall before path text after,
    trace (_prepare_drive_windows env device_path persistence_size cb)
    = before ++ WriteFile path text :: after ->
    In (RemoveFile path) after.
Proof.
  apply scripts_removed_spec.
  unfold _prepare_drive_windows, _get_windows_disk_number, write_script,
    run, remove_quietly.
  destruct cb; cbn; split_oracles; rewrite ?String.eqb_refl; reflexivity.
Qed.

Lemma windows_scripts_are_removed_witness :
  In (RemoveFile "C:\Temp\diskpart_script.txt")
     [Progress 10 "Formatting drive...";
      Run ["diskpart"; "/s"; "C:\Temp\diskpart_script.txt"];
      RemoveFile "C:\Temp\diskpart_script.txt"].
Proof.
  apply (windows_scripts_are_removed windows_format_fails "D:\" 8 Callback
           [WriteFile "C:\Temp\diskpart_get_disk.txt" (lookup_script "D:\");
            Run ["diskpart"; "/s"; "C:\Temp\diskpart_get_disk.txt"];
            RemoveFile "C:\Temp\diskpart_get_disk.txt"]
           "C:\Temp\diskpart_script.txt" (diskpart_script "2" 8)).
  reflexivity.
Defined.



(* ===================================================================== *)
(** ** The disk number in [diskpart]'s output *)
(* ===================================================================== *)

Lemma startswith_split p : forall s,
  PyStr.startswith p s = true -> s = (p ++ PyStr.drop (String.length p) s)%string.
Proof.
  induction p as [|a p IH]; intros s H; [reflexivity|].
  destruct s as [|b s]; [discriminate|]. cbn in H.
  apply andb_true_iff in H as [Hab Hp]. apply Ascii.eqb_eq in Hab. subst b.
  cbn. f_equal. now apply IH.
Qed.

Lemma startswith_app p s : PyStr.startswith p (p ++ s) = true.
Proof.
  induction p as [|a p IH]; [reflexivity|].
  cbn. now rewrite Ascii.eqb_refl, IH.
Qed.

Lemma take_digits_spec s :
  s = (PyStr.take_digits s
       ++ PyStr.drop (String.length (PyStr.take_digits s)) s)%string
  /\ all_digits (PyStr.take_digits s) = true
  /\ PyStr.take_digits (PyStr.drop (String.length (PyStr.take_digits s)) s)
     = EmptyString.
Proof.
  induction s as [|c s (IH1 & IH2 & IH3)]; [repeat split|].
  cbn [PyStr.take_digits]. destruct (PyStr.is_digit c) eqn:Hc.
  - cbn [String.length PyStr.drop append all_digits]. rewrite Hc.
    repeat split; auto. now f_equal.
  - cbn. now rewrite Hc.
Qed.

(** The match of [search_disk], position by position. *)
Lemma search_disk_at_first_digits s :
  (forall d,
     search_disk s = Some d ->
     d <> EmptyString /\ all_digits d = true
     /\ exists pre post,
          s = (pre ++ "Disk " ++ d ++ post)%string
          /\ PyStr.take_digits post = EmptyString
          /\ forall pre' c post',
               s = (pre' ++ "Disk " ++ String c post')%string ->
               PyStr.is_digit c = true ->
               (String.length pre <= String.length pre')%nat)
  /\ (search_disk s = None ->
      forall pre c post,
        s = (pre ++ "Disk " ++ String c post)%string ->
        PyStr.is_digit c = false).
Proof.
  induction s as [|a s [IHsome IHnone]].
  - split; [intros d H; discriminate|].
    intros _ pre c post H. destruct pre; discriminate.
  - cbn [search_disk].
    set (here := if PyStr.startswith "Disk " (String a s)
                 then PyStr.take_digits (PyStr.drop 5 (String a s))
                 else EmptyString).
    destruct here as [|h0 hs] eqn:Hhere.
    + (* no match at this position *)
      assert (Hno : forall c post,
                String a s = ("Disk " ++ String c post)%string ->
                PyStr.is_digit c = false).
      { intros c post Heq. subst here. rewrite Heq in Hhere.
        rewrite (startswith_app "Disk ") in Hhere.
        cbn [PyStr.drop append PyStr.take_digits] in Hhere.
        destruct (PyStr.is_digit c); [discriminate|reflexivity]. }
      split.
      * intros d Hd. destruct (IHsome d Hd)
          as (Hne & Hdig & pre & post & Heq & Hpost & Hleft).
        split; [exact Hne|]. split; [exact Hdig|].
        exists (String a pre), post. split; [cbn; now f_equal|].
        split; [exact Hpost|].
        intros pre' c post' Heq' Hc. destruct pre' as [|b pre'].
        -- cbn [append] in Heq'. rewrite (Hno c post' Heq') in Hc.
           discriminate.
        -- cbn [append] in Heq'. injection Heq' as _ Heq'.
           cbn [String.length]. apply le_n_S.
           exact (Hleft pre' c post' Heq' Hc).
      * intros Hnone pre c post Heq. destruct pre as [|b pre].
        -- exact (Hno c post Heq).
        -- cbn [append] in Heq. injection Heq as _ Heq.
           exact (IHnone Hnone pre c post Heq).
    + (* match at this position *)
      split; [|discriminate]. intros d [= <-].
      subst here.
      destruct (PyStr.startswith "Disk " (String a s)) eqn:Hstart;
        [|discriminate].
      apply startswith_split in Hstart. cbn [String.length] in Hstart.
      destruct (take_digits_spec (PyStr.drop 5 (String a s)))
        as (Hsplit & Hdig & Hrest).
      rewrite Hhere in Hsplit, Hdig, Hrest.
      split; [discriminate|]. split; [exact Hdig|].
      exists EmptyString. eexists. split.
      * cbn [append]. rewrite Hstart at 1. cbn [append].
        do 5 f_equal. exact Hsplit.
      * split; [exact Hrest|]. intros. cbn. apply Nat.le_0_l.
Qed.

(** X7: on ASCII text, [search_disk] is the leftmost, longest match of
    [Disk <digits>] that [re.search(r"Disk (\d+)", s)] finds: a result
    is a non-empty string of digits that follows the first [Disk ] that
    has a digit after it, and it takes all the digits there; there is
    no result exactly when no [Disk ] in the text is followed by a
    digit. *)
Theorem search_disk_leftmost_longest s :
  isascii s = true ->
  (forall d,
     search_disk s = Some d ->
     d <> EmptyString /\ all_digits d = true
     /\ exists pre post,
          s = (pre ++ "Disk " ++ d ++ post)%string
          /\ PyStr.take_digits post = EmptyString
          /\ forall pre' c post',
               s = (pre' ++ "Disk " ++ String c post')%string ->
               PyStr.is_digit c = true ->
               (String.length pre <= String.length pre')%nat)
  /\ (search_disk s = None ->
      forall pre c post,
        s = (pre ++ "Disk " ++ String c post)%string ->
        PyStr.is_digit c = false).
Proof. intros _. apply search_disk_at_first_digits. Qed.

Lemma search_disk_leftmost_longest_witness :
  exists pre post,
    ("Disk ###  Status" ++ nl ++ "* Disk 12 Online; Disk 3")%string
    = (pre ++ "Disk " ++ "12" ++ post)%string
    /\ PyStr.take_digits post = EmptyString
    /\ forall pre' c post',
         ("Disk ###  Status" ++ nl ++ "* Disk 12 Online; Disk 3")%string
         = (pre' ++ "Disk " ++ String c post')%string ->
         PyStr.is_digit c = true ->
         (String.length pre <= String.length pre')%nat.
Proof.
  apply (proj1 (search_disk_leftmost_longest
                  ("Disk ###  Status" ++ nl ++ "* Disk 12 Online; Disk 3")
                  eq_refl)).
  reflexivity.
Defined.

(* ===================================================================== *)
(** ** Writing the image on Linux *)
(* ===================================================================== *)

Lemma percentages_monitor lines :
  percentages
    (flat_map (fun line =>
                 if PyStr.contains "copied" line
                 then note Callback 50 "Writing ISO..." else []) lines)
  = repeat 50 (List.length (filter (PyStr.contains "copied") lines)).
Proof.
  induction lines as [|line lines IH]; [reflexivity|].
  cbn [flat_map filter]. destruct (PyStr.contains "copied" line).
  - rewrite percentages_app, IH. reflexivity.
  - exact IH.
Qed.

(** X8: The copy on Linux, once [pkexec dd] has been started: the callback
    receives 50 once for every line of [dd]'s error stream that contains
    [copied] and for no other line. If [dd] exits with status 0 the stage
    reports 70 and returns; otherwise it raises [RuntimeError] whose
    message is [Failed to write ISO to drive: ] with nothing after it
    (the stream has been read to its end by then), and 70 is not
    reported. The command is [pkexec dd if=<image> of=<device> bs=4M
    status=progress oflag=sync] and nothing else is started. *)
Theorem linux_copy_outcome env device_path iso_path process :
  which env "pkexec" = true ->
  which env "dd" = true ->
  subprocess_Popen env (dd_command device_path iso_path) = inl process ->
  let r := _write_iso_linux env device_path iso_path Callback in
  let copied :=
    List.length (filter (PyStr.contains "copied") (stderr_lines process)) in
  system_calls (trace r) = [Popen (dd_command device_path iso_path)]
  /\ percentages (trace r)
     = repeat 50 copied ++ (if exit_status process =? 0 then [70] else [])
  /\ outcome r
     = (if exit_status process =? 0 then inl tt
        else inr (Exc RuntimeError "Failed to write ISO to drive: ")).
Proof.
  intros Hp Hd Hpopen r copied. subst r copied.
  unfold _write_iso_linux. rewrite Hp, Hd. cbn [negb].
  unfold emit. rewrite bind_ok, Hpopen, bind_ret_l, monitor_stderr_eq, bind_ok.
  cbn [trace outcome fst snd].
  assert (Hsys : forall lines,
            system_calls
              (flat_map (fun line =>
                           if PyStr.contains "copied" line
                           then note Callback 50 "Writing ISO..." else [])
                 lines) = []).
  { induction lines as [|l ls IH]; [reflexivity|].
    cbn [flat_map]. rewrite system_calls_app, IH.
    now destruct (PyStr.contains "copied" l). }
  destruct (exit_status process =? 0); cbn [negb].
  - rewrite notify_eq. cbn [trace outcome fst snd try_except].
    rewrite !system_calls_app, !percentages_app, Hsys, percentages_monitor.
    repeat split.
  - cbn [raise trace outcome fst snd try_except isinstance exc_type mro
           existsb class_name String.eqb Ascii.eqb Bool.eqb orb append].
    rewrite !app_nil_r, !system_calls_app, !percentages_app, Hsys,
      percentages_monitor.
    repeat split.
Qed.

Lemma linux_copy_outcome_witness :
  percentages (trace (_write_iso_linux linux_dd_fails "/dev/sdb" "ubuntu.iso"
                        Callback))
  = repeat 50 1 ++ [].
Proof.
  apply (linux_copy_outcome linux_dd_fails "/dev/sdb" "ubuntu.iso"
           {| stderr_lines :=
                ["1048576 bytes copied" ++ nl;
                 "dd: error writing '/dev/sdb': No space left on device" ++ nl]%string;
              exit_status := 1 |});
    reflexivity.
Defined.

(** X9: The copy on Linux when [pkexec dd] cannot be started: a
    [FileNotFoundError] (or a subclass instance) is replaced by
    [RuntimeError] with the message [dd command not found. ...]; any
    other error is raised unchanged. No progress is reported. *)
Theorem linux_copy_cannot_start env device_path iso_path cb e :
  which env "pkexec" = true ->
  which env "dd" = true ->
  subprocess_Popen env (dd_command device_path iso_path) = inr e ->
  _write_iso_linux env device_path iso_path cb
  = ([Popen (dd_command device_path iso_path)],
     inr (if isinstance e "FileNotFoundError"
          then Exc RuntimeError
                 "dd command not found. Please ensure it is installed and in your PATH."
          else e)).
Proof.
  intros Hp Hd Hpopen. unfold _write_iso_linux. rewrite Hp, Hd. cbn [negb].
  unfold emit. rewrite bind_ok, Hpopen. cbn.
  destruct (isinstance e "FileNotFoundError"); reflexivity.
Qed.

Lemma linux_copy_cannot_start_witness :
  _write_iso_linux linux_popen_denied "/dev/sdb" "ubuntu.iso" Callback
  = ([Popen (dd_command "/dev/sdb" "ubuntu.iso")],
     inr (Exc PermissionError "[Errno 13] Permission denied: 'pkexec'")).
Proof.
  apply (linux_copy_cannot_start linux_popen_denied "/dev/sdb" "ubuntu.iso"
           Callback
           (Exc PermissionError "[Errno 13] Permission denied: 'pkexec'"));
    reflexivity.
Defined.

(* ===================================================================== *)
(** ** Runs on Linux *)
(* ===================================================================== *)

Lemma system_calls_invoke c t :
  system_calls (Invoke c :: t) = system_calls t.
Proof. reflexivity. Qed.

Lemma runs_are_system_calls t :
  forallb is_run t = true -> system_calls t = t.
Proof.
  induction t as [|a t IH]; [reflexivity|]. cbn [forallb].
  intros H. apply andb_true_iff in H as [Ha Ht].
  destruct a; try discriminate. unfold system_calls in *.
  cbn [filter is_system_call]. now rewrite (IH Ht).
Qed.

Lemma unmount_all_succeeds_iff env d :
  succeeds (_unmount_all_partitions env d)
  <-> forall e, subprocess_run env ["lsblk"; "-no"; "NAME"; d] = inr e ->
                isinstance e "CalledProcessError" = true.
Proof.
  unfold _unmount_all_partitions, _get_linux_partitions, run, succeeds.
  cbn. destruct (subprocess_run env ["lsblk"; "-no"; "NAME"; d]) as [res|e0].
  - destruct (negb (returncode res =? 0)); cbn.
    + split; [discriminate|reflexivity].
    + rewrite unmount_each_eq. cbn. split; [discriminate|reflexivity].
  - cbn. destruct (isinstance e0 "CalledProcessError") eqn:Hinst; cbn.
    + split; [intros _ e [= <-]; exact Hinst|reflexivity].
    + split; [discriminate|]. intros H.
      specialize (H e0 eq_refl). congruence.
Qed.

Lemma write_iso_linux_succeeds_iff env d i cb :
  succeeds (_write_iso_linux env d i cb)
  <-> which env "pkexec" = true /\ which env "dd" = true
      /\ exists process,
           subprocess_Popen env (dd_command d i) = inl process
           /\ exit_status process = 0.
Proof.
  unfold _write_iso_linux, succeeds.
  destruct (which env "pkexec"); cbn [negb];
    [|split; [discriminate|intros [? _]; discriminate]].
  destruct (which env "dd"); cbn [negb];
    [|split; [discriminate|intros (_ & ? & _); discriminate]].
  unfold emit. rewrite bind_ok.
  destruct (subprocess_Popen env (dd_command d i)) as [p|e].
  - rewrite bind_ret_l, monitor_stderr_eq, bind_ok.
    destruct (Z.eqb_spec (exit_status p) 0) as [Hz|Hnz]; cbn [negb].
    + rewrite notify_eq. cbn. split; [|reflexivity].
      intros _. repeat split. now exists p.
    + cbn. split; [discriminate|].
      intros (_ & _ & p' & [= <-] & Hz). contradiction.
  - cbn. destruct (isinstance e "FileNotFoundError"); cbn;
      (split; [discriminate|intros (_ & _ & p' & ? & _); discriminate]).
Qed.

Lemma write_iso_linux_system_calls env d i cb :
  system_calls (trace (_write_iso_linux env d i cb))
  = if which env "pkexec" && which env "dd"
    then [Popen (dd_command d i)] else [].
Proof.
  unfold _write_iso_linux.
  destruct (which env "pkexec"); cbn [negb andb]; [|reflexivity].
  destruct (which env "dd"); cbn [negb andb]; [|reflexivity].
  unfold emit. rewrite bind_ok.
  destruct (subprocess_Popen env (dd_command d i)) as [p|e].
  - rewrite bind_ret_l, monitor_stderr_eq, bind_ok.
    assert (Hsys : forall lines,
              system_calls
                (flat_map (fun line =>
                             if PyStr.contains "copied" line
                             then note cb 50 "Writing ISO..." else [])
                   lines) = []).
    { induction lines as [|l ls IH]; [reflexivity|].
      cbn [flat_map]. rewrite system_calls_app, IH.
      destruct (PyStr.contains "copied" l); [|reflexivity].
      now rewrite system_calls_eq_note. }
    destruct (exit_status p =? 0); cbn [negb].
    + rewrite notify_eq. cbn [trace outcome fst snd try_except].
      rewrite !system_calls_app, Hsys, system_calls_eq_note. reflexivity.
    + cbn [raise trace outcome fst snd try_except isinstance exc_type mro
             existsb class_name String.eqb Ascii.eqb Bool.eqb orb append].
      rewrite !app_nil_r, !system_calls_app, Hsys. reflexivity.
  - cbn. destruct (isinstance e "FileNotFoundError"); reflexivity.
Qed.

(** The shape of every run on Linux with an existing image. *)
Lemma linux_run_shape env d i p cb :
  system env = "Linux" ->
  path_exists env i = true ->
  let unmount := _unmount_all_partitions env d in
  let copy := _write_iso_linux env d i cb in
  create_bootable_drive env (BootableCreator env) d i p cb
  = (note cb 0 "Starting bootable drive creation..."
     ++ note cb 5 "Preparing drive..."
     ++ Invoke (call_prepare_drive d p) :: trace unmount
     ++ match outcome unmount with
        | inr e => note cb 0 ("Error: " ++ exc_str e)
        | inl _ =>
            note cb 15 "Formatting drive on Linux..."
            ++ note cb 30 "Writing ISO to drive..."
            ++ Invoke (call_write_iso d i) :: trace copy
            ++ match outcome copy with
               | inr e => note cb 0 ("Error: " ++ exc_str e)
               | inl _ =>
                   note cb 70 "Setting up persistence..."
                   ++ Invoke (call_setup_persistence d p)
                   :: note cb 75 "Setting up persistence on Linux..."
                   ++ note cb 90 "Installing bootloader..."
                   ++ Invoke (call_install_bootloader d i)
                   :: note cb 95 "Installing bootloader on Linux..."
                   ++ note cb 100 "Bootable drive created successfully!"
               end
        end,
     match outcome unmount with
     | inr e => inr e
     | inl _ => match outcome copy with
                | inr e => inr e
                | inl _ => inl true
                end
     end).
Proof.
  intros Hsys Hex unmount copy.
  unfold create_bootable_drive, invoke. rewrite Hex.
  cbn [negb stage_body BootableCreator self_prepare_drive self_write_iso
         self_setup_persistence self_install_bootloader].
  unfold _prepare_drive, _write_iso, _setup_persistence, _install_bootloader,
    _prepare_drive_linux.
  rewrite Hsys. cbn [String.eqb Ascii.eqb Bool.eqb].
  fold unmount copy.
  destruct unmount as [t1 [[]|e1]]; destruct copy as [t2 [[]|e2]];
    destruct cb; cbn; rewrite <- ?app_assoc; reflexivity.
Qed.

(** X10: A run on Linux returns [True] exactly when the image exists, [lsblk]
    can be started (or fails with [CalledProcessError]), [pkexec] and
    [dd] are on the path, and the [pkexec dd] process starts and exits
    with status 0. Nothing else matters: not the exit status of [lsblk]
    or of any [umount], not the persistence size. *)
Theorem linux_run_succeeds_iff
    env device_path iso_path persistence_size cb :
  system env = "Linux" ->
  outcome (create_bootable_drive env (BootableCreator env)
             device_path iso_path persistence_size cb) = inl true
  <-> path_exists env iso_path = true
      /\ (forall e,
            subprocess_run env ["lsblk"; "-no"; "NAME"; device_path] = inr e ->
            isinstance e "CalledProcessError" = true)
      /\ which env "pkexec" = true /\ which env "dd" = true
      /\ exists process,
           subprocess_Popen env (dd_command device_path iso_path)
           = inl process
           /\ exit_status process = 0.
Proof.
  intros Hsys.
  rewrite <- (unmount_all_succeeds_iff env device_path).
  rewrite <- (write_iso_linux_succeeds_iff env device_path iso_path cb).
  destruct (path_exists env iso_path) eqn:Hex.
  - rewrite (linux_run_shape env device_path iso_path persistence_size cb
               Hsys Hex).
    cbn [outcome snd]. unfold succeeds.
    destruct (outcome (_unmount_all_partitions env device_path))
      as [[]|e1];
      destruct (outcome (_write_iso_linux env device_path iso_path cb))
        as [[]|e2];
      split; try discriminate; try tauto;
      intros (_ & H1 & H2); discriminate.
  - rewrite (create_missing _ _ _ _ _ _ Hex). cbn.
    split; [discriminate|intros [? _]; discriminate].
Qed.

Lemma linux_run_succeeds_iff_witness :
  outcome (create_bootable_drive linux_env (BootableCreator linux_env)
             "/dev/sdb" "ubuntu.iso" 8 Callback) = inl true.
Proof.
  apply (linux_run_succeeds_iff linux_env "/dev/sdb" "ubuntu.iso" 8 Callback);
    [reflexivity|].
  split; [reflexivity|]. split; [intros e H; discriminate|].
  split; [reflexivity|]. split; [reflexivity|].
  eexists. split; reflexivity.
Defined.

(** X11: In every run on Linux the processes started are, in this order,
    [lsblk], one [umount] per listed partition and then at most one
    [pkexec dd]; no file is touched. The copy is started exactly when the
    unmount step returned and both tools are on the path, so never before
    the unmounting and never twice. *)
Theorem linux_copy_follows_unmount
    env device_path iso_path persistence_size cb :
  system env = "Linux" ->
  path_exists env iso_path = true ->
  let unmount := _unmount_all_partitions env device_path in
  let r := create_bootable_drive env (BootableCreator env)
             device_path iso_path persistence_size cb in
  forallb is_run (trace unmount) = true
  /\ system_calls (trace r)
     = trace unmount
       ++ match outcome unmount with
          | inl _ =>
              if which env "pkexec" && which env "dd"
              then [Popen (dd_command device_path iso_path)] else []
          | inr _ => []
          end.
Proof.
  intros Hsys Hex unmount r. split; [apply unmount_all_runs|].
  subst r. rewrite (linux_run_shape _ _ _ _ _ Hsys Hex).
  cbn [trace fst]. fold unmount.
  pose proof (write_iso_linux_system_calls env device_path iso_path cb)
    as Hcopy.
  pose proof (runs_are_system_calls _ (unmount_all_runs env device_path))
    as Hruns. fold unmount in Hruns.
  destruct (outcome unmount) as [[]|e1];
    [destruct (outcome (_write_iso_linux env device_path iso_path cb))
       as [[]|e2]|];
    repeat rewrite ?system_calls_app, ?system_calls_eq_note,
      ?system_calls_invoke;
    rewrite Hruns, ?Hcopy; cbn [app]; now rewrite ?app_nil_r.
Qed.

Lemma linux_copy_follows_unmount_witness :
  system_calls
    (trace (create_bootable_drive linux_env (BootableCreator linux_env)
              "/dev/sdb" "ubuntu.iso" 8 Callback))
  = [Run ["lsblk"; "-no"; "NAME"; "/dev/sdb"]; Run ["umount"; "/dev/sdb1"]]
    ++ [Popen (dd_command "/dev/sdb" "ubuntu.iso")].
Proof.
  apply (linux_copy_follows_unmount linux_env "/dev/sdb" "ubuntu.iso" 8
           Callback); reflexivity.
Defined.

Lemma effects_app t1 t2 : effects (t1 ++ t2) = effects t1 ++ effects t2.
Proof. apply filter_app. Qed.

Lemma effects_invoke c t : effects (Invoke c :: t) = effects t.
Proof. reflexivity. Qed.

(** X12: Off Windows the requested persistence size has no effect whatever:
    two requests that differ only in the size report the same progress
    events, start the same processes and end in the same result. (Only
    the Windows partitioning script mentions the size.) *)
Theorem persistence_size_unused_off_windows
    env device_path iso_path size size' cb :
  system env <> "Windows" ->
  let r := create_bootable_drive env (BootableCreator env)
             device_path iso_path size cb in
  let r' := create_bootable_drive env (BootableCreator env)
              device_path iso_path size' cb in
  outcome r = outcome r' /\ effects (trace r) = effects (trace r').
Proof.
  intros Hw r r'. subst r r'.
  destruct (path_exists env iso_path) eqn:Hex.
  2:{ now rewrite !(create_missing _ _ _ _ _ _ Hex). }
  destruct (String.eqb_spec (system env) "Linux") as [Hl|Hl].
  { rewrite !(linux_run_shape _ _ _ _ _ Hl Hex). cbn [trace outcome fst snd].
    split; [reflexivity|].
    destruct (outcome (_unmount_all_partitions env device_path)) as [[]|e1];
      [destruct (outcome (_write_iso_linux env device_path iso_path cb))
         as [[]|e2]|];
      repeat rewrite ?effects_app, ?effects_invoke; reflexivity. }
  unfold create_bootable_drive, invoke. rewrite Hex.
  cbn [negb stage_body BootableCreator self_prepare_drive self_write_iso
         self_setup_persistence self_install_bootloader].
  unfold _prepare_drive, _write_iso, _setup_persistence, _install_bootloader.
  rewrite (not_system _ _ Hw), (not_system _ _ Hl).
  destruct (system env =? "Darwin")%string; destruct cb;
    split; reflexivity.
Qed.

Lemma persistence_size_unused_off_windows_witness :
  effects (trace (create_bootable_drive linux_env (BootableCreator linux_env)
                    "/dev/sdb" "ubuntu.iso" 1 Callback))
  = effects (trace (create_bootable_drive linux_env
                      (BootableCreator linux_env)
                      "/dev/sdb" "ubuntu.iso" 128 Callback)).
Proof.
  apply (persistence_size_unused_off_windows linux_env
           "/dev/sdb" "ubuntu.iso" 1 128 Callback).
  discriminate.
Defined.

(* ===================================================================== *)
(** ** Verifying a checksum *)
(* ===================================================================== *)

Module VerifyFacts.

Lemma hex_char_plain c :
  PyStr.mem_char c "0123456789abcdef" = true ->
  PyCase.lower_char c = c
  /\ PyCase.lower_char (PyCase.upper_char c) = c
  /\ PyStr.mem_char c PyStr.whitespace = false.
Proof.
  cbn [PyStr.mem_char].
  repeat match goal with
         | |- (Ascii.eqb c ?d || _) = true -> _ =>
             destruct (Ascii.eqb_spec c d) as [->|_];
             [intros _; repeat split; reflexivity|cbn [orb]]
         end.
  discriminate.
Qed.

Lemma whitespace_char_plain c :
  PyStr.mem_char c PyStr.whitespace = true -> PyCase.lower_char c = c.
Proof.
  unfold PyStr.whitespace. cbn [PyStr.mem_char].
  repeat match goal with
         | |- (Ascii.eqb c ?d || _) = true -> _ =>
             destruct (Ascii.eqb_spec c d) as [->|_];
             [intros _; reflexivity|cbn [orb]]
         end.
  discriminate.
Qed.

Lemma lower_app a b :
  PyCase.lower (a ++ b) = (PyCase.lower a ++ PyCase.lower b)%string.
Proof.
  induction a as [|c a IH]; [reflexivity|]. cbn. now rewrite IH.
Qed.

Lemma lower_hex h : all_hex h = true -> PyCase.lower h = h.
Proof.
  induction h as [|c h IH]; [reflexivity|]. cbn [all_hex PyCase.lower].
  intros H. apply andb_true_iff in H as [Hc Hh].
  destruct (hex_char_plain c Hc) as [-> _]. now rewrite IH.
Qed.

Lemma lower_upper_hex h :
  all_hex h = true -> PyCase.lower (PyCase.upper h) = h.
Proof.
  induction h as [|c h IH]; [reflexivity|].
  cbn [all_hex PyCase.lower PyCase.upper].
  intros H. apply andb_true_iff in H as [Hc Hh].
  destruct (hex_char_plain c Hc) as (_ & -> & _). now rewrite IH.
Qed.

Lemma lower_whitespace s : all_whitespace s = true -> PyCase.lower s = s.
Proof.
  induction s as [|c s IH]; [reflexivity|].
  cbn [all_whitespace PyCase.lower].
  intros H. apply andb_true_iff in H as [Hc Hs].
  now rewrite (whitespace_char_plain c Hc), IH.
Qed.

Lemma lstrip_whitespace pad s :
  all_whitespace pad = true ->
  PyStr.lstrip PyStr.whitespace (pad ++ s) = PyStr.lstrip PyStr.whitespace s.
Proof.
  induction pad as [|c pad IH]; [reflexivity|]. cbn [all_whitespace].
  intros H. apply andb_true_iff in H as [Hc Hp].
  cbn [append PyStr.lstrip]. rewrite Hc. now apply IH.
Qed.

Lemma rstrip_all_whitespace pad :
  all_whitespace pad = true ->
  PyStr.rstrip PyStr.whitespace pad = EmptyString.
Proof.
  induction pad as [|c pad IH]; [reflexivity|]. cbn [all_whitespace].
  intros H. apply andb_true_iff in H as [Hc Hp].
  cbn [PyStr.rstrip]. now rewrite (IH Hp), Hc.
Qed.

Lemma rstrip_hex h pad :
  all_hex h = true -> all_whitespace pad = true ->
  PyStr.rstrip PyStr.whitespace (h ++ pad) = h.
Proof.
  intros Hh Hpad. induction h as [|c h IH].
  - now apply rstrip_all_whitespace.
  - cbn [all_hex] in Hh. apply andb_true_iff in Hh as [Hc Hh].
    destruct (hex_char_plain c Hc) as (_ & _ & Hnw).
    cbn [append PyStr.rstrip]. rewrite (IH Hh), Hnw.
    now destruct h.
Qed.

Lemma lstrip_hex h rest :
  all_hex h = true -> h <> EmptyString ->
  PyStr.lstrip PyStr.whitespace (h ++ rest) = (h ++ rest)%string.
Proof.
  intros Hh Hne. destruct h as [|c h]; [contradiction|].
  cbn [all_hex] in Hh. apply andb_true_iff in Hh as [Hc _].
  destruct (hex_char_plain c Hc) as (_ & _ & Hnw).
  cbn [append PyStr.lstrip]. now rewrite Hnw.
Qed.

(** Normalising a digest written in upper case with blanks around it
    gives the digest back. *)
Lemma normalise_digest h pad1 pad2 :
  all_hex h = true -> h <> EmptyString ->
  all_whitespace pad1 = true -> all_whitespace pad2 = true ->
  PyStr.strip (PyCase.lower (pad1 ++ PyCase.upper h ++ pad2)) = h.
Proof.
  intros Hh Hne H1 H2. unfold PyStr.strip.
  rewrite !lower_app, (lower_whitespace _ H1), (lower_whitespace _ H2),
    (lower_upper_hex _ Hh).
  rewrite (lstrip_whitespace _ _ H1), (lstrip_hex _ _ Hh Hne).
  now apply rstrip_hex.
Qed.

Lemma append_empty s : (s ++ EmptyString)%string = s.
Proof. induction s as [|c s IH]; cbn; congruence. Qed.

Lemma normalise_plain_digest h :
  all_hex h = true -> PyStr.strip (PyCase.lower h) = h.
Proof.
  intros Hh. rewrite (lower_hex _ Hh). unfold PyStr.strip.
  assert (Hl : PyStr.lstrip PyStr.whitespace h = h).
  { destruct h as [|c h]; [reflexivity|].
    cbn [all_hex] in Hh. apply andb_true_iff in Hh as [Hc _].
    destruct (hex_char_plain c Hc) as (_ & _ & Hnw).
    cbn [PyStr.lstrip]. now rewrite Hnw. }
  rewrite Hl. rewrite <- (append_empty h) at 1.
  now apply rstrip_hex.
Qed.

End VerifyFacts.

(** X13: A file verifies against its own checksum: what [calculate_checksum]
    returns for a file is accepted by [verify_checksum] for that file,
    also when it is written in upper case and with blanks, tabs or line
    ends around it. *)
Theorem verify_checksum_accepts_own_checksum
    fs file_path checksum pad1 pad2 :
  ISOHandler.calculate_checksum fs file_path = inl checksum ->
  all_whitespace pad1 = true -> all_whitespace pad2 = true ->
  verify_checksum fs file_path checksum = inl true
  /\ verify_checksum fs file_path (pad1 ++ PyCase.upper checksum ++ pad2)
     = inl true.
Proof.
  intros Hsum H1 H2.
  assert (Hfmt : String.length checksum = 64%nat /\ all_hex checksum = true).
  { unfold ISOHandler.calculate_checksum in Hsum.
    destruct (negb (ISOHandler.path_exists fs file_path)); [discriminate|].
    destruct (ISOHandler.open_rb fs file_path) as [contents|e];
      [|discriminate].
    injection Hsum as <-. apply ChecksumFacts.hexdigest_format. }
  destruct Hfmt as [Hlen Hhex].
  assert (Hne : checksum <> EmptyString) by (intros ->; discriminate).
  unfold verify_checksum. rewrite Hsum.
  rewrite (VerifyFacts.normalise_plain_digest _ Hhex),
    (VerifyFacts.normalise_digest _ _ _ Hhex Hne H1 H2).
  now rewrite String.eqb_refl.
Qed.

Lemma verify_checksum_accepts_own_checksum_witness :
  verify_checksum fixture_fs "test_file.txt"
    (" " ++ PyCase.upper
              "315f5bdb76d078c43b8ac0064e4a0164612b1fce77c869345bfc94c75894edd3"
     ++ nl)
  = inl true.
Proof.
  apply (verify_checksum_accepts_own_checksum fixture_fs "test_file.txt"
           "315f5bdb76d078c43b8ac0064e4a0164612b1fce77c869345bfc94c75894edd3"
           " " nl).
  - vm_compute. reflexivity.
  - reflexivity.
  - reflexivity.
Defined.

(** What [calculate_checksum] returns is 64 hexadecimal digits. *)
Lemma checksum_is_64_hex fs file_path checksum :
  ISOHandler.calculate_checksum fs file_path = inl checksum ->
  String.length checksum = 64%nat /\ all_hex checksum = true.
Proof.
  unfold ISOHandler.calculate_checksum.
  destruct (negb (ISOHandler.path_exists fs file_path)); [discriminate|].
  destruct (ISOHandler.open_rb fs file_path) as [contents|e];
    [|discriminate].
  intros [= <-]. apply ChecksumFacts.hexdigest_format.
Qed.

(** X14: an expected checksum that is not 64 hexadecimal digits never
    verifies. For every file that can be read and every ASCII text
    [expected] that, in lower case and stripped, is not exactly 64
    characters from [0-9a-f] (too short or too long, as an MD5 or SHA-1
    digest, or with a stray character), [verify_checksum] returns
    [False]; it does not raise. *)
Theorem malformed_checksum_never_verifies fs file_path expected checksum :
  isascii expected = true ->
  ISOHandler.calculate_checksum fs file_path = inl checksum ->
  String.length (PyStr.strip (PyCase.lower expected)) <> 64%nat
  \/ all_hex (PyStr.strip (PyCase.lower expected)) = false ->
  verify_checksum fs file_path expected = inl false.
Proof.
  intros _ Hsum Hbad.
  destruct (checksum_is_64_hex fs file_path checksum Hsum) as [Hlen Hhex].
  unfold verify_checksum. rewrite Hsum. f_equal.
  apply String.eqb_neq. intros Heq. rewrite <- Heq in Hbad.
  destruct Hbad as [Hbad | Hbad]; [contradiction | congruence].
Qed.

Lemma malformed_checksum_never_verifies_witness :
  verify_checksum fixture_fs "test_file.txt"
    ("6CD3556DEB0DA54BCA060B4C39479839" ++ nl)
  = inl false.
Proof.
  apply (malformed_checksum_never_verifies fixture_fs "test_file.txt"
           ("6CD3556DEB0DA54BCA060B4C39479839" ++ nl)
           "315f5bdb76d078c43b8ac0064e4a0164612b1fce77c869345bfc94c75894edd3").
  - reflexivity.
  - vm_compute. reflexivity.
  - left. vm_compute. discriminate.
Defined.

(* ===================================================================== *)
(** ** Ejecting a device *)
(* ===================================================================== *)

Module EjectFacts.
Import DeviceDetector.

Lemma run_eq h argv :
  run h argv
  = ([Run argv],
     match subprocess_run h argv with
     | inl p => inl p
     | inr e => inr e
     end).
Proof. unfold run. cbn. now destruct (subprocess_run h argv). Qed.

End EjectFacts.

(** X15: On Linux [eject_device] never raises. It runs [umount] first; [eject]
    is run only if [umount] exited with status 0, and the result is
    [True] exactly when both were started and exited with status 0. A
    tool that cannot be started gives [False]. *)
Theorem eject_linux_unmounts_first h device_path :
  DeviceDetector.system h = "Linux" ->
  let r := DeviceDetector.eject_device h device_path in
  let unmounted :=
    match DeviceDetector.subprocess_run h ["umount"; device_path] with
    | inl p => returncode p =? 0
    | inr _ => false
    end in
  let ejected :=
    match DeviceDetector.subprocess_run h ["eject"; device_path] with
    | inl p => returncode p =? 0
    | inr _ => false
    end in
  r = (Run ["umount"; device_path]
       :: (if unmounted then [Run ["eject"; device_path]] else []),
       inl (unmounted && ejected)).
Proof.
  intros Hsys r unmounted ejected. subst r unmounted ejected.
  unfold DeviceDetector.eject_device, DeviceDetector._eject_linux_device.
  rewrite Hsys. cbn [String.eqb Ascii.eqb Bool.eqb].
  rewrite EjectFacts.run_eq.
  destruct (DeviceDetector.subprocess_run h ["umount"; device_path])
    as [p|e]; [|reflexivity].
  rewrite bind_ok. destruct (returncode p =? 0); cbn [negb]; [|reflexivity].
  rewrite EjectFacts.run_eq.
  destruct (DeviceDetector.subprocess_run h ["eject"; device_path])
    as [p'|e']; reflexivity.
Qed.

Lemma eject_linux_unmounts_first_witness :
  DeviceDetector.eject_device (detector_linux 32 0) "/dev/sdb1"
  = ([Run ["umount"; "/dev/sdb1"]], inl false).
Proof.
  apply (eject_linux_unmounts_first (detector_linux 32 0) "/dev/sdb1").
  reflexivity.
Defined.

(** X16: On Windows [eject_device] never raises, and it leaves its script
    behind when [cscript] cannot be started: the script is removed only
    after [cscript] has run. If the script cannot be written nothing is
    started. The result is [True] exactly when [cscript] ran and exited
    with status 0. *)
Theorem eject_windows_outcome h device_path :
  DeviceDetector.system h = "Windows" ->
  let script_path :=
    DeviceDetector.path_join h
      (DeviceDetector.environ_get h "TEMP" "C:\Temp") "eject_drive.vbs" in
  let cscript := ["cscript"; "//nologo"; script_path] in
  DeviceDetector.eject_device h device_path
  = match DeviceDetector.open_w h script_path with
    | Some _ => ([], inl false)
    | None =>
        match DeviceDetector.subprocess_run h cscript with
        | inl p =>
            ([WriteFile script_path (DeviceDetector.eject_script device_path);
              Run cscript; RemoveFile script_path],
             inl (returncode p =? 0))
        | inr _ =>
            ([WriteFile script_path (DeviceDetector.eject_script device_path);
              Run cscript],
             inl false)
        end
    end.
Proof.
  intros Hsys script_path cscript.
  unfold DeviceDetector.eject_device, DeviceDetector._eject_windows_device,
    DeviceDetector.write_text.
  rewrite Hsys. cbn [String.eqb Ascii.eqb Bool.eqb].
  fold script_path. fold cscript.
  destruct (DeviceDetector.open_w h script_path); [reflexivity|].
  unfold emit. rewrite bind_ok, EjectFacts.run_eq.
  destruct (DeviceDetector.subprocess_run h cscript); reflexivity.
Qed.

Lemma eject_windows_outcome_witness :
  DeviceDetector.eject_device detector_windows_no_cscript "D:"
  = ([WriteFile "C:\Temp\eject_drive.vbs" (DeviceDetector.eject_script "D:");
      Run ["cscript"; "//nologo"; "C:\Temp\eject_drive.vbs"]],
     inl false).
Proof.
  apply (eject_windows_outcome detector_windows_no_cscript "D:").
  reflexivity.
Defined.

(** X17: [eject_device] raises only on a host that is neither Windows, macOS
    nor Linux: there it raises [NotImplementedError] and starts nothing.
    On the three supported hosts it always returns a boolean. *)
Theorem eject_raises_only_when_unsupported h device_path :
  let r := DeviceDetector.eject_device h device_path in
  let supported :=
    ((DeviceDetector.system h =? "Windows")
     || (DeviceDetector.system h =? "Darwin")
     || (DeviceDetector.system h =? "Linux"))%string in
  if supported then exists b, outcome r = inl b
  else r = ([], inr (Exc NotImplementedError
                       ("Unsupported operating system: "
                        ++ DeviceDetector.system h))).
Proof.
  cbv zeta.
  unfold DeviceDetector.eject_device, DeviceDetector._eject_windows_device,
    DeviceDetector._eject_macos_device, DeviceDetector._eject_linux_device,
    DeviceDetector.write_text.
  rewrite !EjectFacts.run_eq.
  destruct (DeviceDetector.system h =? "Windows")%string; cbn [orb].
  { destruct (DeviceDetector.open_w h _); [eexists; reflexivity|].
    unfold emit. rewrite bind_ok, ?EjectFacts.run_eq.
    destruct (DeviceDetector.subprocess_run h _); eexists; reflexivity. }
  destruct (DeviceDetector.system h =? "Darwin")%string; cbn [orb].
  { destruct (DeviceDetector.subprocess_run h _); eexists; reflexivity. }
  destruct (DeviceDetector.system h =? "Linux")%string; cbn [orb];
    [|reflexivity].
  destruct (DeviceDetector.subprocess_run h ["umount"; device_path])
    as [p|e]; [|eexists; reflexivity].
  rewrite bind_ok. destruct (returncode p =? 0); cbn [negb];
    [|eexists; reflexivity].
  rewrite ?EjectFacts.run_eq.
  destruct (DeviceDetector.subprocess_run h ["eject"; device_path]);
    eexists; reflexivity.
Qed.

(* ===================================================================== *)
(** ** System drive and internal drives *)
(* ===================================================================== *)

Module CaseFacts.






End CaseFacts.



(** X19: [_is_linux_internal_drive] errs on the side of internal: a drive is
    reported as not internal only if its [removable] flag file reads [1]
    or the resolved [/sys/block/<name>] path contains [usb]. A flag of
    [1] settles it whatever the bus; a flag file that exists but cannot
    be read makes the drive internal even if it sits on the USB bus. *)
Theorem internal_unless_removable_or_usb h drive_name :
  let flag := ("/sys/block/" ++ drive_name ++ "/removable")%string in
  let block := ("/sys/block/" ++ drive_name)%string in
  (DeviceDetector._is_linux_internal_drive h drive_name = false ->
   (DeviceDetector.path_exists h flag = true
    /\ exists text, DeviceDetector.read_text h flag = inl text
                    /\ PyStr.strip text = "1")
   \/ (exists device_path,
         DeviceDetector.realpath h block = inl device_path
         /\ PyStr.contains "usb" device_path = true))
  /\ (forall text,
        DeviceDetector.path_exists h flag = true ->
        DeviceDetector.read_text h flag = inl text ->
        PyStr.strip text = "1" ->
        DeviceDetector._is_linux_internal_drive h drive_name = false)
  /\ (forall e,
        DeviceDetector.path_exists h flag = true ->
        DeviceDetector.read_text h flag = inr e ->
        DeviceDetector._is_linux_internal_drive h drive_name = true).
Proof.
  intros flag block. unfold DeviceDetector._is_linux_internal_drive.
  fold flag block. split; [|split].
  - assert (Hbus :
      match DeviceDetector.realpath h block with
      | inl device_path => negb (PyStr.contains "usb" device_path)
      | inr _ => true
      end = false ->
      exists device_path,
        DeviceDetector.realpath h block = inl device_path
        /\ PyStr.contains "usb" device_path = true).
    { destruct (DeviceDetector.realpath h block) as [dp|e];
        [|discriminate].
      intros H. exists dp. split; [reflexivity|].
      now apply negb_false_iff in H. }
    destruct (DeviceDetector.path_exists h flag); [|now right; apply Hbus].
    destruct (DeviceDetector.read_text h flag) as [text|e]; [|discriminate].
    destruct (String.eqb_spec (PyStr.strip text) "1") as [Heq|_].
    + intros _. left. split; [reflexivity|]. now exists text.
    + intros H. right. now apply Hbus.
  - intros text -> -> ->. reflexivity.
  - intros e -> ->. reflexivity.
Qed.

Lemma internal_unless_removable_or_usb_witness :
  DeviceDetector._is_linux_internal_drive (detector_linux 0 0) "sdc" = true.
Proof.
  apply (internal_unless_removable_or_usb (detector_linux 0 0) "sdc")
    with (e := Exc PermissionError
                 "[Errno 13] Permission denied: '/sys/block/sdc/removable'");
    reflexivity.
Defined.

(* ===================================================================== *)
(** ** Human-readable sizes *)
(* ===================================================================== *)

Module SizeFacts.
Import SizeFormat.

Lemma round_half_even_nearest a d :
  0 < d -> 2 * Z.abs (a - round_half_even a d * d) <= d.
Proof.
  intros Hd. unfold round_half_even.
  pose proof (Z.div_mod a d ltac:(lia)) as Hdiv.
  pose proof (Z.mod_pos_bound a d Hd) as Hmod.
  set (q := a / d) in *. set (r := a mod d) in *.
  destruct ((d <? 2 * r) || ((2 * r =? d) && Z.odd q)) eqn:Hup.
  - assert (Hr : d <= 2 * r).
    { apply orb_true_iff in Hup as [H|H]; [lia|].
      apply andb_true_iff in H as [H _]. lia. }
    replace (a - (q + 1) * d) with (r - d) by (rewrite Hdiv; ring). lia.
  - assert (Hr : 2 * r <= d).
    { apply orb_false_iff in Hup as [H _]. lia. }
    replace (a - q * d) with r by (rewrite Hdiv; ring). lia.
Qed.

Lemma rn53_exact n : 0 < n < 2 ^ 53 -> rn53 n = n.
Proof.
  intros Hn. unfold rn53.
  assert (Z.log2 n < 53) by (apply Z.log2_lt_pow2; lia).
  destruct (Z.leb_spec (Z.log2 n + 1) 53); [reflexivity|lia].
Qed.

End SizeFacts.

(** X20: [_format_size]: a size below 1024 is shown in bytes, as it is. A
    larger size (below 2^53, where the float arithmetic is exact) is
    shown in the largest of KB, MB, GB, TB that does not exceed it, TB
    also for sizes of 1024 TB and more, and the number shown, with two
    decimals, is the nearest to the size in that unit: it is off by at
    most half a hundredth. *)
Theorem format_size_nearest_hundredth size_bytes :
  (size_bytes < 1024 ->
   SizeFormat._format_size size_bytes
   = Some (PyStr.str_of_int size_bytes ++ " B")%string)
  /\ (1024 <= size_bytes < 2 ^ 53 ->
      exists (k : Z) (unit : string) (hundredths : Z),
        SizeFormat._format_size size_bytes
        = Some ((PyStr.str_of_int (hundredths / 100) ++ "."
                 ++ SizeFormat.two_digits (hundredths mod 100))
                ++ " " ++ unit)%string
        /\ ((k = 1 /\ unit = "KB") \/ (k = 2 /\ unit = "MB")
            \/ (k = 3 /\ unit = "GB") \/ (k = 4 /\ unit = "TB"))
        /\ 1024 ^ k <= size_bytes
        /\ (k < 4 -> size_bytes < 1024 ^ (k + 1))
        /\ 2 * Z.abs (100 * size_bytes - hundredths * 1024 ^ k) <= 1024 ^ k).
Proof.
  split.
  - intros H. unfold SizeFormat._format_size.
    destruct (Z.ltb_spec size_bytes 1024); [reflexivity|lia].
  - intros [Hlo Hhi]. unfold SizeFormat._format_size.
    destruct (Z.ltb_spec size_bytes 1024); [lia|].
    rewrite SizeFacts.rn53_exact by lia.
    destruct (Z.leb_spec (2 ^ 1034) size_bytes) as [Hbig|_].
    { exfalso. assert (2 ^ 53 < 2 ^ 1034) by (apply Z.pow_lt_mono_r; lia).
      lia. }
    unfold SizeFormat.pick, SizeFormat.format_2f.
    change (1024 ^ Z.of_nat 2) with (1024 ^ 2).
    change (1024 ^ Z.of_nat 3) with (1024 ^ 3).
    change (1024 ^ Z.of_nat 4) with (1024 ^ 4).
    change (1024 ^ Z.of_nat 5) with (1024 ^ 5).
    destruct (Z.ltb_spec size_bytes (1024 ^ 2));
      [|destruct (Z.ltb_spec size_bytes (1024 ^ 3));
        [|destruct (Z.ltb_spec size_bytes (1024 ^ 4));
          [|destruct (Z.ltb_spec size_bytes (1024 ^ 5))]]].
    + exists 1, "KB". eexists. split; [reflexivity|].
      split; [tauto|]. split; [lia|]. split; [intros _; exact H0|].
      apply SizeFacts.round_half_even_nearest. lia.
    + exists 2, "MB". eexists. split; [reflexivity|].
      split; [tauto|]. split; [exact H0|]. split; [intros _; exact H1|].
      apply SizeFacts.round_half_even_nearest. lia.
    + exists 3, "GB". eexists. split; [reflexivity|].
      split; [tauto|]. split; [exact H1|]. split; [intros _; exact H2|].
      apply SizeFacts.round_half_even_nearest. lia.
    + exists 4, "TB". eexists. split; [reflexivity|].
      split; [tauto|]. split; [exact H2|]. split; [lia|].
      apply SizeFacts.round_half_even_nearest. lia.
    + exists 4, "TB". eexists. split; [reflexivity|].
      split; [tauto|]. split; [|split; [lia|]].
      * change (1024 ^ 4) with 1099511627776.
        change (1024 ^ 5) with 1125899906842624 in *. lia.
      * apply SizeFacts.round_half_even_nearest. lia.
Qed.



Lemma format_size_nearest_hundredth_witness :
  exists (k : Z) (unit : string) (hundredths : Z),
    SizeFormat._format_size 1152
    = Some ((PyStr.str_of_int (hundredths / 100) ++ "."
             ++ SizeFormat.two_digits (hundredths mod 100))
            ++ " " ++ unit)%string
    /\ ((k = 1 /\ unit = "KB") \/ (k = 2 /\ unit = "MB")
        \/ (k = 3 /\ unit = "GB") \/ (k = 4 /\ unit = "TB"))
    /\ 1024 ^ k <= 1152
    /\ (k < 4 -> 1152 < 1024 ^ (k + 1))
    /\ 2 * Z.abs (100 * 1152 - hundredths * 1024 ^ k) <= 1024 ^ k.
Proof.
  apply (format_size_nearest_hundredth 1152).
  split; [lia|reflexivity].
Defined.

(* ===================================================================== *)
(** ** Listing devices on Windows *)
(* ===================================================================== *)

Lemma outcome_bind {A B} (m : M A) (k : A -> M B) :
  outcome (bind m k)
  = match outcome m with
    | inl a => outcome (k a)
    | inr e => inr e
    end.
Proof. destruct m as [t [a|e]]; cbn; [now destruct (k a)|reflexivity]. Qed.

Module ListingFacts.
Import DeviceDetector WindowsDevices.

Lemma consider_cases h p devices :
  PyStr.contains "cdrom" (opts p) = false ->
  fstype p <> EmptyString ->
  match outcome (consider h p devices) with
  | inl ds =>
      ds = devices \/ exists d, ds = devices ++ [d] /\ from_partition h p d
  | inr _ => True
  end.
Proof.
  intros Hcd Hfs. unfold consider.
  destruct (_get_windows_drive_info h (device p)) as [t info].
  rewrite outcome_bind. cbn [outcome snd].
  destruct (_is_system_drive h (device p)) eqn:Hsys; [now left|].
  destruct (negb (get_flag (removable info))
            && negb (get_flag (external info))) eqn:Hflags; [now left|].
  destruct (disk_usage h (partition_mountpoint p)) as [total|e] eqn:Huse;
    [|exact I].
  destruct (SizeFormat._format_size total) as [text|] eqn:Hfmt; [|exact I].
  right. eexists. split; [reflexivity|].
  unfold from_partition. cbn.
  repeat split; auto.
  apply andb_false_iff in Hflags as [H|H]; apply negb_false_iff in H; auto.
Qed.

Lemma scan_listed h all : forall partitions devices devs,
  incl partitions all ->
  Forall (fun d => exists p, In p all /\ from_partition h p d) devices ->
  outcome (scan h partitions devices) = inl devs ->
  Forall (fun d => exists p, In p all /\ from_partition h p d) devs.
Proof.
  induction partitions as [|p rest IH]; intros devices devs Hincl Hdev Hout.
  - cbn in Hout. now injection Hout as <-.
  - assert (Hrest : incl rest all)
      by (intros x Hx; apply Hincl; now right).
    cbn [scan] in Hout.
    destruct (PyStr.contains "cdrom" (opts p)) eqn:Hcd; cbn [orb] in Hout;
      [now apply (IH devices)|].
    destruct (String.eqb_spec (fstype p) EmptyString) as [Hfs|Hfs];
      [now apply (IH devices)|].
    rewrite outcome_bind in Hout.
    pose proof (consider_cases h p devices Hcd Hfs) as Hc.
    destruct (consider h p devices) as [t [ds|e]]; cbn in Hc, Hout.
    + apply (IH ds devs Hrest); [|exact Hout].
      destruct Hc as [->|(d & -> & Hd)]; [exact Hdev|].
      apply Forall_app. split; [exact Hdev|].
      constructor; [|constructor]. exists p. split; [|exact Hd].
      apply Hincl. now left.
    + destruct (isinstance e "PermissionError"
                || isinstance e "FileNotFoundError"); cbn in Hout.
      * now apply (IH devices devs Hrest).
      * discriminate.
Qed.

End ListingFacts.

(** X21: Every device that [_get_windows_devices] lists comes from a partition
    reported by the host that has a file system and is not a CD-ROM, is
    not the system drive, is flagged removable or external, and whose
    size could be read; its path is the partition's device without the
    trailing backslash. In particular the system drive is never offered
    as a target. *)
Theorem windows_listing_excludes_system_drive h devices :
  outcome (WindowsDevices._get_windows_devices h) = inl devices ->
  exists partitions,
    DeviceDetector.disk_partitions h = inl partitions
    /\ Forall (fun d =>
                 exists p, In p partitions
                           /\ WindowsDevices.from_partition h p d) devices.
Proof.
  unfold WindowsDevices._get_windows_devices.
  destruct (DeviceDetector.disk_partitions h) as [partitions|e];
    [|discriminate].
  intros Hout. exists partitions. split; [reflexivity|].
  apply (ListingFacts.scan_listed h partitions partitions [] devices);
    auto using incl_refl.
Qed.

Lemma windows_listing_excludes_system_drive_witness :
  exists partitions,
    DeviceDetector.disk_partitions detector_windows = inl partitions
    /\ Forall (fun d =>
                 exists p, In p partitions
                           /\ WindowsDevices.from_partition detector_windows p d)
         [{| WindowsDevices.name := "UBUNTU";
             WindowsDevices.path := "E:";
             WindowsDevices.mountpoint := "E:\";
             WindowsDevices.filesystem := "FAT32";
             WindowsDevices.size_bytes := 15728640000;
             WindowsDevices.size := "14.65 GB";
             WindowsDevices.is_removable := true;
             WindowsDevices.is_external := false |}].
Proof.
  apply (windows_listing_excludes_system_drive detector_windows).
  vm_compute. reflexivity.
Defined.

(** X22: A drive whose size cannot be read is left out of the list when the
    error is a [PermissionError] or a [FileNotFoundError], and the scan
    goes on with the next partition; any other error ends the listing
    with that error. *)
Theorem unreadable_drive_skipped_or_fatal h p rest devices e :
  PyStr.contains "cdrom" (DeviceDetector.opts p) = false ->
  DeviceDetector.fstype p <> EmptyString ->
  DeviceDetector._is_system_drive h (DeviceDetector.device p) = false ->
  (let info :=
     snd (WindowsDevices._get_windows_drive_info h (DeviceDetector.device p)) in
   WindowsDevices.get_flag (WindowsDevices.removable info)
   || WindowsDevices.get_flag (WindowsDevices.external info) = true) ->
  DeviceDetector.disk_usage h (DeviceDetector.partition_mountpoint p) = inr e ->
  let t :=
    fst (WindowsDevices._get_windows_drive_info h (DeviceDetector.device p)) in
  WindowsDevices.scan h (p :: rest) devices
  = if isinstance e "PermissionError" || isinstance e "FileNotFoundError"
    then (t ++ trace (WindowsDevices.scan h rest devices),
          outcome (WindowsDevices.scan h rest devices))
    else (t, inr e).
Proof.
  intros Hcd Hfs Hsys Hflags Huse t. subst t. cbv zeta in Hflags.
  cbn [WindowsDevices.scan]. rewrite Hcd. cbn [orb].
  destruct (String.eqb_spec (DeviceDetector.fstype p) EmptyString);
    [contradiction|].
  unfold WindowsDevices.consider.
  destruct (WindowsDevices._get_windows_drive_info h (DeviceDetector.device p))
    as [t info]. cbn [fst snd] in *.
  rewrite bind_ok, Hsys.
  replace (negb (WindowsDevices.get_flag (WindowsDevices.removable info))
           && negb (WindowsDevices.get_flag (WindowsDevices.external info)))
    with false
    by (symmetry; rewrite <- negb_orb; now apply negb_false_iff).
  rewrite Huse. cbn [raise trace outcome fst snd try_except].
  destruct (isinstance e "PermissionError" || isinstance e "FileNotFoundError").
  - cbn [ret]. rewrite !app_nil_r. now rewrite bind_ok.
  - cbn. now rewrite !app_nil_r.
Qed.

Lemma unreadable_drive_skipped_or_fatal_witness :
  outcome
    (WindowsDevices.scan detector_windows
       [{| DeviceDetector.device := "F:\";
           DeviceDetector.partition_mountpoint := "F:\";
           DeviceDetector.fstype := "NTFS";
           DeviceDetector.opts := "rw,removable" |}] [])
  = inl [].
Proof.
  pose proof (unreadable_drive_skipped_or_fatal detector_windows
                {| DeviceDetector.device := "F:\";
                   DeviceDetector.partition_mountpoint := "F:\";
                   DeviceDetector.fstype := "NTFS";
                   DeviceDetector.opts := "rw,removable" |}
                [] []
                (Exc PermissionError "[WinError 5] Access is denied: 'F:\\'")
                eq_refl ltac:(discriminate) eq_refl eq_refl eq_refl) as H.
  exact (f_equal snd H).
Defined.

(** X23: When [wmic] answers with a volume name and a description, that is
    all [_get_windows_drive_info] uses: neither [vol] nor [diskpart] is
    run and no script is written. The label is the volume name without
    surrounding blanks and the flags say whether the lower-cased
    description contains [removable], and [external] or [usb]. *)
Theorem wmic_answer_is_enough h drive_path result volume description :
  let drive_letter := PyStr.rstrip "\" drive_path in
  DeviceDetector.subprocess_run_shell h
    (WindowsDevices.wmic_command drive_letter) = inl result ->
  returncode result = 0 ->
  WindowsDevices.search_after "VolumeName=" (stdout result) = Some volume ->
  PyStr.strip volume <> EmptyString ->
  WindowsDevices.search_after "Description=" (stdout result)
  = Some description ->
  let text := PyCase.lower (PyStr.strip description) in
  WindowsDevices._get_windows_drive_info h drive_path
  = ([Run [WindowsDevices.wmic_command drive_letter]],
     {| WindowsDevices.label := Some (PyStr.strip volume);
        WindowsDevices.removable := Some (PyStr.contains "removable" text);
        WindowsDevices.external :=
          Some (PyStr.contains "external" text || PyStr.contains "usb" text)
     |}).
Proof.
  intros drive_letter Hrun Hrc Hvol Hne Hdesc text.
  unfold WindowsDevices._get_windows_drive_info, WindowsDevices.and_then,
    WindowsDevices.wmic_step, WindowsDevices.vol_step,
    WindowsDevices.diskpart_step.
  fold drive_letter. rewrite Hrun, Hrc, Hvol, Hdesc. cbn [Z.eqb].
  destruct (PyStr.strip volume) as [|c v]; [contradiction|].
  reflexivity.
Qed.

Lemma wmic_answer_is_enough_witness :
  WindowsDevices._get_windows_drive_info detector_windows "E:\"
  = ([Run [WindowsDevices.wmic_command "E:"]],
     {| WindowsDevices.label := Some "UBUNTU";
        WindowsDevices.removable := Some true;
        WindowsDevices.external := Some false |}).
Proof.
  apply (wmic_answer_is_enough detector_windows "E:\"
           {| returncode := 0; stdout := wmic_output "UBUNTU" "Removable Disk";
              stderr := EmptyString |}
           "UBUNTU" "Removable Disk");
    try reflexivity. discriminate.
Defined.

(* ===================================================================== *)
(** ** Parsing a size *)
(* ===================================================================== *)

Module ParseFacts.
Import SizeParse.

Lemma round_half_even_exact w d :
  0 < d -> SizeFormat.round_half_even (w * d) d = w.
Proof.
  intros Hd. unfold SizeFormat.round_half_even.
  rewrite Z.div_mul, Z.mod_mul by lia.
  replace (d <? 2 * 0) with false by (symmetry; apply Z.ltb_ge; lia).
  replace (2 * 0 =? d) with false by (symmetry; apply Z.eqb_neq; lia).
  reflexivity.
Qed.

(** A number with at most 53 significant bits, possibly followed by
    zero bits, is a double. *)
Lemma nearest_double_exact p q v n j :
  0 < q -> p = v * q -> 0 <= n < 2 ^ 53 -> 0 <= j -> v = n * 2 ^ j ->
  v < 2 ^ 1024 ->
  exactly (nearest_double p q) v.
Proof.
  intros Hq Hp Hn Hj Hv Hbound.
  assert (Hpow : 0 < 2 ^ j) by (apply Z.pow_pos_nonneg; lia).
  unfold nearest_double.
  destruct (Z.eqb_spec p 0) as [H0 | H0].
  - left. split; [lia |]. subst p. nia.
  - assert (Hvpos : 0 < v) by nia.
    assert (Hnpos : 0 < n) by nia.
    assert (He : binade p q = Z.log2 v).
    { unfold binade. replace (q <=? p) with true by (symmetry; apply Z.leb_le; nia).
      subst p. now rewrite Z.div_mul by lia. }
    rewrite He.
    assert (Hlog : Z.log2 v = Z.log2 n + j).
    { subst v. rewrite Z.log2_mul_pow2; lia. }
    assert (Hln : 0 <= Z.log2 n <= 52).
    { split; [apply Z.log2_nonneg |].
      assert (Z.log2 n < 53) by (apply Z.log2_lt_pow2; lia). lia. }
    assert (Hlv : Z.log2 v < 1024) by (apply Z.log2_lt_pow2; lia).
    rewrite Z.max_l by lia.
    set (ex := Z.log2 v - 52).
    destruct (Z.leb_spec 0 ex) as [Hex | Hex].
    + assert (Hsplit : v = (n * 2 ^ (j - ex)) * 2 ^ ex).
      { rewrite <- Z.mul_assoc, <- Z.pow_add_r by lia.
        replace (j - ex + ex) with j by lia. exact Hv. }
      assert (Hw : 0 < n * 2 ^ (j - ex)).
      { apply Z.mul_pos_pos; [lia | apply Z.pow_pos_nonneg; lia]. }
      assert (Hd : 0 < q * 2 ^ ex).
      { apply Z.mul_pos_pos; [lia | apply Z.pow_pos_nonneg; lia]. }
      replace p with ((n * 2 ^ (j - ex)) * (q * 2 ^ ex)) by (rewrite Hp, Hsplit at 1; ring).
      rewrite round_half_even_exact by exact Hd.
      replace (n * 2 ^ (j - ex) =? 0) with false by (symmetry; apply Z.eqb_neq; lia).
      assert (Hlw : Z.log2 (n * 2 ^ (j - ex)) + ex = Z.log2 v).
      { rewrite Z.log2_mul_pow2 by lia. lia. }
      replace (1024 <=? Z.log2 (n * 2 ^ (j - ex)) + ex) with false
        by (symmetry; apply Z.leb_gt; lia).
      left. split; [exact Hex | exact Hsplit].
    + assert (Hd : 0 < 2 ^ (- ex)) by (apply Z.pow_pos_nonneg; lia).
      replace (p * 2 ^ (- ex)) with ((v * 2 ^ (- ex)) * q) by (rewrite Hp; ring).
      rewrite round_half_even_exact by exact Hq.
      replace (v * 2 ^ (- ex) =? 0) with false by (symmetry; apply Z.eqb_neq; nia).
      assert (Hlw : Z.log2 (v * 2 ^ (- ex)) + ex = Z.log2 v).
      { rewrite Z.log2_mul_pow2 by lia. lia. }
      replace (1024 <=? Z.log2 (v * 2 ^ (- ex)) + ex) with false
        by (symmetry; apply Z.leb_gt; lia).
      right. split; [exact Hex | reflexivity].
Qed.

Lemma times_exact x v n k j :
  exactly x v -> 0 <= n < 2 ^ 53 -> 0 <= j -> 0 <= k -> v = n * 2 ^ j ->
  v * 2 ^ k < 2 ^ 1024 ->
  exactly (times x (2 ^ k)) (v * 2 ^ k).
Proof.
  intros Hx Hn Hj Hk Hv Hbound.
  assert (Hvk : v * 2 ^ k = n * 2 ^ (j + k)).
  { rewrite Z.pow_add_r by lia. subst v. ring. }
  destruct x as [m ex |]; [| contradiction].
  cbn [times]. destruct Hx as [[Hex Hm] | [Hex Hm]].
  - replace (0 <=? ex) with true by (symmetry; apply Z.leb_le; lia).
    apply (nearest_double_exact _ 1 _ n (j + k)); try lia.
    rewrite Hm. ring.
  - replace (0 <=? ex) with false by (symmetry; apply Z.leb_gt; lia).
    apply (nearest_double_exact _ _ _ n (j + k)); try lia;
      try (apply Z.pow_pos_nonneg; lia).
Qed.

Lemma int_of_exact x v : exactly x v -> int_of x = inl v.
Proof.
  destruct x as [m ex |]; [| contradiction].
  intros [[Hex Hm] | [Hex Hm]]; cbn [int_of].
  - replace (0 <=? ex) with true by (symmetry; apply Z.leb_le; lia).
    now rewrite Hm.
  - replace (0 <=? ex) with false by (symmetry; apply Z.leb_gt; lia).
    rewrite Hm, Z.div_mul; [reflexivity |].
    assert (0 < 2 ^ (- ex)) by (apply Z.pow_pos_nonneg; lia). lia.
Qed.


Lemma all_digits_uint d : all_digits (NilEmpty.string_of_uint d) = true.
Proof. induction d; cbn; auto. Qed.

Lemma digits_value_acc l : forall acc,
  digits_value (Z.pos acc) (NilEmpty.string_of_uint l)
  = Z.pos (Pos.of_uint_acc l acc).
Proof.
  induction l; intros acc; cbn [NilEmpty.string_of_uint digits_value Pos.of_uint_acc];
    try reflexivity;
    match goal with
    | |- digits_value ?a _ = _ =>
        match goal with
        | |- _ = Z.pos (Pos.of_uint_acc _ ?b) =>
            replace a with (Z.pos b) by digit_arith
        end
    end; apply IHl.
Qed.

Lemma digits_value_uint d :
  digits_value 0 (NilEmpty.string_of_uint d) = Z.of_N (Pos.of_uint d).
Proof.
  induction d; cbn [NilEmpty.string_of_uint digits_value Pos.of_uint];
    try reflexivity; try exact IHd;
    match goal with
    | |- digits_value ?a _ = Z.of_N (N.pos (Pos.of_uint_acc _ ?b)) =>
        replace a with (Z.pos b) by digit_arith
    end; apply digits_value_acc.
Qed.

(** [str(n)] for [n >= 0] is a non-empty string of digits that writes
    [n]. *)
Lemma str_of_int_digits n :
  0 <= n ->
  all_digits (PyStr.str_of_int n) = true
  /\ PyStr.str_of_int n <> EmptyString
  /\ digits_value 0 (PyStr.str_of_int n) = n.
Proof.
  intros Hn. unfold PyStr.str_of_int.
  destruct n as [| p | p]; [cbn; repeat split; discriminate | | lia].
  cbn [Z.to_int NilZero.string_of_int].
  assert (Hp : Pos.of_uint (Pos.to_uint p) = N.pos p)
    by apply DecimalPos.Unsigned.of_to.
  unfold NilZero.string_of_uint.
  destruct (Pos.to_uint p) eqn:Hu;
    [cbn in Hp; discriminate | ..];
    (split; [apply all_digits_uint |]);
    (split; [cbn; discriminate |]);
    rewrite digits_value_uint, Hp; reflexivity.
Qed.

Lemma digit_is_number_char c :
  PyStr.is_digit c = true -> is_number_char c = true.
Proof. unfold is_number_char. now intros ->. Qed.

Lemma number_prefix_app a suffix :
  all_digits a = true ->
  (forall c rest, suffix = String c rest -> is_number_char c = false) ->
  number_prefix (a ++ suffix) = a.
Proof.
  intros Ha Hs. induction a as [| c a IH]; cbn in *.
  - destruct suffix as [| c rest]; [reflexivity |].
    cbn. now rewrite (Hs c rest eq_refl).
  - apply andb_true_iff in Ha as [Hc Ha].
    rewrite (digit_is_number_char c Hc), (IH Ha). reflexivity.
Qed.

Lemma take_digits_all a : all_digits a = true -> PyStr.take_digits a = a.
Proof.
  induction a as [| c a IH]; cbn; [reflexivity |].
  intros H. apply andb_true_iff in H as [Hc Ha]. now rewrite Hc, IH.
Qed.

Lemma drop_length_app a b : PyStr.drop (String.length a) (a ++ b) = b.
Proof. induction a; cbn; auto. Qed.

Lemma drop_length a : PyStr.drop (String.length a) a = EmptyString.
Proof. induction a; cbn; auto. Qed.

Lemma append_nil a : (a ++ EmptyString)%string = a.
Proof. induction a; cbn; congruence. Qed.

Lemma float_of_digits a :
  all_digits a = true -> a <> EmptyString ->
  float_of_text a = Some (nearest_double (digits_value 0 a) 1).
Proof.
  intros Ha Hne. unfold float_of_text, fraction_part, whole_part.
  rewrite (take_digits_all a Ha), drop_length, append_nil.
  cbn [all_digits andb String.length].
  destruct a; [congruence | reflexivity].
Qed.

Lemma multiplier_is_power unit :
  exists k, 0 <= k <= 40 /\ multipliers_get unit = 2 ^ k.
Proof.
  unfold multipliers_get.
  repeat match goal with
         | |- context [String.eqb ?a ?b] => destruct (String.eqb a b)
         end;
    [exists 0 | exists 10 | exists 20 | exists 30 | exists 40 | exists 0];
    (split; [lia | reflexivity]).
Qed.

Lemma unit_multiplier suffix :
  multipliers_get
    match suffix with
    | String c _ =>
        if PyStr.mem_char c "KMGT" then String c EmptyString else EmptyString
    | EmptyString => EmptyString
    end
  = match suffix with
    | String "K" _ => 1024
    | String "M" _ => 1024 ^ 2
    | String "G" _ => 1024 ^ 3
    | String "T" _ => 1024 ^ 4
    | _ => 1
    end.
Proof.
  destruct suffix as [| c rest]; [reflexivity |].
  destruct c as [[] [] [] [] [] [] [] []]; reflexivity.
Qed.

End ParseFacts.

(** X24: [_parse_size] is exact on whole numbers: when the text is
    ASCII and, stripped and in upper case, is a whole number [n] below
    2^53 followed by anything that does not begin with a digit or a dot,
    the result is [n] times 1024, 1024^2, 1024^3 or 1024^4 if [K], [M],
    [G] or [T] comes next, and [n] itself otherwise. Whatever follows
    the unit letter is ignored, and lower-case units count. *)
Theorem parse_size_whole_number size_str n suffix :
  isascii size_str = true ->
  0 <= n < 2 ^ 53 ->
  PyCase.upper (PyStr.strip size_str) = (PyStr.str_of_int n ++ suffix)%string ->
  (forall c rest, suffix = String c rest -> SizeParse.is_number_char c = false) ->
  SizeParse._parse_size size_str
  = inl (n * match suffix with
             | String "K" _ => 1024
             | String "M" _ => 1024 ^ 2
             | String "G" _ => 1024 ^ 3
             | String "T" _ => 1024 ^ 4
             | _ => 1
             end).
Proof.
  intros _ Hn Hs Hsuffix.
  destruct (ParseFacts.str_of_int_digits n) as (Hdigits & Hne & Hvalue);
    [lia |].
  unfold SizeParse._parse_size. rewrite Hs.
  rewrite (ParseFacts.number_prefix_app _ _ Hdigits Hsuffix).
  pose proof (ParseFacts.float_of_digits _ Hdigits Hne) as Hfloat.
  rewrite Hvalue in Hfloat.
  pose proof (ParseFacts.drop_length_app (PyStr.str_of_int n) suffix) as Hdrop.
  destruct (PyStr.str_of_int n) as [| c digits]; [congruence |].
  cbv iota. rewrite Hfloat, Hdrop.
  rewrite <- ParseFacts.unit_multiplier.
  destruct (ParseFacts.multiplier_is_power
              match suffix with
              | String c _ =>
                  if PyStr.mem_char c "KMGT" then String c EmptyString
                  else EmptyString
              | EmptyString => EmptyString
              end) as (k & Hk & ->).
  apply ParseFacts.int_of_exact.
  assert (Hpow : 2 ^ k <= 2 ^ 40) by (apply Z.pow_le_mono_r; lia).
  assert (Hbig : 2 ^ 53 * 2 ^ 40 < 2 ^ 1024) by (vm_compute; reflexivity).
  assert (Hk0 : 0 < 2 ^ k) by (apply Z.pow_pos_nonneg; lia).
  assert (Hone : 2 ^ 53 < 2 ^ 1024) by (vm_compute; reflexivity).
  assert (Hprod : n * 2 ^ k < 2 ^ 1024) by nia.
  apply (ParseFacts.times_exact _ n n k 0); try lia.
  apply (ParseFacts.nearest_double_exact _ 1 n n 0); lia.
Qed.

Module MalformedFacts.
Import SizeParse.

Lemma number_char_cases c :
  is_number_char c = true ->
  (PyStr.is_digit c = true /\ Ascii.eqb c "." = false)
  \/ (PyStr.is_digit c = false /\ c = "."%char).
Proof.
  unfold is_number_char. intros H.
  destruct (Ascii.eqb_spec c "."%char) as [Heq | Hne].
  - right. split; [rewrite Heq; reflexivity | exact Heq].
  - left. rewrite orb_false_r in H. now split.
Qed.

(** A text of digits and dots is one that [number_prefix] takes whole. *)
Lemma number_text_inv c g :
  number_prefix (String c g) = String c g ->
  is_number_char c = true /\ number_prefix g = g.
Proof.
  cbn. destruct (is_number_char c); [| discriminate].
  intros H. split; [reflexivity | congruence].
Qed.

Lemma number_prefix_idem s : number_prefix (number_prefix s) = number_prefix s.
Proof.
  induction s as [| c s IH]; cbn; [reflexivity |].
  destruct (is_number_char c) eqn:Hc; cbn; [| reflexivity].
  now rewrite Hc, IH.
Qed.

Lemma all_digits_no_dots f :
  number_prefix f = f -> (all_digits f = true <-> dots f = 0%nat).
Proof.
  induction f as [| c f IH]; intros Hf; [cbn; tauto |].
  apply number_text_inv in Hf as [Hc Hf].
  cbn [all_digits dots].
  destruct (number_char_cases c Hc) as [[Hd Hdot] | [Hd ->]].
  - rewrite Hd, Hdot. cbn. exact (IH Hf).
  - rewrite Hd. cbn. split; [discriminate | lia].
Qed.

Lemma all_digits_has_digit f :
  all_digits f = true -> (has_digit f = false <-> f = EmptyString).
Proof.
  destruct f as [| c f]; cbn; [tauto |].
  intros H. apply andb_true_iff in H as [-> _]. cbn.
  split; discriminate.
Qed.

Lemma whole_fraction_digit c g :
  PyStr.is_digit c = true ->
  whole_part (String c g) = String c (whole_part g)
  /\ fraction_part (String c g) = fraction_part g.
Proof.
  intros Hc. unfold fraction_part, whole_part. cbn. rewrite Hc. cbn.
  split; reflexivity.
Qed.

Lemma whole_fraction_dot c g :
  PyStr.is_digit c = false ->
  whole_part (String c g) = EmptyString
  /\ fraction_part (String c g) = g.
Proof.
  intros Hc. unfold fraction_part, whole_part. cbn. rewrite Hc. cbn.
  split; reflexivity.
Qed.

Lemma fraction_digits g :
  number_prefix g = g ->
  (all_digits (fraction_part g) = true <-> (dots g <= 1)%nat).
Proof.
  induction g as [| c g IH]; intros Hg; [cbn; split; [lia | reflexivity] |].
  apply number_text_inv in Hg as [Hc Hg].
  destruct (number_char_cases c Hc) as [[Hd Hdot] | [Hd ->]].
  - destruct (whole_fraction_digit c g Hd) as [_ ->].
    cbn [dots]. rewrite Hdot. exact (IH Hg).
  - destruct (whole_fraction_dot "." g Hd) as [_ ->].
    cbn [dots]. cbn [Ascii.eqb Bool.eqb andb].
    rewrite (all_digits_no_dots g Hg). lia.
Qed.

Lemma no_digit_written g :
  number_prefix g = g ->
  all_digits (fraction_part g) = true ->
  ((whole_part g ++ fraction_part g)%string = EmptyString
   <-> has_digit g = false).
Proof.
  destruct g as [| c g]; intros Hg Hf; [cbn; tauto |].
  apply number_text_inv in Hg as [Hc Hg].
  destruct (number_char_cases c Hc) as [[Hd Hdot] | [Hd ->]].
  - destruct (whole_fraction_digit c g Hd) as [-> _].
    cbn. rewrite Hd. cbn. split; discriminate.
  - destruct (whole_fraction_dot "." g Hd) as [Hw Hfr].
    rewrite Hw, Hfr in *. cbn [append has_digit]. rewrite Hd. cbn [orb].
    symmetry. exact (all_digits_has_digit g Hf).
Qed.

(** [float(text)] fails exactly on two or more dots or no digit. *)
Lemma float_of_text_none g :
  number_prefix g = g ->
  (float_of_text g = None
   <-> (2 <= dots g)%nat \/ has_digit g = false).
Proof.
  intros Hg. unfold float_of_text.
  pose proof (fraction_digits g Hg) as Hfr.
  destruct (all_digits (fraction_part g)) eqn:Hall.
  - pose proof (no_digit_written g Hg Hall) as Hno.
    assert (Hdots : (dots g <= 1)%nat) by (apply Hfr; reflexivity).
    cbn [andb].
    destruct (String.eqb_spec (whole_part g ++ fraction_part g) EmptyString)
      as [He | He]; cbn [negb].
    + split; [intros _; right; now apply Hno | reflexivity].
    + split; [discriminate |].
      intros [H | H]; [lia |]. apply Hno in H. contradiction.
  - cbn [andb]. split; [intros _; left | reflexivity].
    destruct (Nat.le_gt_cases (dots g) 1) as [H | H]; [| lia].
    apply Hfr in H. discriminate.
Qed.

Lemma digits_value_nonneg s : forall acc,
  all_digits s = true -> 0 <= acc -> 0 <= digits_value acc s.
Proof.
  induction s as [| c s IH]; intros acc Hs Hacc; cbn [digits_value];
    [exact Hacc |].
  cbn [all_digits] in Hs. apply andb_true_iff in Hs as [Hc Hs].
  apply IH; [exact Hs |].
  unfold PyStr.is_digit in Hc. apply andb_true_iff in Hc as [Hlo Hhi].
  apply Nat.leb_le in Hlo. lia.
Qed.

Lemma all_digits_app a b :
  all_digits a = true -> all_digits b = true -> all_digits (a ++ b) = true.
Proof.
  induction a as [| c a IH]; cbn; [auto |].
  intros Ha Hb. apply andb_true_iff in Ha as [-> Ha]. cbn. auto.
Qed.

Lemma all_digits_take s : all_digits (PyStr.take_digits s) = true.
Proof.
  induction s as [| c s IH]; cbn; [reflexivity |].
  destruct (PyStr.is_digit c) eqn:Hc; cbn; [now rewrite Hc | reflexivity].
Qed.

Lemma round_half_even_nonneg a d :
  0 <= a -> 0 < d -> 0 <= SizeFormat.round_half_even a d.
Proof.
  intros Ha Hd. unfold SizeFormat.round_half_even.
  assert (0 <= a / d) by (apply Z.div_pos; lia).
  destruct (_ || _); lia.
Qed.

Lemma nearest_double_nonneg p q :
  0 <= p -> 0 < q -> not_negative (nearest_double p q).
Proof.
  intros Hp Hq. unfold nearest_double.
  destruct (p =? 0); [cbn; lia |].
  set (ex := Z.max (binade p q - 52) (-1074)).
  assert (Hm : 0 <= (if 0 <=? ex
                     then SizeFormat.round_half_even p (q * 2 ^ ex)
                     else SizeFormat.round_half_even (p * 2 ^ (- ex)) q)).
  { destruct (Z.leb_spec 0 ex).
    - apply round_half_even_nonneg; [lia |].
      apply Z.mul_pos_pos; [lia | apply Z.pow_pos_nonneg; lia].
    - apply round_half_even_nonneg; [| lia].
      apply Z.mul_nonneg_nonneg; [lia | apply Z.pow_nonneg; lia]. }
  destruct (_ =? 0); [cbn; lia |].
  destruct (1024 <=? _); cbn; [exact I | exact Hm].
Qed.

Lemma times_nonneg x n : not_negative x -> 0 <= n -> not_negative (times x n).
Proof.
  destruct x as [m ex |]; cbn [times not_negative]; [| auto].
  intros Hm Hn. destruct (Z.leb_spec 0 ex).
  - apply nearest_double_nonneg; [| lia].
    apply Z.mul_nonneg_nonneg; [nia | apply Z.pow_nonneg; lia].
  - apply nearest_double_nonneg; [nia | apply Z.pow_pos_nonneg; lia].
Qed.

Lemma int_of_nonneg x v : not_negative x -> int_of x = inl v -> 0 <= v.
Proof.
  destruct x as [m ex |]; cbn [int_of not_negative]; [| discriminate].
  intros Hm [= <-]. destruct (Z.leb_spec 0 ex).
  - apply Z.mul_nonneg_nonneg; [lia | apply Z.pow_nonneg; lia].
  - apply Z.div_pos; [lia | apply Z.pow_pos_nonneg; lia].
Qed.

Lemma float_of_text_nonneg g x :
  float_of_text g = Some x -> not_negative x.
Proof.
  unfold float_of_text.
  destruct (all_digits (fraction_part g)) eqn:Hall; [| discriminate].
  destruct (negb _); cbn [andb]; [| discriminate].
  intros [= <-]. apply nearest_double_nonneg.
  - apply digits_value_nonneg; [| lia].
    apply all_digits_app; [apply all_digits_take | exact Hall].
  - apply Z.pow_pos_nonneg; lia.
Qed.

Lemma multiplier_nonneg unit : 0 <= multipliers_get unit.
Proof.
  unfold multipliers_get.
  repeat match goal with
         | |- context [String.eqb ?a ?b] => destruct (String.eqb a b)
         end; lia.
Qed.

Lemma int_of_not_ValueError x msg :
  int_of x <> inr (Exc (UserDefined "ValueError") msg).
Proof. destruct x; cbn; discriminate. Qed.

End MalformedFacts.

(** X25: for ASCII text, [_parse_size] returns 0 if the text, stripped,
    does not begin with a digit or a dot. If it does, [_parse_size]
    raises [ValueError] (it does not return 0) exactly when the leading
    run of digits and dots has two or more dots or no digit; and it
    never returns a negative number. *)
Theorem parse_size_malformed_number size_str :
  isascii size_str = true ->
  let group :=
    SizeParse.number_prefix (PyCase.upper (PyStr.strip size_str)) in
  (group = EmptyString -> SizeParse._parse_size size_str = inl 0)
  /\ (group <> EmptyString ->
      ((2 <= SizeParse.dots group)%nat \/ SizeParse.has_digit group = false)
      <-> SizeParse._parse_size size_str
          = inr (Exc (UserDefined "ValueError")
                   ("could not convert string to float: '" ++ group ++ "'")))
  /\ (forall v, SizeParse._parse_size size_str = inl v -> 0 <= v).
Proof.
  intros _ group.
  pose proof (MalformedFacts.float_of_text_none group
                (MalformedFacts.number_prefix_idem _)) as Hnone.
  pose proof (MalformedFacts.float_of_text_nonneg group) as Hpos.
  unfold SizeParse._parse_size. fold group.
  destruct group as [| c g] eqn:Hgroup.
  - split; [reflexivity |]. split; [congruence |]. intros v [= <-]. lia.
  - split; [discriminate |].
    destruct (SizeParse.float_of_text (String c g)) as [value |] eqn:Hfloat.
    + split.
      * intros _. split.
        -- intros H. apply Hnone in H. discriminate.
        -- intros H. now apply MalformedFacts.int_of_not_ValueError in H.
      * intros v Hv.
        apply (MalformedFacts.int_of_nonneg _ v) in Hv; [exact Hv |].
        apply MalformedFacts.times_nonneg;
          [now apply Hpos | apply MalformedFacts.multiplier_nonneg].
    + split; [| discriminate].
      intros _. split; [reflexivity |]. intros _. now apply Hnone.
Qed.

Lemma parse_size_malformed_number_witness :
  SizeParse._parse_size " 1.2.3g"
  = inr (Exc (UserDefined "ValueError")
           "could not convert string to float: '1.2.3'").
Proof.
  apply (proj1 (proj2 (parse_size_malformed_number " 1.2.3g" eq_refl))).
  - discriminate.
  - left. vm_compute. lia.
Defined.

Lemma parse_size_whole_number_witness :
  SizeParse._parse_size (" 16gb" ++ nl) = inl (16 * 1024 ^ 3).
Proof.
  apply (parse_size_whole_number (" 16gb" ++ nl) 16 "GB").
  - reflexivity.
  - split; [lia | reflexivity].
  - reflexivity.
  - intros c rest H. injection H as <- _. reflexivity.
Defined.

(* ===================================================================== *)
(** ** Listing devices on macOS *)
(* ===================================================================== *)

Module MacFacts.
Import DeviceDetector MacDevices.

Lemma findall_ids_digits s :
  Forall (fun id => id <> EmptyString /\ all_digits id = true)
    (findall_disk_ids s).
Proof.
  induction s as [| c s IH]; cbn [findall_disk_ids]; [constructor |].
  destruct (PyStr.startswith "/dev/disk" (String c s)); [| exact IH].
  pose proof (MalformedFacts.all_digits_take (PyStr.drop 9 (String c s))) as Hd.
  destruct (PyStr.take_digits (PyStr.drop 9 (String c s))) as [| a ds];
    [exact IH |].
  constructor; [split; [discriminate | exact Hd] | exact IH].
Qed.

Lemma until_close_nonempty close line group :
  until_close close line = Some group -> group <> EmptyString.
Proof.
  destruct line as [| c rest]; cbn; [discriminate |].
  destruct (PyStr.startswith close rest); [intros [= <-]; discriminate |].
  destruct (until_close close rest); intros [= <-]; discriminate.
Qed.

Lemma search_string_tag_nonempty name s group :
  search_string_tag name s = Some group -> group <> EmptyString.
Proof.
  induction s as [| c s IH]; cbn [search_string_tag];
    destruct (string_tag_here name _) as [g |] eqn:Hhere;
    try discriminate; try exact IH;
    intros [= <-]; unfold string_tag_here in Hhere;
    repeat match type of Hhere with
           | (if ?b then _ else _) = _ => destruct b; [| discriminate]
           end;
    now apply until_close_nonempty in Hhere.
Qed.

(** One pass of the loop: the device list is unchanged or gets one
    device that comes from this disk. *)
Lemma visit_listed h all : forall disk_ids devices devs,
  incl disk_ids all ->
  Forall (fun id => id <> EmptyString /\ all_digits id = true) disk_ids ->
  Forall (fun d => exists id, In id all /\ from_disk h id d) devices ->
  outcome (visit h disk_ids devices) = inl devs ->
  Forall (fun d => exists id, In id all /\ from_disk h id d) devs.
Proof.
  induction disk_ids as [| disk_id rest IH];
    intros devices devs Hincl Hids Hdev Hout.
  - cbn in Hout. now injection Hout as <-.
  - assert (Hrest : incl rest all)
      by (intros x Hx; apply Hincl; now right).
    inversion Hids as [| ? ? [Hne Hdig] Hids']; subst.
    cbn [visit] in Hout.
    rewrite EjectFacts.run_eq, outcome_bind in Hout. cbn [outcome snd] in Hout.
    destruct (subprocess_run h ["diskutil"; "info"; "-plist";
                                ("/dev/disk" ++ disk_id)%string])
      as [info | e] eqn:Hrun; [| discriminate].
    destruct (Z.eqb_spec (returncode info) 0) as [Hrc | Hrc];
      cbn [negb] in Hout; [| now apply (IH devices)].
    rewrite outcome_bind in Hout.
    destruct (outcome
                match search_integer_tag "TotalSize" (stdout info) with
                | Some group => int_of_digits group
                | None => ret 0
                end) as [size_bytes | e]; [| discriminate].
    destruct (search_string_tag "MountPoint" (stdout info))
      as [mountpoint |] eqn:Hmount; [| now apply (IH devices)].
    destruct (String.eqb_spec mountpoint EmptyString) as [He | He];
      [now apply (IH devices) |].
    destruct (SizeFormat._format_size size_bytes) as [text |] eqn:Hfmt;
      [| discriminate].
    eapply IH; [exact Hrest | exact Hids' | | exact Hout].
    apply Forall_app. split; [exact Hdev |].
    constructor; [| constructor].
    exists disk_id. split; [apply Hincl; now left |].
    unfold from_disk, info_command. cbn.
    repeat (split; [first [assumption | reflexivity] |]).
    split; [| auto].
    exists info. auto.
Qed.

End MacFacts.

Module MacTraceFacts.
Import DeviceDetector MacDevices.

Lemma int_of_digits_trace digits : trace (int_of_digits digits) = [].
Proof. unfold int_of_digits. now destruct (_ <? _)%nat. Qed.

(** A pass of the loop that returns has run one [diskutil info] per
    disk number, in order, and has added at most one device for each. *)
Lemma visit_commands h : forall disk_ids devices devs,
  outcome (visit h disk_ids devices) = inl devs ->
  trace (visit h disk_ids devices)
  = map (fun id => Run (info_command id)) disk_ids
  /\ (List.length devs <= List.length devices + List.length disk_ids)%nat.
Proof.
  induction disk_ids as [| disk_id rest IH]; intros devices devs Hout.
  - cbn in *. injection Hout as <-. split; [reflexivity | lia].
  - cbn [visit] in *.
    rewrite EjectFacts.run_eq in *.
    rewrite trace_bind. rewrite outcome_bind in Hout.
    cbn [outcome trace fst snd] in *.
    destruct (subprocess_run h ["diskutil"; "info"; "-plist";
                                ("/dev/disk" ++ disk_id)%string])
      as [info | e]; [| discriminate].
    cbn [map List.length app]. unfold info_command at 1.
    assert (Hskip :
      outcome (visit h rest devices) = inl devs ->
      Run ["diskutil"; "info"; "-plist"; ("/dev/disk" ++ disk_id)%string]
      :: trace (visit h rest devices)
      = Run ["diskutil"; "info"; "-plist"; ("/dev/disk" ++ disk_id)%string]
        :: map (fun id => Run (info_command id)) rest
      /\ (List.length devs <= List.length devices + S (List.length rest))%nat).
    { intros H. destruct (IH _ _ H) as [-> Hlen]. split; [reflexivity | lia]. }
    destruct (negb (returncode info =? 0)); [exact (Hskip Hout) |].
    rewrite trace_bind. rewrite outcome_bind in Hout.
    assert (Hsize :
      trace match search_integer_tag "TotalSize" (stdout info) with
            | Some group => int_of_digits group
            | None => ret 0
            end = []).
    { destruct (search_integer_tag _ _);
        [apply int_of_digits_trace | reflexivity]. }
    rewrite Hsize. cbn [app].
    destruct (outcome
                match search_integer_tag "TotalSize" (stdout info) with
                | Some group => int_of_digits group
                | None => ret 0
                end) as [size_bytes | e]; [| discriminate].
    destruct (String.eqb _ EmptyString); [exact (Hskip Hout) |].
    destruct (SizeFormat._format_size size_bytes) as [text |];
      [| discriminate].
    destruct (IH _ _ Hout) as [-> Hlen]. split; [reflexivity |].
    rewrite length_app in Hlen. cbn in Hlen. lia.
Qed.

End MacTraceFacts.

(** X26: Every device that [_get_macos_devices] lists comes from a disk
    number found after [/dev/disk] in the output of [diskutil list]:
    [diskutil info] answered for it with status 0 and named a mount
    point, which is not empty; name and file system are the ones in
    that answer, or [Disk <number>] and [Unknown]; the device is flagged
    removable and external. A disk without a mount point is never
    listed. If [diskutil list] does not exit with status 0 the list is
    empty. *)
Theorem macos_listing_lists_mounted_disks h devices :
  outcome (MacDevices._get_macos_devices h) = inl devices ->
  exists result,
    DeviceDetector.subprocess_run h ["diskutil"; "list"; "-plist"; "external"]
    = inl result
    /\ (returncode result <> 0 -> devices = [])
    /\ Forall (fun d =>
                 exists disk_id,
                   In disk_id (MacDevices.findall_disk_ids (stdout result))
                   /\ MacDevices.from_disk h disk_id d) devices.
Proof.
  unfold MacDevices._get_macos_devices.
  rewrite EjectFacts.run_eq, outcome_bind. cbn [outcome snd].
  destruct (DeviceDetector.subprocess_run h _) as [result | e];
    [| discriminate].
  intros Hout. exists result. split; [reflexivity |].
  destruct (Z.eqb_spec (returncode result) 0) as [Hrc | Hrc];
    cbn [negb] in Hout.
  - split; [congruence |].
    apply (MacFacts.visit_listed h
             (MacDevices.findall_disk_ids (stdout result))
             (MacDevices.findall_disk_ids (stdout result)) [] devices);
      auto using incl_refl, MacFacts.findall_ids_digits.
  - cbn in Hout. injection Hout as <-. split; [reflexivity | constructor].
Qed.

Lemma macos_listing_lists_mounted_disks_witness :
  exists result,
    DeviceDetector.subprocess_run detector_macos
      ["diskutil"; "list"; "-plist"; "external"] = inl result
    /\ (returncode result <> 0 -> [ubuntu_stick; ubuntu_stick] = [])
    /\ Forall (fun d =>
                 exists disk_id,
                   In disk_id (MacDevices.findall_disk_ids (stdout result))
                   /\ MacDevices.from_disk detector_macos disk_id d)
         [ubuntu_stick; ubuntu_stick].
Proof.
  apply (macos_listing_lists_mounted_disks detector_macos).
  vm_compute. reflexivity.
Defined.

(** X27: [_get_macos_devices] asks [diskutil info] once for every
    occurrence of [/dev/disk<digits>] in the output of [diskutil list],
    in the order of the occurrences: a disk named twice there is asked
    about twice, and listed twice if it is mounted. A listing that
    returns has run exactly these commands and has at most as many
    devices as there are occurrences. If [diskutil list] exits with
    another status than 0 nothing else is run and the list is empty; if
    it cannot be started its error is raised. *)
Theorem macos_listing_commands h :
  let list_command := ["diskutil"; "list"; "-plist"; "external"] in
  let r := MacDevices._get_macos_devices h in
  match DeviceDetector.subprocess_run h list_command with
  | inr e => r = ([Run list_command], inr e)
  | inl result =>
      if returncode result =? 0 then
        forall devices,
          outcome r = inl devices ->
          let disk_ids := MacDevices.findall_disk_ids (stdout result) in
          trace r
          = Run list_command
            :: map (fun id => Run (MacDevices.info_command id)) disk_ids
          /\ (List.length devices <= List.length disk_ids)%nat
      else r = ([Run list_command], inl [])
  end.
Proof.
  intros list_command r. subst r list_command.
  unfold MacDevices._get_macos_devices.
  rewrite EjectFacts.run_eq.
  destruct (DeviceDetector.subprocess_run h _) as [result | e];
    [| reflexivity].
  cbn [bind].
  destruct (Z.eqb_spec (returncode result) 0) as [Hrc | Hrc]; cbn [negb];
    [| reflexivity].
  intros devices Hout.
  pose proof (MacTraceFacts.visit_commands h
                (MacDevices.findall_disk_ids (stdout result)) [] devices)
    as Hvisit.
  destruct (MacDevices.visit h (MacDevices.findall_disk_ids (stdout result)) [])
    as [t res].
  cbn [outcome trace fst snd app] in *.
  destruct (Hvisit Hout) as [-> Hlen]. split; [reflexivity | exact Hlen].
Qed.

Lemma macos_listing_commands_witness :
  trace (MacDevices._get_macos_devices detector_macos)
  = [Run ["diskutil"; "list"; "-plist"; "external"];
     Run ["diskutil"; "info"; "-plist"; "/dev/disk2"];
     Run ["diskutil"; "info"; "-plist"; "/dev/disk2"];
     Run ["diskutil"; "info"; "-plist"; "/dev/disk3"]]
  /\ (List.length [ubuntu_stick; ubuntu_stick] <= 3)%nat.
Proof.
  apply (macos_listing_commands detector_macos [ubuntu_stick; ubuntu_stick]).
  vm_compute. reflexivity.
Defined.

(* ===================================================================== *)
(** ** Downloading an image *)
(* ===================================================================== *)

Module DownloadFacts.
Import Download.

Lemma events_and_then {A B} (m : D A) (k : A -> D B) :
  fst (and_then m k)
  = fst m ++ match snd m with
             | inl a => fst (k a)
             | inr _ => []
             end.
Proof.
  destruct m as [t [a | e]]; cbn.
  - now destruct (k a).
  - now rewrite app_nil_r.
Qed.

Lemma result_and_then {A B} (m : D A) (k : A -> D B) :
  snd (and_then m k)
  = match snd m with
    | inl a => snd (k a)
    | inr e => inr e
    end.
Proof. destruct m as [t [a | e]]; cbn; [now destruct (k a) | reflexivity]. Qed.

Lemma written_app t1 t2 : written (t1 ++ t2) = written t1 ++ written t2.
Proof.
  induction t1 as [| ev t1 IH]; [reflexivity |].
  destruct ev; cbn; rewrite ?IH, ?app_assoc; reflexivity.
Qed.

Lemma written_write chunk t : written (Write chunk :: t) = chunk ++ written t.
Proof. reflexivity. Qed.

(** A progress update is at most one report. *)
Lemma report_progress_events downloaded total_size :
  fst (report_progress downloaded total_size) = []
  \/ exists p msg, fst (report_progress downloaded total_size) = [Report p msg].
Proof.
  unfold report_progress, lift.
  destruct (percentage downloaded total_size) as [p | e]; [| now left].
  destruct (format_size downloaded) as [a | e]; [| now left].
  destruct (format_size total_size) as [b | e]; [| now left].
  right. cbn. eauto.
Qed.

(** What the loop does: it writes and reports and nothing else, it
    reports only to a callback, and if it ends it has written all the
    bytes received and counted them. *)
Lemma receive_spec total_size cb : forall chunks downloaded,
  let r := receive chunks total_size cb downloaded in
  filter is_remove (fst r) = []
  /\ filter is_create (fst r) = []
  /\ (cb = NoCallback -> filter is_report (fst r) = [])
  /\ (forall n, snd r = inl n ->
      written (fst r) = List.concat chunks
      /\ n = downloaded + Z.of_nat (List.length (List.concat chunks))).
Proof.
  induction chunks as [| chunk rest IH]; intros downloaded r; subst r.
  - cbn. repeat split; auto. injection H as <-. lia.
  - cbn [receive]. destruct chunk as [| b chunk]; [exact (IH downloaded) |].
    set (d := downloaded + Z.of_nat (List.length (b :: chunk))).
    specialize (IH d). cbn zeta in IH.
    destruct IH as (Hrm & Hcr & Hrep & Hok).
    rewrite ?events_and_then, ?result_and_then.
    cbn [tell fst snd].
    set (u := if (0 <? total_size) && has_callback cb
              then report_progress d total_size else pure tt) in *.
    assert (Hu : fst u = [] \/ exists p msg, fst u = [Report p msg]).
    { subst u. destruct (_ && _); [apply report_progress_events | now left]. }
    assert (Hu' : cb = NoCallback -> fst u = []).
    { intros ->. subst u. now rewrite andb_false_r. }
    destruct u as [tu [[] | e]]; cbn [fst snd] in *.
    + rewrite !filter_app, Hrm, Hcr.
      repeat split.
      * destruct Hu as [-> | (p & msg & ->)]; reflexivity.
      * destruct Hu as [-> | (p & msg & ->)]; reflexivity.
      * intros Hcb. rewrite (Hu' Hcb), (Hrep Hcb). reflexivity.
      * destruct (Hok n H) as [Hw _].
        cbn [app List.concat]. rewrite written_write, written_app, Hw.
        destruct Hu as [-> | (p & msg & ->)]; reflexivity.
      * destruct (Hok n H) as [_ ->]. subst d.
        cbn [List.concat]. rewrite length_app. cbn [List.length]. lia.
    + rewrite app_nil_r.
      repeat split; try discriminate.
      * destruct Hu as [-> | (p & msg & ->)]; reflexivity.
      * destruct Hu as [-> | (p & msg & ->)]; reflexivity.
      * intros Hcb. now rewrite (Hu' Hcb).
Qed.


(** The body of the second [try]: it begins with the request, removes
    nothing, creates at most the file, and if it returns it has written
    the whole body to the file it created. *)
Lemma transfer_spec net url save_path cb :
  let r := transfer net url save_path cb in
  (exists t, fst r = Get url :: t)
  /\ filter is_remove (fst r) = []
  /\ (forall e, requests_get net url = inr e -> r = ([Get url], inr e))
  /\ (forall path, snd r = inl path ->
      path = save_path
      /\ exists response,
           requests_get net url = inl response
           /\ status_error response = None
           /\ body_error response = None
           /\ written (fst r) = List.concat (body response)
           /\ filter is_create (fst r) = [Create save_path]
           /\ match cb with
              | Callback =>
                  exists t text,
                    fst r = t ++ [Report 100 ("Download complete: " ++ text)]
                    /\ format_size
                         (Z.of_nat (List.length (List.concat (body response))))
                       = inl text
              | NoCallback => filter is_report (fst r) = []
              end).
Proof.
  intros r. subst r. unfold transfer.
  rewrite ?events_and_then, ?result_and_then. cbn [tell lift fst snd app].
  split; [eauto |].
  destruct (requests_get net url) as [response | e0].
  2:{ repeat split; try discriminate.
      intros e [= <-]. reflexivity. }
  destruct (status_error response) as [e1 |] eqn:Hstatus.
  { repeat split; discriminate. }
  rewrite ?events_and_then, ?result_and_then.
  match goal with
  | |- context [fst ?m ++ _] => set (size := m) in *
  end.
  assert (Hsize : fst size = [])
    by (subst size; now destruct (content_length response)).
  destruct size as [ts [total_size | e2]]; cbn [fst snd] in *; subst ts;
    cbn [app].
  2:{ repeat split; discriminate. }
  destruct (open_wb net save_path) as [e3 |].
  { repeat split; discriminate. }
  rewrite ?events_and_then, ?result_and_then. cbn [tell fst snd app].
  rewrite ?events_and_then, ?result_and_then.
  destruct (receive_spec total_size cb (body response) 0)
    as (Hrm & Hcr & Hrep & Hok). cbn zeta in *.
  destruct (receive (body response) total_size cb 0) as [t [downloaded | e4]];
    cbn [fst snd] in *.
  2:{ rewrite app_nil_r. split; [exact Hrm |].
      split; [discriminate |]. discriminate. }
  destruct (Hok downloaded eq_refl) as [Hw Hn].
  destruct (body_error response) as [e5 |] eqn:Hbody.
  { cbn [fail fst snd]. rewrite app_nil_r. split; [exact Hrm |].
    split; discriminate. }
  rewrite ?events_and_then, ?result_and_then.
  destruct cb; cbn [has_callback].
  - cbn [pure fst snd app]. rewrite app_nil_r.
    split; [exact Hrm |]. split; [discriminate |].
    intros path [= <-]. split; [reflexivity |].
    exists response. repeat split; auto.
    cbn [filter is_create]. now rewrite Hcr.
  - rewrite ?events_and_then, ?result_and_then. cbn [lift fst snd app].
    destruct (format_size downloaded) as [text | e6] eqn:Hfmt;
      cbn [tell pure fst snd app].
    + rewrite ?app_nil_r. cbn [filter is_remove]. rewrite filter_app, Hrm.
      split; [reflexivity |]. split; [discriminate |].
      intros path [= <-]. split; [reflexivity |].
      exists response. repeat split; auto.
      * change (written (t ++ [Report 100 ("Download complete: " ++ text)])
                = List.concat (body response)).
        rewrite written_app, Hw. cbn. now rewrite app_nil_r.
      * change (Create save_path
                :: filter is_create
                     (t ++ [Report 100 ("Download complete: " ++ text)])
                = [Create save_path]).
        rewrite filter_app, Hcr. reflexivity.
      * exists (Get url :: Create save_path :: t), text.
        split; [reflexivity |]. rewrite <- Hfmt. f_equal. lia.
    + rewrite ?app_nil_r. split; [exact Hrm |]. split; discriminate.
Qed.

End DownloadFacts.

(** X28: [download_iso] checks the URL before anything else: when
    [urlparse] fails, or finds no scheme or no host, it raises
    [ValueError] with [Invalid URL: <url>] and has done nothing, no
    directory is made and no request is sent. Otherwise it makes the
    directory of the target first and, if that succeeds, sends the
    request next; an error of [makedirs] is raised as it is, before any
    request. *)
Theorem download_validates_url_first net url save_path cb :
  let r := Download.download_iso net url save_path cb in
  let directory := Download.save_directory net save_path in
  let valid :=
    match Download.urlparse net url with
    | inl (scheme, netloc) =>
        negb (scheme =? EmptyString)%string
        && negb (netloc =? EmptyString)%string
    | inr _ => false
    end in
  if valid then
    match Download.makedirs net directory with
    | Some e => r = ([Download.MakeDirs directory], inr e)
    | None =>
        exists t, fst r = Download.MakeDirs directory :: Download.Get url :: t
    end
  else r = ([], inr (Exc (UserDefined "ValueError") ("Invalid URL: " ++ url))).
Proof.
  intros r directory valid. subst r directory valid.
  unfold Download.download_iso.
  destruct (Download.urlparse net url) as [[scheme netloc] | e];
    [| reflexivity].
  destruct (scheme =? EmptyString)%string; [reflexivity |].
  destruct (netloc =? EmptyString)%string; [reflexivity |].
  cbn [negb andb orb].
  rewrite DownloadFacts.events_and_then. cbn [Download.tell fst snd app].
  destruct (Download.makedirs net _) as [e |]; [reflexivity |].
  destruct (DownloadFacts.transfer_spec net url save_path cb)
    as ((t & Ht) & _).
  cbn [Download.and_then Download.tell].
  destruct (Download.transfer net url save_path cb) as [t' [path | e]];
    cbn [fst snd app] in *; subst t'.
  - eexists; reflexivity.
  - destruct (Download.is_request_exception net e);
      [| eexists; reflexivity].
    destruct (_ || _); cbn [fst app]; eexists; reflexivity.
Qed.

(** X29: when [download_iso] returns, it returns [save_path], and the
    bytes it has written to the file it created there are the bytes of
    the response body, all of them and in order (empty chunks are
    skipped). It has created that one file and removed nothing. With a
    callback the last thing it did was to report 100 with the total
    number of bytes; without one it has reported nothing. *)
Theorem download_writes_what_it_receives net url save_path cb path :
  let r := Download.download_iso net url save_path cb in
  snd r = inl path ->
  path = save_path
  /\ exists response,
       Download.requests_get net url = inl response
       /\ Download.written (fst r) = List.concat (Download.body response)
       /\ filter Download.is_create (fst r) = [Download.Create save_path]
       /\ filter Download.is_remove (fst r) = []
       /\ match cb with
          | Callback =>
              exists t text,
                fst r
                = t ++ [Download.Report 100 ("Download complete: " ++ text)]
                /\ Download.format_size
                     (Z.of_nat (List.length (List.concat (Download.body response))))
                   = inl text
          | NoCallback => filter Download.is_report (fst r) = []
          end.
Proof.
  intros r. subst r. unfold Download.download_iso.
  destruct (Download.urlparse net url) as [[scheme netloc] | e];
    [| discriminate].
  destruct (_ || _); [discriminate |].
  rewrite DownloadFacts.events_and_then, DownloadFacts.result_and_then.
  cbn [Download.tell fst snd app].
  destruct (Download.makedirs net _) as [e |]; [discriminate |].
  destruct (DownloadFacts.transfer_spec net url save_path cb)
    as (_ & Hrm & _ & Hok).
  destruct (Download.transfer net url save_path cb) as [t [p | e]];
    cbn [fst snd] in *.
  2:{ destruct (Download.is_request_exception net e); [| discriminate].
      destruct (_ || _); discriminate. }
  intros [= <-].
  destruct (Hok p eq_refl) as (-> & response & Hget & _ & _ & Hw & Hcr & Hcb).
  split; [reflexivity |]. exists response.
  repeat (split; [assumption |]).
  destruct cb; [exact Hcb |].
  destruct Hcb as (t0 & text & -> & Hfmt).
  exists (Download.MakeDirs (Download.save_directory net save_path) :: t0), text.
  split; [reflexivity | exact Hfmt].
Qed.

(** X30: when [download_iso] fails after the directory has been made,
    it removes the file at [save_path] exactly when the error is a
    [RequestException] and the file exists, that is, it was there
    before or has been created by this call; the removal is the last
    thing done and the error is raised as it is. So a request that
    fails deletes a file that was at [save_path] before, although
    nothing has been downloaded; and an error that is not a
    [RequestException] (the file cannot be opened, the length header is
    not a number) leaves what has been written. *)
Theorem download_failure_cleanup net url save_path cb e :
  let r := Download.download_iso net url save_path cb in
  let directory := Download.save_directory net save_path in
  Download.makedirs net directory = None ->
  fst r <> [] ->
  snd r = inr e ->
  let attempt := Download.transfer net url save_path cb in
  let cleanup :=
    if Download.is_request_exception net e
       && (Download.existed net save_path
           || existsb Download.is_create (fst attempt))
    then [Download.Remove save_path] else [] in
  snd attempt = inr e
  /\ fst r = Download.MakeDirs directory :: fst attempt ++ cleanup
  /\ filter Download.is_remove (fst r) = cleanup
  /\ (forall e', Download.requests_get net url = inr e' ->
      e' = e
      /\ fst r
         = [Download.MakeDirs directory; Download.Get url]
           ++ (if Download.is_request_exception net e
                  && Download.existed net save_path
               then [Download.Remove save_path] else [])).
Proof.
  intros r directory Hdirs Hstarted Hfail attempt cleanup.
  subst r directory attempt cleanup.
  unfold Download.download_iso in *.
  destruct (Download.urlparse net url) as [[scheme netloc] | e0];
    [| now cbn in Hstarted].
  destruct (_ || _); [now cbn in Hstarted |].
  rewrite DownloadFacts.events_and_then, DownloadFacts.result_and_then in *.
  cbn [Download.tell fst snd app] in *.
  rewrite Hdirs in *.
  destruct (DownloadFacts.transfer_spec net url save_path cb)
    as (_ & Hrm & Hget & _).
  destruct (Download.transfer net url save_path cb) as [t [p | e1]] eqn:Ht;
    cbn [fst snd] in *; [discriminate |].
  assert (He : e1 = e).
  { destruct (Download.is_request_exception net e1);
      [destruct (_ || _) |]; cbn in Hfail; congruence. }
  subst e1.
  destruct (Download.is_request_exception net e) eqn:Hreq;
    [destruct (Download.existed net save_path
               || existsb Download.is_create t) eqn:Hex |];
    cbn [fst snd andb] in *; rewrite ?app_nil_r;
    (split; [reflexivity |]); (split; [reflexivity |]);
    (split;
     [cbn [filter Download.is_remove]; rewrite ?filter_app, Hrm; reflexivity |]);
    intros e' Hr; specialize (Hget e' Hr); injection Hget as -> ->;
    (split; [reflexivity |]);
    cbn [existsb Download.is_create orb] in *;
    try rewrite orb_false_r in Hex; try rewrite Hex; reflexivity.
Qed.

Lemma download_writes_what_it_receives_witness :
  "/tmp/u.iso" = "/tmp/u.iso"
  /\ exists response,
       Download.requests_get net_ok "https://example.org/u.iso" = inl response
       /\ Download.written
            (fst (Download.download_iso net_ok "https://example.org/u.iso"
                    "/tmp/u.iso" Callback))
          = List.concat (Download.body response)
       /\ filter Download.is_create
            (fst (Download.download_iso net_ok "https://example.org/u.iso"
                    "/tmp/u.iso" Callback))
          = [Download.Create "/tmp/u.iso"]
       /\ filter Download.is_remove
            (fst (Download.download_iso net_ok "https://example.org/u.iso"
                    "/tmp/u.iso" Callback))
          = []
       /\ exists t text,
            fst (Download.download_iso net_ok "https://example.org/u.iso"
                   "/tmp/u.iso" Callback)
            = t ++ [Download.Report 100 ("Download complete: " ++ text)]
            /\ Download.format_size
                 (Z.of_nat (List.length (List.concat (Download.body response))))
               = inl text.
Proof.
  apply (download_writes_what_it_receives net_ok "https://example.org/u.iso"
           "/tmp/u.iso" Callback "/tmp/u.iso").
  vm_compute. reflexivity.
Defined.

Lemma download_failure_cleanup_witness :
  fst (Download.download_iso net_404 "https://example.org/u.iso" "/tmp/u.iso"
         NoCallback)
  = [Download.MakeDirs "/tmp"; Download.Get "https://example.org/u.iso";
     Download.Remove "/tmp/u.iso"].
Proof.
  apply (download_failure_cleanup net_404 "https://example.org/u.iso"
           "/tmp/u.iso" NoCallback not_found).
  - reflexivity.
  - vm_compute. discriminate.
  - vm_compute. reflexivity.
Defined.
